(** * Voucher service: redemption engine and voucher administration

    A shallow embedding of [src/server.js] and [src/middleware/auth.js].
    The Express handlers are written as programs over the storage calls
    they await; the Supabase tables are lists of rows; every storage call
    may fail, and the store generates ids and timestamps.  Requests can be
    run alone, from start to finish, or interleaved with other requests at
    their storage calls. *)

From Stdlib Require Import ZArith List String Bool Lia DecimalString.
Import ListNotations.
Open Scope string_scope.
Open Scope Z_scope.

Set Implicit Arguments.

(** ** JavaScript values *)

(** [x && ...] and [x || y] on a number that may be null or undefined:
    null, undefined and 0 are falsy. *)
Definition truthy (x : option Z) : bool :=
  match x with
  | Some z => negb (z =? 0)
  | None => false
  end.

(** [x || y] for a possibly absent number [x]. *)
Definition or_num (x : option Z) (y : Z) : Z :=
  if truthy x then match x with Some z => z | None => y end else y.

(** [x || y] for a value whose present forms are all truthy (a non-empty
    string, an enum tag) and a second operand that may be null. *)
Definition or_else {T : Type} (x y : option T) : option T :=
  match x with
  | Some _ => x
  | None => y
  end.

(** Template-literal rendering of an integer. *)
Definition num_to_string (z : Z) : string :=
  NilZero.string_of_int (Z.to_int z).

(** [s || null] for a string that may be undefined: the empty string is
    falsy as well. *)
Definition or_null (s : option string) : option string :=
  match s with
  | Some x => if (x =? "")%string then None else s
  | None => None
  end.

(** *** Numbers

    A JavaScript number is an IEEE 754 binary64 value.  The amounts of
    this service are integers, so a number is modelled by the integer it
    holds, and every arithmetic result is rounded as the machine rounds
    it: to the nearest value with a 53-bit significand, ties to the even
    one.  Results stay finite as long as they are below 2^1024; the
    definitions below do not describe an overflow to Infinity. *)

(** [Number.MAX_SAFE_INTEGER], 2^53 - 1. *)
Definition MAX_SAFE_INTEGER : Z := 9007199254740991.

(** [Number.isSafeInteger]: every integer of this range is a number, and
    sums, differences and products that stay in it are exact. *)
Definition safe_integer (z : Z) : Prop :=
  - MAX_SAFE_INTEGER <= z <= MAX_SAFE_INTEGER.

(** The integer nearest to [n / d], the even one of two that are equally
    near ([0 <= n], [0 < d]). *)
Definition nearest_even (n d : Z) : Z :=
  let q := n / d in
  let r := n mod d in
  if (d <? 2 * r) || ((2 * r =? d) && Z.odd q) then q + 1 else q.

(** The binary64 value of an integer result [z]: [z] itself while it fits
    in 53 bits, otherwise [z] rounded at its bit [e]. *)
Definition to_double (z : Z) : Z :=
  let e := Z.log2 (Z.abs z) - 52 in
  if e <=? 0 then z
  else Z.sgn z * nearest_even (Z.abs z) (2 ^ e) * 2 ^ e.

(** [n / d / 2^e] as a fraction of integers. *)
Definition scaled (n d e : Z) : Z * Z :=
  if 0 <=? e then (n, d * 2 ^ e) else (n * 2 ^ (- e), d).

(** The exponent of [n / d]: the [k] with [2^k <= n / d < 2^(k+1)]
    ([0 < n], [0 < d]). *)
Definition binade (n d : Z) : Z :=
  let k := Z.log2 n - Z.log2 d in
  let '(n', d') := scaled n d k in
  if d' <=? n' then k else k - 1.

(** [Math.floor(p / d)] for integers [p] and [d], [0 < d]: the quotient
    is rounded to a 53-bit significand [m] at exponent [e], and the floor
    is taken of the rounded value [m * 2^e]. *)
Definition floor_of_quotient (p d : Z) : Z :=
  if p =? 0 then 0
  else
    let e := binade (Z.abs p) d - 52 in
    let '(n', d') := scaled (Z.abs p) d e in
    let m := Z.sgn p * nearest_even n' d' in
    if 0 <=? e then m * 2 ^ e else m / 2 ^ (- e).

(** ** Data model (the tables of the README schema) *)

Inductive DiscountType := PERCENT | FIXED.

Inductive Status := SUCCESS | CANCELLED | REFUNDED.

Definition DiscountType_eqb (a b : DiscountType) : bool :=
  match a, b with
  | PERCENT, PERCENT | FIXED, FIXED => true
  | _, _ => false
  end.

(** Timestamps are milliseconds since the epoch, the value [new Date(s)]
    compares by. *)
Definition Timestamp := Z.

Module Voucher.
Record t := mk {
  id : string;
  code : string;
  name : string;
  description : option string;
  discount_type : DiscountType;
  discount_value : Z;
  currency : string;
  min_order_amount : Z;
  max_discount_amount : option Z;
  max_total_redemptions : Z;
  total_redeemed : Z;
  start_at : option Timestamp;
  end_at : option Timestamp;
  is_active : bool;
  created_by : string
}.

(** [{ ...v, total_redeemed: n }] *)
Definition set_total_redeemed (n : Z) (v : t) : t :=
  mk (id v) (code v) (name v) (description v) (discount_type v)
     (discount_value v) (currency v) (min_order_amount v)
     (max_discount_amount v) (max_total_redemptions v) n
     (start_at v) (end_at v) (is_active v) (created_by v).
End Voucher.

Module Redemption.
Record t := mk {
  id : string;
  voucher_id : string;
  user_id : string;
  order_id : option string;
  order_amount : Z;
  discount_amount : Z;
  final_amount : Z;
  status : Status;
  redeemed_at : Timestamp
}.
End Redemption.

(** The store: the [vouchers] and [voucher_redemptions] tables. *)
Record DB := mkDB {
  vouchers : list Voucher.t;
  voucher_redemptions : list Redemption.t
}.

Definition empty_db : DB := mkDB [] [].

(** ** Request bodies *)

(** Body of POST /vouchers.  A field the schema marks [optional()] or
    [default(...)] may be absent. *)
Module CreateBody.
Record t := mk {
  code : string;
  name : string;
  description : option string;
  discount_type : DiscountType;
  discount_value : Z;
  currency : option string;
  min_order_amount : option Z;
  max_discount_amount : option Z;
  max_total_redemptions : option Z;
  start_at : option Timestamp;
  end_at : option Timestamp
}.
End CreateBody.

(** Body of PUT /vouchers/:id, every field optional. *)
Module UpdateBody.
Record t := mk {
  name : option string;
  description : option string;
  discount_type : option DiscountType;
  discount_value : option Z;
  currency : option string;
  min_order_amount : option Z;
  max_discount_amount : option Z;
  max_total_redemptions : option Z;
  start_at : option Timestamp;
  end_at : option Timestamp;
  is_active : option bool
}.

Definition empty : t :=
  mk None None None None None None None None None None None.
End UpdateBody.

(** Body of POST /vouchers/:code/redeem. *)
Module RedeemBody.
Record t := mk {
  order_amount : Z;
  order_id : option string
}.
End RedeemBody.

(** [req.user], as attached by [authenticateToken]; [role] is the nullable
    text column of the profile. *)
Record User := mkUser {
  user_id : string;
  email : string;
  role : option string
}.

(** ** Responses *)

(** The JSON bodies the handlers send.  The [success] flag and the free
    text the store or the validator supplies ([detail], [details]) are
    left out. *)
Inductive Body :=
| JError (error message : string)
| JErrorStartAt (error message : string) (start_at : option Timestamp)
| JErrorExpiredAt (error message : string) (expired_at : option Timestamp)
| JErrorRedeemedAt (error message : string) (redeemed_at : Timestamp)
| JErrorTotalRedeemed (error message : string) (total_redeemed : Z)
| JVoucher (message : string) (data : option Voucher.t)
| JMessage (message : string)
| JRedeemed (message : string)
    (voucher_code voucher_name : string) (discount_type : DiscountType)
    (discount_value order_amount discount_amount final_amount : Z)
    (currency : string) (redeemed_at : Timestamp).

Record Response := mkResponse {
  status : Z;
  body : Body
}.

(** [res.status(s).json(b)]; [res.json(b)] sends status 200. *)
Definition json (s : Z) (b : Body) : Response := mkResponse s b.

(** ** Storage calls *)

(** [{ data, error }] as returned by a Supabase query: [error = true]
    stands for a non-null error object, [data = None] for null. *)
Record Result (T : Type) := mkResult {
  data : option T;
  error : bool
}.

Definition ok {T : Type} (x : T) : Result T := mkResult (Some x) false.
Definition ok_empty {T : Type} : Result T := mkResult None false.
Definition failed {T : Type} : Result T := mkResult None true.

(** [.single()]: the rows must be exactly one, anything else is an error
    with null data. *)
Definition single {T : Type} (rows : list T) : Result T :=
  match rows with
  | [r] => ok r
  | _ => failed
  end.

(** The storage calls the handlers await, indexed by what they return. *)
Inductive DbOp : Type -> Type :=
(* from("vouchers").select("*").eq("code", code).single() *)
| SelectVoucherByCode (code : string) : DbOp (Result Voucher.t)
(* from("vouchers").select(...).eq("id", id).single() *)
| SelectVoucherById (id : string) : DbOp (Result Voucher.t)
(* from("vouchers").insert([row]).select().single(); the store fills [id] *)
| InsertVoucher (row : string -> Voucher.t) : DbOp (Result Voucher.t)
(* from("vouchers").update(updateData).eq("id", id).select().single() *)
| UpdateVoucher (id : string) (updateData : UpdateBody.t)
    : DbOp (Result Voucher.t)
(* from("vouchers").update({ total_redeemed }).eq("id", id)
   and, when [eq_total_redeemed] is given, .eq("total_redeemed", ...) *)
| UpdateTotalRedeemed (id : string) (eq_total_redeemed : option Z)
    (total_redeemed : Z) : DbOp (Result unit)
(* from("vouchers").delete().eq("id", id) *)
| DeleteVoucher (id : string) : DbOp (Result unit)
(* from("voucher_redemptions").select("*").eq("voucher_id", v)
     .eq("user_id", u).single() *)
| SelectRedemption (voucher_id user_id : string) : DbOp (Result Redemption.t)
(* from("voucher_redemptions").insert([row]).select().single(); the store
   fills [id] and [redeemed_at] *)
| InsertRedemption (row : string -> Timestamp -> Redemption.t)
    : DbOp (Result Redemption.t).

(** What the outside world contributes to one storage call: whether the
    call fails (network or storage fault, constraint violation), the id the
    store generates for an inserted row, and the store's clock. *)
Record Tick := mkTick {
  fails : bool;
  uuid : string;
  clock : Timestamp
}.

Definition apply_update (u : UpdateBody.t) (v : Voucher.t) : Voucher.t :=
  let upd {T : Type} (o : option T) (d : T) : T :=
    match o with Some x => x | None => d end in
  Voucher.mk (Voucher.id v) (Voucher.code v)
    (upd (UpdateBody.name u) (Voucher.name v))
    (or_else (UpdateBody.description u) (Voucher.description v))
    (upd (UpdateBody.discount_type u) (Voucher.discount_type v))
    (upd (UpdateBody.discount_value u) (Voucher.discount_value v))
    (upd (UpdateBody.currency u) (Voucher.currency v))
    (upd (UpdateBody.min_order_amount u) (Voucher.min_order_amount v))
    (or_else (UpdateBody.max_discount_amount u) (Voucher.max_discount_amount v))
    (upd (UpdateBody.max_total_redemptions u) (Voucher.max_total_redemptions v))
    (Voucher.total_redeemed v)
    (or_else (UpdateBody.start_at u) (Voucher.start_at v))
    (or_else (UpdateBody.end_at u) (Voucher.end_at v))
    (upd (UpdateBody.is_active u) (Voucher.is_active v))
    (Voucher.created_by v).

Definition has_id (i : string) (v : Voucher.t) : bool :=
  (Voucher.id v =? i)%string.

Definition has_code (c : string) (v : Voucher.t) : bool :=
  (Voucher.code v =? c)%string.

Definition of_voucher_user (vid uid : string) (r : Redemption.t) : bool :=
  (Redemption.voucher_id r =? vid)%string
  && (Redemption.user_id r =? uid)%string.

(** The row filter of the counter update: [.eq("id", i)] and, when given,
    [.eq("total_redeemed", e)]. *)
Definition counter_filter (i : string) (e : option Z) (v : Voucher.t) : bool :=
  has_id i v &&
  match e with
  | Some expected => Voucher.total_redeemed v =? expected
  | None => true
  end.

Definition update_where {T : Type} (p : T -> bool) (f : T -> T)
    (rows : list T) : list T :=
  map (fun r => if p r then f r else r) rows.

(** One storage call against the store.  A failing call leaves the store
    as it was.  The primary key of each table is unique: an insert whose
    generated id is taken fails.  A write ending in [.single()] that
    matches other than one row fails and writes nothing. *)
Definition exec (t : Tick) {R : Type} (op : DbOp R) (db : DB) : R * DB :=
  match op in DbOp R return R * DB with
  | SelectVoucherByCode c =>
      if fails t then (failed, db)
      else (single (filter (has_code c) (vouchers db)), db)
  | SelectVoucherById i =>
      if fails t then (failed, db)
      else (single (filter (has_id i) (vouchers db)), db)
  | InsertVoucher row =>
      if fails t || existsb (has_id (uuid t)) (vouchers db) then (failed, db)
      else (ok (row (uuid t)),
            mkDB (vouchers db ++ [row (uuid t)])%list (voucher_redemptions db))
  | UpdateVoucher i u =>
      if fails t then (failed, db)
      else match filter (has_id i) (vouchers db) with
           | [v] => (ok (apply_update u v),
                     mkDB (update_where (has_id i) (apply_update u)
                             (vouchers db))
                          (voucher_redemptions db))
           | _ => (failed, db)
           end
  | UpdateTotalRedeemed i e n =>
      if fails t then (failed, db)
      else (ok_empty,
            mkDB (update_where (counter_filter i e)
                    (Voucher.set_total_redeemed n) (vouchers db))
                 (voucher_redemptions db))
  | DeleteVoucher i =>
      if fails t then (failed, db)
      else (ok_empty,
            mkDB (filter (fun v => negb (has_id i v)) (vouchers db))
                 (voucher_redemptions db))
  | SelectRedemption vid uid =>
      if fails t then (failed, db)
      else (single (filter (of_voucher_user vid uid)
                      (voucher_redemptions db)), db)
  | InsertRedemption row =>
      if fails t
         || existsb (fun r => (Redemption.id r =? uuid t)%string)
              (voucher_redemptions db)
      then (failed, db)
      else (ok (row (uuid t) (clock t)),
            mkDB (vouchers db)
                 (voucher_redemptions db ++ [row (uuid t) (clock t)])%list)
  end.

(** A storage call as it appears in the log of a request. *)
Inductive Event := Ev (R : Type) (op : DbOp R).

Arguments Ev {R} op.

Definition is_write (e : Event) : bool :=
  match e with
  | Ev op =>
      match op with
      | SelectVoucherByCode _ | SelectVoucherById _
      | SelectRedemption _ _ => false
      | _ => true
      end
  end.

(** The voucher fetch by code, and the optimistic-locking counter update. *)
Definition is_fetch_by_code (e : Event) : bool :=
  match e with
  | Ev op =>
      match op with
      | SelectVoucherByCode _ => true
      | _ => false
      end
  end.

Definition is_conditional_update (e : Event) : bool :=
  match e with
  | Ev op =>
      match op with
      | UpdateTotalRedeemed _ (Some _) _ => true
      | _ => false
      end
  end.

(** ** Handlers as programs over storage calls *)

(** An async handler: it either sends its response or awaits a storage
    call and continues with the result. *)
Inductive Prog (A : Type) : Type :=
| Ret (a : A)
| Call (R : Type) (op : DbOp R) (k : R -> Prog A).

Arguments Ret {A} a.
Arguments Call {A R} op k.

Notation "x <~ op ;; k" := (Call op (fun x => k))
  (at level 61, op at next level, right associativity).

(** Running one request from start to finish with no other request in
    between: call number [n] is served with [ticks n].  The result is the
    response, the final store and the calls made, oldest first. *)
Fixpoint run {A : Type} (p : Prog A) (ticks : nat -> Tick) (n : nat)
    (db : DB) : A * DB * list Event :=
  match p with
  | Ret a => (a, db, [])
  | Call op k =>
      let '(r, db') := exec (ticks n) op db in
      let '(a, db'', log) := run (k r) ticks (S n) db' in
      (a, db'', Ev op :: log)
  end.

(** One storage call of one in-flight request; a finished request stays
    as it is. *)
Definition step {A : Type} (t : Tick) (p : Prog A) (db : DB)
    : Prog A * DB :=
  match p with
  | Ret _ => (p, db)
  | Call op k => let '(r, db') := exec t op db in (k r, db')
  end.

(** Several in-flight requests sharing the store.  A schedule names, call
    by call, which request proceeds and with which tick. *)
Definition Pool := list (Prog Response).

Fixpoint step_nth (i : nat) (t : Tick) (pool : Pool) (db : DB)
    : Pool * DB :=
  match pool, i with
  | [], _ => ([], db)
  | p :: rest, O => let '(p', db') := step t p db in (p' :: rest, db')
  | p :: rest, S j =>
      let '(rest', db') := step_nth j t rest db in (p :: rest', db')
  end.

Fixpoint interleave (schedule : list (nat * Tick)) (pool : Pool) (db : DB)
    : Pool * DB :=
  match schedule with
  | [] => (pool, db)
  | (i, t) :: schedule' =>
      let '(pool', db') := step_nth i t pool db in
      interleave schedule' pool' db'
  end.

(** The response of a finished request. *)
Definition response_of (p : Prog Response) : option Response :=
  match p with
  | Ret r => Some r
  | Call _ _ => None
  end.

(** ** Middleware (src/middleware/auth.js) *)

(** [req.user.role !== r] is [negb (role_is r u)]. *)
Definition role_is (r : string) (u : User) : bool :=
  match role u with
  | Some x => (x =? r)%string
  | None => false
  end.

(** A middleware either responds itself or calls [next()], which runs the
    rest of the route with the authenticated user. *)
Definition requireAdmin (user : option User) (next : User -> Prog Response)
    : Prog Response :=
  match user with
  | None => Ret (json 401 (JError "Unauthorized" "User belum terautentikasi"))
  | Some u =>
      if negb (role_is "ADMIN" u) then
        Ret (json 403 (JError "Forbidden"
          "Akses ditolak. Hanya ADMIN yang bisa mengakses endpoint ini"))
      else next u
  end.

Definition requireUser (user : option User) (next : User -> Prog Response)
    : Prog Response :=
  match user with
  | None => Ret (json 401 (JError "Unauthorized" "User belum terautentikasi"))
  | Some u =>
      if negb (role_is "USER" u) then
        Ret (json 403 (JError "Forbidden"
          "Endpoint ini hanya untuk USER biasa"))
      else next u
  end.

(** ** Validation schemas (src/server.js) *)

Definition length_between (lo hi : nat) (s : string) : bool :=
  Nat.leb lo (String.length s) && Nat.leb (String.length s) hi.

Definition opt_all {T : Type} (p : T -> bool) (x : option T) : bool :=
  match x with
  | Some v => p v
  | None => true
  end.

Definition default {T : Type} (d : T) (x : option T) : T :=
  match x with
  | Some v => v
  | None => d
  end.

Definition createVoucherSchema (b : CreateBody.t) : bool :=
  length_between 3 50 (CreateBody.code b)
  && length_between 3 255 (CreateBody.name b)
  && (0 <? CreateBody.discount_value b)
  && opt_all (fun x => 0 <=? x) (CreateBody.min_order_amount b)
  && opt_all (fun x => 0 <=? x) (CreateBody.max_discount_amount b)
  && opt_all (fun x => 0 <? x) (CreateBody.max_total_redemptions b).

Definition redeemVoucherSchema (b : RedeemBody.t) : bool :=
  0 <? RedeemBody.order_amount b.

Definition updateSchema (b : UpdateBody.t) : bool :=
  opt_all (length_between 3 255) (UpdateBody.name b)
  && opt_all (fun x => 0 <? x) (UpdateBody.discount_value b)
  && opt_all (fun x => 0 <=? x) (UpdateBody.min_order_amount b)
  && opt_all (fun x => 0 <=? x) (UpdateBody.max_discount_amount b)
  && opt_all (fun x => 0 <? x) (UpdateBody.max_total_redemptions b).

(** ** Redemption (POST /vouchers/:code/redeem) *)

(** [error || !data] is [found r = None]. *)
Definition found {T : Type} (r : Result T) : option T :=
  if error r then None else data r.

(** [startAt && now < startAt] *)
Definition not_started (now : Timestamp) (v : Voucher.t) : bool :=
  match Voucher.start_at v with
  | Some startAt => now <? startAt
  | None => false
  end.

(** [endAt && now > endAt] *)
Definition expired (now : Timestamp) (v : Voucher.t) : bool :=
  match Voucher.end_at v with
  | Some endAt => endAt <? now
  | None => false
  end.

(** The "Hitung discount amount" block.  The product and the quotient of
    [Math.floor((order_amount * voucher.discount_value) / 100)] are each
    rounded as a binary64 operation. *)
Definition discount_amount (voucher : Voucher.t) (order_amount : Z) : Z :=
  match Voucher.discount_type voucher with
  | PERCENT =>
      let discount_amount :=
        floor_of_quotient
          (to_double (order_amount * Voucher.discount_value voucher)) 100 in
      (* voucher.max_discount_amount && discount_amount > ... *)
      if truthy (Voucher.max_discount_amount voucher)
         && opt_all (fun m => m <? discount_amount)
              (Voucher.max_discount_amount voucher)
      then default discount_amount (Voucher.max_discount_amount voucher)
      else discount_amount
  | FIXED =>
      let discount_amount := Voucher.discount_value voucher in
      if order_amount <? discount_amount then order_amount
      else discount_amount
  end.

(** [order_amount - discount_amount], a binary64 subtraction. *)
Definition final_amount (voucher : Voucher.t) (order_amount : Z) : Z :=
  to_double (order_amount - discount_amount voucher order_amount).

(** The part of the handler from the counter update on. *)
Definition commit (userId : string) (voucher : Voucher.t)
    (order_amount : Z) (order_id : option string) : Prog Response :=
  let newTotalRedeemed := Voucher.total_redeemed voucher + 1 in
  upd <~ UpdateTotalRedeemed (Voucher.id voucher)
           (Some (Voucher.total_redeemed voucher)) newTotalRedeemed ;;
  if error upd then
    Ret (json 500 (JError "Database Error"
      "Gagal memproses redeem, silakan coba lagi"))
  else
    ins <~ InsertRedemption (fun id redeemed_at =>
             Redemption.mk id (Voucher.id voucher) userId (or_null order_id)
               order_amount (discount_amount voucher order_amount)
               (final_amount voucher order_amount) SUCCESS redeemed_at) ;;
    if error ins then
      (* Rollback *)
      _ <~ UpdateTotalRedeemed (Voucher.id voucher) None
             (Voucher.total_redeemed voucher) ;;
      Ret (json 500 (JError "Database Error" "Gagal menyimpan redemption"))
    else
      match data ins with
      | Some redemption =>
          Ret (json 200 (JRedeemed "Voucher berhasil digunakan!"
            (Voucher.code voucher) (Voucher.name voucher)
            (Voucher.discount_type voucher) (Voucher.discount_value voucher)
            order_amount (discount_amount voucher order_amount)
            (final_amount voucher order_amount) (Voucher.currency voucher)
            (Redemption.redeemed_at redemption)))
      | None =>
          (* redemption.redeemed_at on null throws into the catch block *)
          Ret (json 500 (JError "Internal Server Error"
            "Terjadi kesalahan saat redeem voucher"))
      end.

(** The handler proper; [now] is the value of [new Date()]. *)
Definition redeem_handler (code : string) (body : RedeemBody.t)
    (now : Timestamp) (user : User) : Prog Response :=
  let userId := user_id user in
  if negb (redeemVoucherSchema body) then
    Ret (json 400 (JError "Validation Error" "Data redeem tidak valid"))
  else
    let order_amount := RedeemBody.order_amount body in
    let order_id := RedeemBody.order_id body in
    sel <~ SelectVoucherByCode code ;;
    match found sel with
    | None =>
        Ret (json 404 (JError "Not Found"
          ("Voucher dengan code '" ++ code ++ "' tidak ditemukan")))
    | Some voucher =>
        if negb (Voucher.is_active voucher) then
          Ret (json 400 (JError "Bad Request" "Voucher sudah tidak aktif"))
        else if not_started now voucher then
          Ret (json 400 (JErrorStartAt "Bad Request"
            "Voucher belum bisa digunakan" (Voucher.start_at voucher)))
        else if expired now voucher then
          Ret (json 400 (JErrorExpiredAt "Bad Request"
            "Voucher sudah expired" (Voucher.end_at voucher)))
        else if Voucher.max_total_redemptions voucher
                <=? Voucher.total_redeemed voucher then
          Ret (json 400 (JError "Bad Request"
            "Voucher sudah habis digunakan"))
        else if order_amount <? Voucher.min_order_amount voucher then
          Ret (json 400 (JError "Bad Request"
            ("Minimum order amount adalah " ++ Voucher.currency voucher
             ++ " " ++ num_to_string (Voucher.min_order_amount voucher))))
        else
          red <~ SelectRedemption (Voucher.id voucher) userId ;;
          match data red with
          | Some existingRedeem =>
              Ret (json 400 (JErrorRedeemedAt "Bad Request"
                "Kamu sudah pernah menggunakan voucher ini"
                (Redemption.redeemed_at existingRedeem)))
          | None => commit userId voucher order_amount order_id
          end
    end.

(** app.post("/vouchers/:code/redeem", authenticateToken, requireUser, ...)
    from [requireUser] on; [user] is what [authenticateToken] attached. *)
Definition post_redeem (user : option User) (code : string)
    (body : RedeemBody.t) (now : Timestamp) : Prog Response :=
  requireUser user (redeem_handler code body now).

(** ** Voucher administration *)

(** [discountType === "PERCENT" && discountValue > 100] *)
Definition percent_over_100 (discountType : DiscountType)
    (discountValue : Z) : bool :=
  DiscountType_eqb discountType PERCENT && (100 <? discountValue).

(** [startAt && endAt && new Date(endAt) < new Date(startAt)] *)
Definition end_before_start (startAt endAt : option Timestamp) : bool :=
  match startAt, endAt with
  | Some s, Some e => e <? s
  | _, _ => false
  end.

(** POST /vouchers *)
Definition create_handler (b : CreateBody.t) (user : User)
    : Prog Response :=
  if negb (createVoucherSchema b) then
    Ret (json 400 (JError "Validation Error" "Data voucher tidak valid"))
  else if percent_over_100 (CreateBody.discount_type b)
            (CreateBody.discount_value b) then
    Ret (json 400 (JError "Validation Error"
      "Discount value untuk tipe PERCENT tidak boleh lebih dari 100"))
  else if end_before_start (CreateBody.start_at b) (CreateBody.end_at b)
  then
    Ret (json 400 (JError "Validation Error"
      "end_at harus lebih besar atau sama dengan start_at"))
  else
    sel <~ SelectVoucherByCode (CreateBody.code b) ;;
    match data sel with
    | Some existing =>
        Ret (json 409 (JError "Conflict"
          ("Voucher dengan code '" ++ CreateBody.code b ++ "' sudah ada")))
    | None =>
        ins <~ InsertVoucher (fun id =>
                 Voucher.mk id (CreateBody.code b) (CreateBody.name b)
                   (CreateBody.description b) (CreateBody.discount_type b)
                   (CreateBody.discount_value b)
                   (default "IDR" (CreateBody.currency b))
                   (default 0 (CreateBody.min_order_amount b))
                   (CreateBody.max_discount_amount b)
                   (default 1 (CreateBody.max_total_redemptions b))
                   0
                   (CreateBody.start_at b) (CreateBody.end_at b)
                   true (user_id user)) ;;
        if error ins then
          Ret (json 500 (JError "Database Error" "Gagal membuat voucher"))
        else
          Ret (json 201 (JVoucher "Voucher berhasil dibuat" (data ins)))
    end.

Definition post_vouchers (user : option User) (b : CreateBody.t)
    : Prog Response :=
  requireAdmin user (create_handler b).

(** PUT /vouchers/:id *)
Definition update_handler (id : string) (updateData : UpdateBody.t)
    (user : User) : Prog Response :=
  if negb (updateSchema updateData) then
    Ret (json 400 (JError "Validation Error" "Data update tidak valid"))
  else
    sel <~ SelectVoucherById id ;;
    match found sel with
    | None =>
        Ret (json 404 (JError "Not Found"
          ("Voucher dengan ID '" ++ id ++ "' tidak ditemukan")))
    | Some existing =>
        let discountType :=
          default (Voucher.discount_type existing)
            (UpdateBody.discount_type updateData) in
        let discountValue :=
          or_num (UpdateBody.discount_value updateData)
            (Voucher.discount_value existing) in
        if percent_over_100 discountType discountValue then
          Ret (json 400 (JError "Validation Error"
            "Discount value untuk tipe PERCENT tidak boleh lebih dari 100"))
        else
          let startAt :=
            or_else (UpdateBody.start_at updateData)
              (Voucher.start_at existing) in
          let endAt :=
            or_else (UpdateBody.end_at updateData)
              (Voucher.end_at existing) in
          if end_before_start startAt endAt then
            Ret (json 400 (JError "Validation Error"
              "end_at harus lebih besar atau sama dengan start_at"))
          else
            upd <~ UpdateVoucher id updateData ;;
            if error upd then
              Ret (json 500 (JError "Database Error" "Gagal update voucher"))
            else
              Ret (json 200 (JVoucher "Voucher berhasil diupdate" (data upd)))
    end.

Definition put_voucher (user : option User) (id : string)
    (updateData : UpdateBody.t) : Prog Response :=
  requireAdmin user (update_handler id updateData).

(** DELETE /vouchers/:id *)
Definition delete_handler (id : string) (user : User) : Prog Response :=
  sel <~ SelectVoucherById id ;;
  match found sel with
  | None =>
      Ret (json 404 (JError "Not Found"
        ("Voucher dengan ID '" ++ id ++ "' tidak ditemukan")))
  | Some existing =>
      if 0 <? Voucher.total_redeemed existing then
        Ret (json 400 (JErrorTotalRedeemed "Bad Request"
          "Tidak bisa delete voucher yang sudah pernah digunakan"
          (Voucher.total_redeemed existing)))
      else
        del <~ DeleteVoucher id ;;
        if error del then
          Ret (json 500 (JError "Database Error" "Gagal delete voucher"))
        else
          Ret (json 200 (JMessage
            ("Voucher '" ++ Voucher.code existing ++ "' berhasil dihapus")))
  end.

Definition delete_voucher (user : option User) (id : string)
    : Prog Response :=
  requireAdmin user (delete_handler id).

(** ** The public operations, one after another *)

Inductive Operation :=
| Create (user : option User) (body : CreateBody.t)
| Update (user : option User) (id : string) (body : UpdateBody.t)
| Delete (user : option User) (id : string)
| Redeem (user : option User) (code : string) (body : RedeemBody.t)
    (now : Timestamp).

Definition route (op : Operation) : Prog Response :=
  match op with
  | Create user body => post_vouchers user body
  | Update user id body => put_voucher user id body
  | Delete user id => delete_voucher user id
  | Redeem user code body now => post_redeem user code body now
  end.

Definition response_after {A : Type} (p : Prog A) (ticks : nat -> Tick)
    (n : nat) (db : DB) : A :=
  fst (fst (run p ticks n db)).

Definition store_after {A : Type} (p : Prog A) (ticks : nat -> Tick)
    (n : nat) (db : DB) : DB :=
  snd (fst (run p ticks n db)).

Definition log_after {A : Type} (p : Prog A) (ticks : nat -> Tick)
    (n : nat) (db : DB) : list Event :=
  snd (run p ticks n db).

(** Requests served one at a time, request [i] with the ticks [ticks i]. *)
Fixpoint serve (ops : list (Operation * (nat -> Tick))) (db : DB) : DB :=
  match ops with
  | [] => db
  | (op, ticks) :: ops' => serve ops' (store_after (route op) ticks 0 db)
  end.

(** ** Invariants of the data model *)

(** 0 <= redeemed_count <= max_redemptions *)
Definition counter_in_range (v : Voucher.t) : Prop :=
  0 <= Voucher.total_redeemed v <= Voucher.max_total_redemptions v.

(** The static field rules of a voucher: positive discount, at most 100
    when PERCENT, a cap that is not negative. *)
Definition fields_valid (v : Voucher.t) : Prop :=
  0 < Voucher.discount_value v
  /\ (Voucher.discount_type v = PERCENT -> Voucher.discount_value v <= 100)
  /\ (forall m, Voucher.max_discount_amount v = Some m -> 0 <= m).

(** The orders whose discount arithmetic stays among the integers that
    a number holds exactly: the order amount, and for a PERCENT voucher
    the product [order_amount * discount_value], are safe integers. *)
Definition exact_for (v : Voucher.t) (order_amount : Z) : Prop :=
  safe_integer order_amount
  /\ (Voucher.discount_type v = PERCENT ->
      safe_integer (order_amount * Voucher.discount_value v)).

(** An update request that would put max_total_redemptions under the
    current total_redeemed of the voucher it names. *)
Definition lowers_below_redeemed (op : Operation) (db : DB) : bool :=
  match op with
  | Update _ id body =>
      match UpdateBody.max_total_redemptions body with
      | Some m =>
          existsb (fun v => has_id id v && (m <? Voucher.total_redeemed v))
            (vouchers db)
      | None => false
      end
  | _ => false
  end.

(** Stores reachable from the empty one by serving requests one at a time,
    none of them an update under the redeemed count. *)
Inductive reachable : DB -> Prop :=
| reach_empty : reachable empty_db
| reach_op (db : DB) (op : Operation) (ticks : nat -> Tick) (n : nat) :
    reachable db ->
    lowers_below_redeemed op db = false ->
    reachable (store_after (route op) ticks n db).

(** ** Reasoning about every way a request can go *)

(** [wp p Q db]: from store [db], whatever ticks serve its calls, the
    request [p] ends with a response and a store that satisfy [Q]. *)
Fixpoint wp {A : Type} (p : Prog A) (Q : A -> DB -> Prop) (db : DB) : Prop :=
  match p with
  | Ret a => Q a db
  | Call op k =>
      forall t : Tick, wp (k (fst (exec t op db))) Q (snd (exec t op db))
  end.

(** [at_most P k p]: whatever its storage calls return, the request [p]
    makes at most [k] calls that satisfy [P]. *)
Fixpoint at_most {A : Type} (P : Event -> bool) (k : nat) (p : Prog A)
    : Prop :=
  match p with
  | Ret _ => True
  | Call op cont =>
      if P (Ev op) then
        match k with
        | O => False
        | S k' => forall r, at_most P k' (cont r)
        end
      else forall r, at_most P k (cont r)
  end.

(** Ids are unique and every counter is in range. *)
Definition db_ok (db : DB) : Prop :=
  NoDup (map Voucher.id (vouchers db))
  /\ Forall counter_in_range (vouchers db).

(** ** Interleaved requests: what every storage call respects *)

(** The store together with the ids it has generated so far. *)
Record World := mkWorld {
  used : list string;
  store : DB
}.

(** Ids are unique, counters in range, and every id in use was generated. *)
Definition good (w : World) : Prop :=
  db_ok (store w)
  /\ incl (map Voucher.id (vouchers (store w))) (used w).

(** What one storage call of any request does to the world: it stays
    good, no generated id is forgotten, and a row whose id existed before
    the call stems from a row of that id with the same
    max_total_redemptions. *)
Definition moves (w w' : World) : Prop :=
  good w'
  /\ incl (used w) (used w')
  /\ forall r', In r' (vouchers (store w')) ->
       In (Voucher.id r') (used w) ->
       exists r, In r (vouchers (store w))
                 /\ Voucher.id r = Voucher.id r'
                 /\ Voucher.max_total_redemptions r
                    = Voucher.max_total_redemptions r'.

(** Any number of such calls. *)
Inductive later : World -> World -> Prop :=
| later_now (w : World) : later w w
| later_step (w w' w'' : World) : later w w' -> moves w' w'' -> later w w''.

Arguments later_step : clear implicits.

(** The world after a call served with a tick. *)
Definition after_call (t : Tick) {R : Type} (op : DbOp R) (w : World)
    : World :=
  mkWorld (uuid t :: used w) (snd (exec t op (store w))).

(** [safe p w]: however other requests move the world in between, every
    call of the request [p], served with an id not generated before,
    is a move. *)
Fixpoint safe (p : Prog Response) (w : World) : Prop :=
  match p with
  | Ret _ => True
  | Call op k =>
      forall w', later w w' -> good w' ->
      forall t, ~ In (uuid t) (used w') ->
        moves w' (after_call t op w')
        /\ safe (k (fst (exec t op (store w')))) (after_call t op w')
  end.

(** A request that is not an update naming max_total_redemptions. *)
Definition leaves_max_alone (op : Operation) : bool :=
  match op with
  | Update _ _ body =>
      match UpdateBody.max_total_redemptions body with
      | Some _ => false
      | None => true
      end
  | _ => true
  end.

(** ** The eligibility rules as the specification lists them *)

Inductive Ineligible :=
| NotFound
| Inactive
| NotStarted (window_start : option Timestamp)
| Expired (window_end : option Timestamp)
| Exhausted
| BelowMinimum (currency : string) (minimum : Z)
| AlreadyRedeemed (redeemed_at : Timestamp).

(** The checks on a voucher that exists, in the order of the
    specification, each with its error; [prior] is the ledger record the
    lookup for (voucher, user) supplied. *)
Definition checks (v : Voucher.t) (prior : option Redemption.t)
    (now : Timestamp) (order_amount : Z) : list (bool * Ineligible) :=
  [ (negb (Voucher.is_active v), Inactive);
    (match Voucher.start_at v with Some s => now <? s | None => false end,
     NotStarted (Voucher.start_at v));
    (match Voucher.end_at v with Some e => now >? e | None => false end,
     Expired (Voucher.end_at v));
    (Voucher.total_redeemed v >=? Voucher.max_total_redemptions v,
     Exhausted);
    (order_amount <? Voucher.min_order_amount v,
     BelowMinimum (Voucher.currency v) (Voucher.min_order_amount v));
    match prior with
    | Some r => (true, AlreadyRedeemed (Redemption.redeemed_at r))
    | None => (false, AlreadyRedeemed 0)
    end ].

(** The earliest failing check, if any. *)
Definition first_failing_check (voucher : option Voucher.t)
    (prior : option Redemption.t) (now : Timestamp) (order_amount : Z)
    : option Ineligible :=
  match voucher with
  | None => Some NotFound
  | Some v =>
      option_map snd
        (find (fun c => fst c) (checks v prior now order_amount))
  end.

(** The response the redeem handler sends for each eligibility error. *)
Definition error_response (code : string) (e : Ineligible) : Response :=
  match e with
  | NotFound =>
      json 404 (JError "Not Found"
        ("Voucher dengan code '" ++ code ++ "' tidak ditemukan"))
  | Inactive => json 400 (JError "Bad Request" "Voucher sudah tidak aktif")
  | NotStarted window_start =>
      json 400 (JErrorStartAt "Bad Request" "Voucher belum bisa digunakan"
        window_start)
  | Expired window_end =>
      json 400 (JErrorExpiredAt "Bad Request" "Voucher sudah expired"
        window_end)
  | Exhausted =>
      json 400 (JError "Bad Request" "Voucher sudah habis digunakan")
  | BelowMinimum currency minimum =>
      json 400 (JError "Bad Request"
        ("Minimum order amount adalah " ++ currency ++ " "
         ++ num_to_string minimum))
  | AlreadyRedeemed redeemed_at =>
      json 400 (JErrorRedeemedAt "Bad Request"
        "Kamu sudah pernah menggunakan voucher ini" redeemed_at)
  end.

(** The voucher and the ledger record a redeem request gets from the
    store when its two lookups are calls [n] and [n + 1]. *)
Definition fetched_voucher (code : string) (ticks : nat -> Tick) (n : nat)
    (db : DB) : option Voucher.t :=
  found (fst (exec (ticks n) (SelectVoucherByCode code) db)).

Definition fetched_redemption (voucher : option Voucher.t) (userId : string)
    (ticks : nat -> Tick) (n : nat) (db : DB) : option Redemption.t :=
  match voucher with
  | Some v =>
      data (fst (exec (ticks (S n))
                   (SelectRedemption (Voucher.id v) userId) db))
  | None => None
  end.

(** ** Identity: authenticateToken and POST /auth/login *)

(** The user Supabase Auth knows for a token or a password. *)
Record AuthUser := mkAuthUser {
  auth_id : string;
  auth_email : string
}.

Record Session := mkSession {
  access_token : string;
  refresh_token : string;
  expires_at : Z
}.

(** A row of [profiles] (README schema); [role] may be null. *)
Record Profile := mkProfile {
  profile_id : string;
  profile_role : option string;
  full_name : option string
}.

(** What the identity side answers while a request is served: Supabase
    Auth as the functions behind [auth.getUser(token)] and
    [auth.signInWithPassword({ email, password })], and the [profiles]
    table with whether a query of it fails. *)
Record Identity := mkIdentity {
  getUser : string -> Result AuthUser;
  signInWithPassword : string -> string -> Result (AuthUser * Session);
  profiles : list Profile;
  profiles_fail : bool
}.

(** from("profiles").select("*").eq("id", id).single() *)
Definition select_profile (idn : Identity) (id : string) : Result Profile :=
  if profiles_fail idn then failed
  else single (filter (fun p => (profile_id p =? id)%string) (profiles idn)).

(** [{ id: user.id, email: user.email, role: userData?.role || "USER",
    ...userData }]: the columns of the profile row, [id] and [role] among
    them, overwrite the fields written before the spread. *)
Definition req_user (user : AuthUser) (userData : option Profile) : User :=
  match userData with
  | Some p => mkUser (profile_id p) (auth_email user) (profile_role p)
  | None => mkUser (auth_id user) (auth_email user) (Some "USER")
  end.

(** authenticateToken; [authorization] is [req.headers.authorization].
    Its two awaits read the identity side only, which no route modelled
    here writes, so they are taken from [idn] directly. *)
Definition authenticateToken (idn : Identity) (authorization : option string)
    (next : User -> Prog Response) : Prog Response :=
  match authorization with
  | None =>
      Ret (json 401 (JError "Unauthorized"
        "Token tidak ditemukan. Format: Authorization: Bearer <token>"))
  | Some authHeader =>
      if (authHeader =? "")%string
         || negb (String.prefix "Bearer " authHeader) then
        Ret (json 401 (JError "Unauthorized"
          "Token tidak ditemukan. Format: Authorization: Bearer <token>"))
      else
        let token :=
          String.substring 7 (String.length authHeader - 7) authHeader in
        match found (getUser idn token) with
        | None =>
            Ret (json 401 (JError "Unauthorized"
              "Token tidak valid atau sudah expired"))
        | Some user =>
            let userData := select_profile idn (auth_id user) in
            if error userData then
              Ret (json 500 (JError "Internal Server Error"
                "Gagal mengambil data user"))
            else next (req_user user (data userData))
        end
  end.

(** The routes as registered, middleware included. *)
Definition redeem_route (idn : Identity) (authorization : option string)
    (code : string) (body : RedeemBody.t) (now : Timestamp)
    : Prog Response :=
  authenticateToken idn authorization
    (fun u => post_redeem (Some u) code body now).

Definition create_route (idn : Identity) (authorization : option string)
    (b : CreateBody.t) : Prog Response :=
  authenticateToken idn authorization (fun u => post_vouchers (Some u) b).

Definition update_route (idn : Identity) (authorization : option string)
    (id : string) (updateData : UpdateBody.t) : Prog Response :=
  authenticateToken idn authorization
    (fun u => put_voucher (Some u) id updateData).

Definition delete_route (idn : Identity) (authorization : option string)
    (id : string) : Prog Response :=
  authenticateToken idn authorization (fun u => delete_voucher (Some u) id).

(** Body of POST /auth/login; a field may be absent. *)
Record LoginBody := mkLoginBody {
  login_email : option string;
  login_password : option string
}.

(** What POST /auth/login answers. *)
Inductive LoginReply :=
| LoginError (status : Z) (error message : string)
| LoginOk (id email role : string) (full_name : option string)
    (session : Session).

(** [!s] for a string that may be absent: undefined and "" are falsy. *)
Definition blank (s : option string) : bool :=
  match s with
  | Some x => (x =? "")%string
  | None => true
  end.

(** [profile?.role || "USER"] *)
Definition role_or_user (profile : option Profile) : string :=
  match profile with
  | Some p => if blank (profile_role p) then "USER"
              else default "USER" (profile_role p)
  | None => "USER"
  end.

(** POST /auth/login *)
Definition login (idn : Identity) (body : LoginBody) : LoginReply :=
  if blank (login_email body) || blank (login_password body) then
    LoginError 400 "Bad Request" "Email dan password harus diisi"
  else
    let signed :=
      signInWithPassword idn (default "" (login_email body))
        (default "" (login_password body)) in
    if error signed then
      LoginError 401 "Unauthorized" "Email atau password salah"
    else
      match data signed with
      | Some (user, session) =>
          let profile := data (select_profile idn (auth_id user)) in
          LoginOk (auth_id user) (auth_email user) (role_or_user profile)
            match profile with
            | Some p => full_name p
            | None => None
            end
            session
      | None =>
          (* data.user on null throws into the catch block *)
          LoginError 500 "Internal Server Error"
            "Terjadi kesalahan saat login"
      end.

(** ** Voucher detail (GET /vouchers/:code) *)

(** The [data] of the answer: the row and the fields computed from it. *)
Record VoucherDetail := mkVoucherDetail {
  voucher : Voucher.t;
  is_not_started : option bool;
  is_expired : option bool;
  is_available : bool;
  remaining_redemptions : Z
}.

Inductive DetailReply :=
| DetailError (status : Z) (error message : string)
| DetailOk (data : VoucherDetail).

(** [x && ...] and [!x] on a value that is null or a boolean. *)
Definition is_true (x : option bool) : bool := default false x.

Definition detail (now : Timestamp) (v : Voucher.t) : VoucherDetail :=
  (* startAt && now < startAt; endAt && now > endAt *)
  let isNotStarted := option_map (fun s => now <? s) (Voucher.start_at v) in
  let isExpired := option_map (fun e => e <? now) (Voucher.end_at v) in
  let isAvailable :=
    Voucher.is_active v && negb (is_true isNotStarted)
    && negb (is_true isExpired)
    && (Voucher.total_redeemed v <? Voucher.max_total_redemptions v) in
  mkVoucherDetail v isNotStarted isExpired isAvailable
    (Voucher.max_total_redemptions v - Voucher.total_redeemed v).

(** The handler; no middleware guards it. *)
Definition get_voucher (code : string) (now : Timestamp)
    : Prog DetailReply :=
  sel <~ SelectVoucherByCode code ;;
  match found sel with
  | None =>
      Ret (DetailError 404 "Not Found"
        ("Voucher dengan code '" ++ code ++ "' tidak ditemukan"))
  | Some v => Ret (DetailOk (detail now v))
  end.

(** ** What the routes keep of a store *)

(** The fields of a voucher no update request can name. *)
Definition frozen (v : Voucher.t) : string * string * Z * string :=
  (Voucher.id v, Voucher.code v, Voucher.total_redeemed v,
   Voucher.created_by v).

(** The ledger rows of a voucher, and of a voucher and a user. *)
Definition rows_of (vid : string) (db : DB) : list Redemption.t :=
  filter (fun r => (Redemption.voucher_id r =? vid)%string)
    (voucher_redemptions db).

(** A ledger row as the redeem handler writes it: a SUCCESS row of a
    positive order, and, when a hundred times the order is still an exact
    integer, a discount within the order and the difference as the final
    amount. *)
Definition row_ok (r : Redemption.t) : Prop :=
  Redemption.status r = SUCCESS
  /\ 0 < Redemption.order_amount r
  /\ (Redemption.order_amount r * 100 <= MAX_SAFE_INTEGER ->
      0 <= Redemption.discount_amount r <= Redemption.order_amount r
      /\ Redemption.final_amount r
         = Redemption.order_amount r - Redemption.discount_amount r).

(** [wp] for requests none of whose storage calls fails for a reason
    other than a taken id. *)
Fixpoint wp_calm {A : Type} (p : Prog A) (Q : A -> DB -> Prop) (db : DB)
    : Prop :=
  match p with
  | Ret a => Q a db
  | Call op k =>
      forall t : Tick, fails t = false ->
        wp_calm (k (fst (exec t op db))) Q (snd (exec t op db))
  end.

Definition never_fails (ticks : nat -> Tick) : Prop :=
  forall n, fails (ticks n) = false.

(** The voucher and the user of a ledger row. *)
Definition pair_of (r : Redemption.t) : string * string :=
  (Redemption.voucher_id r, Redemption.user_id r).

(** Ids are unique, the counter of every voucher is the number of its
    ledger rows, no pair of voucher and user has two rows, and every row
    is of a voucher in the store. *)
Definition ledger_agrees (db : DB) : Prop :=
  NoDup (map Voucher.id (vouchers db))
  /\ (forall v, In v (vouchers db) ->
        Voucher.total_redeemed v
        = Z.of_nat (List.length (rows_of (Voucher.id v) db)))
  /\ NoDup (map pair_of (voucher_redemptions db))
  /\ (forall r, In r (voucher_redemptions db) ->
        exists v, In v (vouchers db)
                  /\ Voucher.id v = Redemption.voucher_id r).


(** The row POST /vouchers inserts, with the id the store generates. *)
Definition created_voucher (b : CreateBody.t) (id created_by : string)
    : Voucher.t :=
  Voucher.mk id (CreateBody.code b) (CreateBody.name b)
    (CreateBody.description b) (CreateBody.discount_type b)
    (CreateBody.discount_value b) (default "IDR" (CreateBody.currency b))
    (default 0 (CreateBody.min_order_amount b))
    (CreateBody.max_discount_amount b)
    (default 1 (CreateBody.max_total_redemptions b)) 0
    (CreateBody.start_at b) (CreateBody.end_at b) true created_by.

(** The ledger row a redemption inserts when its insert is served with
    [t] (an absent or empty order_id is stored as null), and the store
    after it: the counter of the voucher one up, the row appended. *)
Definition redeemed_row (u : User) (v : Voucher.t) (body : RedeemBody.t)
    (t : Tick) : Redemption.t :=
  Redemption.mk (uuid t) (Voucher.id v) (user_id u)
    (or_null (RedeemBody.order_id body)) (RedeemBody.order_amount body)
    (discount_amount v (RedeemBody.order_amount body))
    (final_amount v (RedeemBody.order_amount body)) SUCCESS (clock t).

Definition redeemed_store (u : User) (v : Voucher.t) (body : RedeemBody.t)
    (t : Tick) (db : DB) : DB :=
  mkDB (update_where (has_id (Voucher.id v))
          (Voucher.set_total_redeemed (Voucher.total_redeemed v + 1))
          (vouchers db))
       (voucher_redemptions db ++ [redeemed_row u v body t])%list.

(** ** Sample data *)

Definition admin : User := mkUser "u-admin" "admin@voucher.test" (Some "ADMIN").
Definition alice : User := mkUser "u-alice" "alice@example.com" (Some "USER").
Definition bob : User := mkUser "u-bob" "bob@example.com" (Some "USER").

(** A tick of a call that succeeds. *)
Definition tick (id : string) (now : Timestamp) : Tick := mkTick false id now.

(** A tick of a call that fails. *)
Definition fault : Tick := mkTick true "" 0.

(** All calls succeed; inserted rows get the id [id]. *)
Definition calm (id : string) : nat -> Tick := fun _ => tick id 1000.

(** The voucher of the specification's scenario. *)
Definition newyear (max_total total : Z) : Voucher.t :=
  Voucher.mk "v-1" "NEWYEAR2026" "New Year Discount" None PERCENT 30 "IDR"
    50000 (Some 30000) max_total total None None true "u-admin".

Definition newyear_body (max_total : Z) : CreateBody.t :=
  CreateBody.mk "NEWYEAR2026" "New Year Discount" None PERCENT 30
    (Some "IDR") (Some 50000) (Some 30000) (Some max_total) None None.

Definition order (amount : Z) : RedeemBody.t := RedeemBody.mk amount None.

Definition set_max (m : Z) : UpdateBody.t :=
  UpdateBody.mk None None None None None None None (Some m) None None None.

(** A PERCENT voucher whose cap is 0. *)
Definition capped_at_zero : Voucher.t :=
  Voucher.mk "v-2" "ZEROCAP" "Zero cap" None PERCENT 10 "IDR"
    0 (Some 0) 1 0 None None true "u-admin".

(** A ledger record of [newyear] for alice with the given status. *)
Definition alice_record (s : Status) : Redemption.t :=
  Redemption.mk "r-1" "v-1" "u-alice" None 150000 30000 120000 s 500.

(** Two users redeem the same voucher at the same time. *)
Definition race : Pool :=
  [ post_redeem (Some alice) "NEWYEAR2026" (order 150000) 10;
    post_redeem (Some bob) "NEWYEAR2026" (order 150000) 10 ].

Definition bob_record : Redemption.t :=
  Redemption.mk "r-bob" "v-1" "u-bob" None 150000 30000 120000 SUCCESS 20.

Definition alice_late_record : Redemption.t :=
  Redemption.mk "r-alice" "v-1" "u-alice" None 150000 30000 120000 SUCCESS
    30.

(** Alice reads the voucher and the ledger; Bob redeems from start to
    finish; then Alice goes on with what she read. *)
Definition bob_overtakes : list (nat * Tick) :=
  [ (0%nat, tick "" 0); (0%nat, tick "" 0);
    (1%nat, tick "" 0); (1%nat, tick "" 0); (1%nat, tick "" 0);
    (1%nat, tick "r-bob" 20) ].

Definition alice_goes_on : list (nat * Tick) :=
  [ (0%nat, tick "" 0); (0%nat, tick "r-alice" 30) ].

(** Alice increments the counter; Bob redeems from start to finish; then
    Alice's ledger insert fails and she rolls back. *)
Definition bob_in_between : list (nat * Tick) :=
  [ (0%nat, tick "" 0); (0%nat, tick "" 0); (0%nat, tick "" 0);
    (1%nat, tick "" 0); (1%nat, tick "" 0); (1%nat, tick "" 0);
    (1%nat, tick "r-bob" 20) ].

Definition alice_rolls_back : list (nat * Tick) :=
  [ (0%nat, fault); (0%nat, tick "" 0) ].

(** A voucher for two, redeemed by two users, then updated to allow one. *)
Definition lowered_after_two : list (Operation * (nat -> Tick)) :=
  [ (Create (Some admin) (newyear_body 2), calm "v-1");
    (Redeem (Some alice) "NEWYEAR2026" (order 150000) 10, calm "r-1");
    (Redeem (Some bob) "NEWYEAR2026" (order 150000) 10, calm "r-2");
    (Update (Some admin) "v-1" (set_max 1), calm "") ].

(** The race of alice and bob with a fresh id at every call. *)
Definition fresh_race : list (nat * Tick) :=
  [ (0%nat, tick "t1" 1); (0%nat, tick "t2" 2); (1%nat, tick "t3" 3);
    (1%nat, tick "t4" 4); (1%nat, tick "t5" 5); (1%nat, tick "t6" 6);
    (0%nat, tick "t7" 7); (0%nat, tick "t8" 8) ].

(** An identity side: alice is a USER, carol's profile has no role, dave
    has no profile, any other token or password is refused. *)
Definition idn0 : Identity :=
  mkIdentity
    (fun token =>
       if (token =? "tok-alice")%string
       then ok (mkAuthUser "u-alice" "alice@example.com")
       else if (token =? "tok-carol")%string
       then ok (mkAuthUser "u-carol" "carol@example.com")
       else if (token =? "tok-dave")%string
       then ok (mkAuthUser "u-dave" "dave@example.com")
       else failed)
    (fun email password =>
       if (email =? "carol@example.com")%string
       then ok (mkAuthUser "u-carol" "carol@example.com",
                mkSession "tok-carol" "ref-carol" 99)
       else if (email =? "dave@example.com")%string
       then ok (mkAuthUser "u-dave" "dave@example.com",
                mkSession "tok-dave" "ref-dave" 99)
       else failed)
    [ mkProfile "u-alice" (Some "USER") (Some "Alice");
      mkProfile "u-carol" None (Some "Carol") ]
    false.

(** A FIXED voucher worth 500. *)
Definition fixed_500 : Voucher.t :=
  Voucher.mk "v-3" "FLAT500" "Flat 500" None FIXED 500 "IDR"
    0 None 1 0 None None true "u-admin".


Definition make_percent : UpdateBody.t :=
  UpdateBody.mk None None (Some PERCENT) None None None None None None None
    None.

(** A voucher for two is created and alice redeems it. *)
Definition created_and_redeemed : list (Operation * (nat -> Tick)) :=
  [ (Create (Some admin) (newyear_body 2), calm "v-1");
    (Redeem (Some alice) "NEWYEAR2026" (order 150000) 10, calm "r-1") ].

Definition alice_calm_record : Redemption.t :=
  Redemption.mk "r-1" "v-1" "u-alice" None 150000 30000 120000 SUCCESS 1000.

(** A create and the redeem requests of alice and bob, all in flight. *)
Definition create_and_race : list Operation :=
  [ Redeem (Some alice) "NEWYEAR2026" (order 150000) 10;
    Redeem (Some bob) "NEWYEAR2026" (order 150000) 10;
    Create (Some admin) (newyear_body 1) ].

Definition no_reply : User -> Prog Response :=
  fun _ => Ret (json 200 (JMessage "ok")).

(** Every call succeeds but the fourth, the ledger insert of a redeem. *)
Definition insert_fails : nat -> Tick :=
  fun k => if Nat.eqb k 3 then fault else tick "r-1" 1000.

(** The create request is served first, then the race, a fresh id at
    every call. *)
Definition create_then_race : list (nat * Tick) :=
  (2%nat, tick "s1" 1) :: (2%nat, tick "v-1" 2) :: fresh_race.

(** * Properties *)

Unset Implicit Arguments.

(** ** Numbers *)

Lemma nearest_even_near (n d : Z) :
  0 <= n -> 0 < d ->
  2 * n - d <= 2 * (d * nearest_even n d) <= 2 * n + d.
Proof.
  intros Hn Hd. unfold nearest_even.
  pose proof (Z.div_mod n d ltac:(lia)) as Hdm.
  pose proof (Z.mod_pos_bound n d Hd) as Hr.
  set (q := n / d) in *. set (r := n mod d) in *.
  destruct (Z.ltb_spec d (2 * r)); cbn [orb].
  - lia.
  - destruct (Z.eqb_spec (2 * r) d); cbn [andb].
    + destruct (Z.odd q); lia.
    + lia.
Qed.

(** A safe integer is its own binary64 value. *)
Lemma to_double_exact (z : Z) : safe_integer z -> to_double z = z.
Proof.
  unfold safe_integer. intros Hz. unfold to_double.
  assert (He : Z.log2 (Z.abs z) - 52 <= 0).
  { destruct (Z.eq_dec z 0) as [->|Hne]; [simpl; lia|].
    assert (Z.log2 (Z.abs z) < 53); [|lia].
    apply Z.log2_lt_pow2; [lia|].
    change (2 ^ 53) with 9007199254740992.
    unfold MAX_SAFE_INTEGER in Hz. lia. }
  apply Z.leb_le in He. rewrite He. reflexivity.
Qed.

Lemma binade_le (p : Z) :
  0 < p <= MAX_SAFE_INTEGER -> binade p 100 <= 46.
Proof.
  intros Hp. unfold binade, scaled.
  change (Z.log2 100) with 6.
  assert (Hlog : Z.log2 p < 53).
  { apply Z.log2_lt_pow2; [lia|].
    change (2 ^ 53) with 9007199254740992.
    unfold MAX_SAFE_INTEGER in Hp. lia. }
  destruct (Z.leb_spec 0 (Z.log2 p - 6)) as [Hk|Hk].
  - destruct (Z.leb_spec (100 * 2 ^ (Z.log2 p - 6)) p) as [Hle|Hle]; lia.
  - destruct (Z.leb_spec 100 (p * 2 ^ (- (Z.log2 p - 6)))); lia.
Qed.

(** For a safe integer [p] the rounding of [p / 100] never reaches the
    next integer: the quotient is below 2^47, so the rounded value is
    within 2^-7 of it, and a fraction of a hundredth or more stays a
    fraction.  [Math.floor(p / 100)] is the integer quotient. *)
Lemma floor_of_quotient_exact (p : Z) :
  0 <= p <= MAX_SAFE_INTEGER -> floor_of_quotient p 100 = p / 100.
Proof.
  intros Hp. unfold floor_of_quotient.
  destruct (Z.eqb_spec p 0) as [->|Hne]; [reflexivity|].
  assert (Hpos : 0 < p) by lia.
  rewrite (Z.abs_eq p) by lia. rewrite (Z.sgn_pos p) by lia.
  pose proof (binade_le p ltac:(lia)) as Hb.
  set (e := binade p 100 - 52) in *.
  assert (He : e <= -6) by lia.
  unfold scaled.
  destruct (Z.leb_spec 0 e) as [|_]; [lia|].
  rewrite Z.mul_1_l.
  assert (HT : 64 <= 2 ^ (- e)).
  { change 64 with (2 ^ 6). apply Z.pow_le_mono_r; lia. }
  set (T := 2 ^ (- e)) in *.
  pose proof (nearest_even_near (p * T) 100 ltac:(nia) ltac:(lia)) as Hm.
  set (m := nearest_even (p * T) 100) in *.
  pose proof (Z.div_mod p 100 ltac:(lia)) as Hdm.
  pose proof (Z.mod_pos_bound p 100 ltac:(lia)) as Hr.
  set (q := p / 100) in *. set (r := p mod 100) in *.
  symmetry. apply (Z.div_unique m T q (m - T * q)); [|lia].
  nia.
Qed.

(** Beyond the safe integers the product is rounded: a hundred times
    9007199254740985 becomes 900719925474098560, and a hundredth of that,
    9007199254740985.6, rounds up to the next integer. *)
Example product_rounded :
  to_double (9007199254740985 * 100) = 900719925474098560
  /\ floor_of_quotient 900719925474098560 100 = 9007199254740986.
Proof. split; reflexivity. Qed.

(** ** Discount calculator *)

Section Discount.
Variable v : Voucher.t.
Variable order_amount : Z.

Lemma discount_fixed :
  Voucher.discount_type v = FIXED ->
  discount_amount v order_amount
  = Z.min (Voucher.discount_value v) order_amount.
Proof.
  intros Hty. unfold discount_amount. rewrite Hty.
  destruct (Z.ltb_spec order_amount (Voucher.discount_value v)); lia.
Qed.

(** The share of a PERCENT voucher, [Math.floor((order_amount *
    discount_value) / 100)], is the floor of the exact quotient as long
    as the product is a safe integer. *)
Lemma percent_share_exact :
  0 <= order_amount * Voucher.discount_value v <= MAX_SAFE_INTEGER ->
  floor_of_quotient (to_double (order_amount * Voucher.discount_value v)) 100
  = order_amount * Voucher.discount_value v / 100.
Proof.
  intros Hp. rewrite to_double_exact by (unfold safe_integer; lia).
  apply floor_of_quotient_exact. exact Hp.
Qed.

(** Without a cap the PERCENT discount is the floor of the share. *)
Lemma discount_percent_uncapped :
  Voucher.discount_type v = PERCENT ->
  Voucher.max_discount_amount v = None ->
  0 <= order_amount * Voucher.discount_value v <= MAX_SAFE_INTEGER ->
  discount_amount v order_amount
  = order_amount * Voucher.discount_value v / 100.
Proof.
  intros Hty Hcap Hp. unfold discount_amount. rewrite Hty, Hcap.
  cbn [truthy andb]. apply percent_share_exact. exact Hp.
Qed.

(** A cap other than 0 bounds the PERCENT discount. *)
Lemma discount_percent_capped (m : Z) :
  Voucher.discount_type v = PERCENT ->
  Voucher.max_discount_amount v = Some m ->
  m <> 0 ->
  0 <= order_amount * Voucher.discount_value v <= MAX_SAFE_INTEGER ->
  discount_amount v order_amount
  = Z.min (order_amount * Voucher.discount_value v / 100) m.
Proof.
  intros Hty Hcap Hm Hp. unfold discount_amount. rewrite Hty, Hcap.
  rewrite percent_share_exact by exact Hp. simpl.
  destruct (Z.eqb_spec m 0) as [|_]; [contradiction|]. simpl.
  destruct (Z.ltb_spec m (order_amount * Voucher.discount_value v / 100));
    lia.
Qed.

(** A cap of 0 is falsy and so is passed over. *)
Lemma discount_percent_cap_zero :
  Voucher.discount_type v = PERCENT ->
  Voucher.max_discount_amount v = Some 0 ->
  0 <= order_amount * Voucher.discount_value v <= MAX_SAFE_INTEGER ->
  discount_amount v order_amount
  = order_amount * Voucher.discount_value v / 100.
Proof.
  intros Hty Hcap Hp. unfold discount_amount. rewrite Hty, Hcap.
  cbn [truthy Z.eqb negb andb]. apply percent_share_exact. exact Hp.
Qed.
End Discount.

(** The scenario of the specification: 30% of 150000 capped at 30000. *)
Example discount_scenario :
  discount_amount (newyear 1 0) 150000 = 30000
  /\ final_amount (newyear 1 0) 150000 = 120000.
Proof. split; reflexivity. Qed.

(** C6.  The PERCENT discount is the floor of order_amount *
    discount_value / 100, clamped to a cap that is set and exceeded; the
    code passes over a cap of 0.  For the voucher {PERCENT, 10, cap 0} and
    an order of 1000 the floor is 100, above the cap, and the discount
    computed is 100, not the cap. *)
Theorem discount_cap_of_zero_not_applied :
  Voucher.discount_type capped_at_zero = PERCENT
  /\ Voucher.max_discount_amount capped_at_zero = Some 0
  /\ 1000 * Voucher.discount_value capped_at_zero / 100 = 100
  /\ discount_amount capped_at_zero 1000 = 100
  /\ final_amount capped_at_zero 1000 = 900.
Proof. repeat split. Qed.

(** Under the field rules, and for an order in the exact range, the
    discount is between 0 and the order and the final amount is their
    exact difference. *)
Lemma discount_range (v : Voucher.t) (order_amount : Z) :
  fields_valid v ->
  0 < order_amount ->
  exact_for v order_amount ->
  0 <= discount_amount v order_amount <= order_amount
  /\ final_amount v order_amount
     = order_amount - discount_amount v order_amount.
Proof.
  intros (Hpos & Hpct & Hcap) Ho (Hsafe & Hprod).
  unfold safe_integer in Hsafe, Hprod.
  assert (Hrange : 0 <= discount_amount v order_amount <= order_amount).
  { destruct (Voucher.discount_type v) eqn:Hty.
    - specialize (Hpct eq_refl). specialize (Hprod eq_refl).
      assert (Hp : 0 <= order_amount * Voucher.discount_value v
                   <= MAX_SAFE_INTEGER) by nia.
      assert (Hfloor : 0 <= order_amount * Voucher.discount_value v / 100
                       <= order_amount).
      { split.
        - apply Z.div_pos; nia.
        - apply Z.div_le_upper_bound; nia. }
      destruct (Voucher.max_discount_amount v) as [m|] eqn:Hm.
      + destruct (Z.eq_dec m 0) as [->|Hne].
        * rewrite discount_percent_cap_zero; assumption.
        * rewrite (discount_percent_capped _ _ m Hty Hm Hne Hp).
          specialize (Hcap m eq_refl). lia.
      + rewrite discount_percent_uncapped; assumption.
    - rewrite discount_fixed by assumption. lia. }
  split; [exact Hrange|].
  unfold final_amount. apply to_double_exact.
  unfold safe_integer. lia.
Qed.

(** A hundred times the order within the safe integers puts the order in
    the exact range of every voucher that meets the field rules. *)
Lemma exact_for_hundredfold (v : Voucher.t) (order_amount : Z) :
  fields_valid v ->
  0 < order_amount ->
  order_amount * 100 <= MAX_SAFE_INTEGER ->
  exact_for v order_amount.
Proof.
  intros (Hpos & Hpct & _) Ho Hb. unfold exact_for, safe_integer. split.
  - lia.
  - intros Hty. specialize (Hpct Hty). nia.
Qed.




(** ** Authorization *)

Lemma role_is_false (r : string) (u : User) :
  role u <> Some r -> role_is r u = false.
Proof.
  unfold role_is. destruct (role u) as [x|]; [|reflexivity].
  intros Hne. apply String.eqb_neq. congruence.
Qed.

(** C10.  A redeem request of an authenticated caller whose role is not
    exactly "USER" is answered 403 Forbidden; the store is left as it was
    and no storage call is made, neither a read nor a write. *)
Theorem redeem_forbidden_unless_user (u : User) (code : string)
    (body : RedeemBody.t) (now : Timestamp) (ticks : nat -> Tick) (n : nat)
    (db : DB) :
  role u <> Some "USER" ->
  run (post_redeem (Some u) code body now) ticks n db
  = (json 403 (JError "Forbidden" "Endpoint ini hanya untuk USER biasa"),
     db, []).
Proof.
  intros Hrole. unfold post_redeem, requireUser.
  rewrite (role_is_false _ _ Hrole). reflexivity.
Qed.

Lemma redeem_forbidden_unless_user_witness :
  run (post_redeem (Some admin) "NEWYEAR2026" (order 150000) 10)
    (calm "r-1") 0 (mkDB [newyear 1 0] [])
  = (json 403 (JError "Forbidden" "Endpoint ini hanya untuk USER biasa"),
     mkDB [newyear 1 0] [], []).
Proof.
  apply (redeem_forbidden_unless_user admin). simpl. congruence.
Defined.


(** ** Storage lemmas *)

Lemma role_is_true (r : string) (u : User) :
  role u = Some r -> role_is r u = true.
Proof.
  unfold role_is. intros ->. apply String.eqb_refl.
Qed.

Lemma filter_single_In {T : Type} (p : T -> bool) (rows : list T) (r : T) :
  filter p rows = [r] -> In r rows /\ p r = true.
Proof.
  intros H. apply filter_In. rewrite H. left; reflexivity.
Qed.

Lemma filter_out_none {T : Type} (p : T -> bool) (rows : list T) :
  filter p (filter (fun r => negb (p r)) rows) = [].
Proof.
  induction rows as [|r rows IH]; simpl; [reflexivity|].
  destruct (p r) eqn:Hp; simpl; [|rewrite Hp]; exact IH.
Qed.

Lemma update_where_In {T : Type} (p : T -> bool) (f : T -> T)
    (rows : list T) (r : T) :
  In r rows -> p r = true -> In (f r) (update_where p f rows).
Proof.
  intros Hin Hp. unfold update_where.
  apply in_map_iff. exists r. rewrite Hp. auto.
Qed.

(** ** Running a request *)

Lemma run_components {A : Type} (p : Prog A) (ticks : nat -> Tick) (n : nat)
    (db : DB) :
  run p ticks n db
  = (response_after p ticks n db, store_after p ticks n db,
     log_after p ticks n db).
Proof.
  unfold response_after, store_after, log_after.
  destruct (run p ticks n db) as [[a db'] log]. reflexivity.
Qed.

Section RunCall.
Context {A R : Type} (op : DbOp R) (k : R -> Prog A).
Variables (ticks : nat -> Tick) (n : nat) (db : DB).

Lemma response_after_call :
  response_after (Call op k) ticks n db
  = response_after (k (fst (exec (ticks n) op db))) ticks (S n)
      (snd (exec (ticks n) op db)).
Proof.
  unfold response_after. simpl. destruct (exec (ticks n) op db) as [r db'].
  simpl. destruct (run (k r) ticks (S n) db') as [[a db''] log]. reflexivity.
Qed.

Lemma store_after_call :
  store_after (Call op k) ticks n db
  = store_after (k (fst (exec (ticks n) op db))) ticks (S n)
      (snd (exec (ticks n) op db)).
Proof.
  unfold store_after. simpl. destruct (exec (ticks n) op db) as [r db'].
  simpl. destruct (run (k r) ticks (S n) db') as [[a db''] log]. reflexivity.
Qed.

Lemma log_after_call :
  log_after (Call op k) ticks n db
  = Ev op :: log_after (k (fst (exec (ticks n) op db))) ticks (S n)
               (snd (exec (ticks n) op db)).
Proof.
  unfold log_after. simpl. destruct (exec (ticks n) op db) as [r db'].
  simpl. destruct (run (k r) ticks (S n) db') as [[a db''] log]. reflexivity.
Qed.
End RunCall.

(** One storage call of a request that runs alone. *)
Ltac run_call :=
  rewrite ?response_after_call, ?store_after_call, ?log_after_call;
  unfold exec; cbn [fst snd].

(** A read leaves the store as it was, whether it fails or not. *)
Lemma exec_read {R : Type} (t : Tick) (op : DbOp R) (db : DB) :
  is_write (Ev op) = false -> snd (exec t op db) = db.
Proof.
  destruct op; simpl; try discriminate; intros _;
    destruct (fails t); reflexivity.
Qed.

(** One read of a request that runs alone. *)
Ltac run_read :=
  rewrite ?response_after_call, ?store_after_call, ?log_after_call;
  rewrite ?exec_read by reflexivity.

(** ** Voucher administration *)

(** C9.  For a voucher that exists (its id names exactly one row) with a
    redeemed count that is not negative: when no storage call fails, the
    delete answers 200 if and only if the count is 0; a 200 answer always
    means that the count was 0 and that the voucher is gone; with a count
    above 0 the delete is rejected with an error, 400 carrying the count
    when the lookup succeeds, and the store is left as it was. *)
Theorem delete_only_unredeemed (u : User) (id : string) (v : Voucher.t)
    (ticks : nat -> Tick) (n : nat) (db : DB) :
  role u = Some "ADMIN" ->
  filter (has_id id) (vouchers db) = [v] ->
  0 <= Voucher.total_redeemed v ->
  let resp := response_after (delete_voucher (Some u) id) ticks n db in
  let db' := store_after (delete_voucher (Some u) id) ticks n db in
  (fails (ticks n) = false -> fails (ticks (S n)) = false ->
   (status resp = 200 <-> Voucher.total_redeemed v = 0))
  /\ (status resp = 200 ->
      Voucher.total_redeemed v = 0
      /\ filter (has_id id) (vouchers db') = [])
  /\ (0 < Voucher.total_redeemed v ->
      status resp <> 200 /\ db' = db
      /\ (fails (ticks n) = false ->
          resp = json 400 (JErrorTotalRedeemed "Bad Request"
                   "Tidak bisa delete voucher yang sudah pernah digunakan"
                   (Voucher.total_redeemed v)))).
Proof.
  intros Hrole Hv Hnonneg.
  unfold delete_voucher, requireAdmin.
  rewrite (role_is_true _ _ Hrole). simpl negb. cbv iota.
  unfold delete_handler. run_call.
  destruct (fails (ticks n)) eqn:Hf1; cbn [fst snd found error data failed].
  { cbn. repeat split; try discriminate; try lia. }
  rewrite Hv. cbn [single found error data ok].
  destruct (Z.ltb_spec 0 (Voucher.total_redeemed v)) as [Hpos|Hzero].
  { cbn. repeat split; try discriminate; try lia. }
  run_call.
  destruct (fails (ticks (S n))) eqn:Hf2;
    cbn [fst snd error failed ok_empty response_after store_after run
         status json vouchers].
  - repeat split; try discriminate; try lia.
  - repeat split; try discriminate; try lia; apply filter_out_none.
Qed.

Lemma delete_only_unredeemed_witness :
  let db := mkDB [newyear 2 0] [] in
  let resp := response_after (delete_voucher (Some admin) "v-1")
                (calm "") 0 db in
  let db' := store_after (delete_voucher (Some admin) "v-1")
               (calm "") 0 db in
  (fails (calm "" 0%nat) = false -> fails (calm "" 1%nat) = false ->
   (status resp = 200 <-> Voucher.total_redeemed (newyear 2 0) = 0))
  /\ (status resp = 200 ->
      Voucher.total_redeemed (newyear 2 0) = 0
      /\ filter (has_id "v-1") (vouchers db') = [])
  /\ (0 < Voucher.total_redeemed (newyear 2 0) ->
      status resp <> 200 /\ db' = db
      /\ (fails (calm "" 0%nat) = false ->
          resp = json 400 (JErrorTotalRedeemed "Bad Request"
                   "Tidak bisa delete voucher yang sudah pernah digunakan"
                   (Voucher.total_redeemed (newyear 2 0))))).
Proof.
  apply (delete_only_unredeemed admin "v-1" (newyear 2 0) (calm "") 0
           (mkDB [newyear 2 0] [])).
  - reflexivity.
  - reflexivity.
  - simpl. lia.
Defined.

(** A used voucher stays: the second scenario of the delete rule. *)
Example delete_used_voucher_rejected :
  run (delete_voucher (Some admin) "v-1") (calm "") 0
    (mkDB [newyear 2 1] [alice_record SUCCESS])
  = (json 400 (JErrorTotalRedeemed "Bad Request"
       "Tidak bisa delete voucher yang sudah pernah digunakan" 1),
     mkDB [newyear 2 1] [alice_record SUCCESS],
     [Ev (SelectVoucherById "v-1")]).
Proof. reflexivity. Qed.

(** C8, as the specification states it, fails: the voucher has been
    redeemed twice, the update asks for max_total_redemptions = 1, and the
    update is answered 200 and stored. *)
Lemma update_below_redeemed_accepted :
  UpdateBody.max_total_redemptions (set_max 1) = Some 1
  /\ 1 < Voucher.total_redeemed (newyear 5 2)
  /\ run (put_voucher (Some admin) "v-1" (set_max 1)) (calm "") 0
       (mkDB [newyear 5 2] [])
     = (json 200 (JVoucher "Voucher berhasil diupdate"
                    (Some (newyear 1 2))),
        mkDB [newyear 1 2] [],
        [Ev (SelectVoucherById "v-1"); Ev (UpdateVoucher "v-1" (set_max 1))]).
Proof. repeat split. Qed.

(** C8, amended.  For a voucher that exists and an update request that
    passes the checks the handler does make (schema, PERCENT at most 100,
    end_at not before start_at), a max_total_redemptions below the current
    total_redeemed is not rejected: absent a storage failure the update
    answers 200 with the updated voucher and stores it, with the requested
    max_total_redemptions and the redeemed count as it was. *)
Theorem update_stores_max_below_redeemed (u : User) (id : string)
    (body : UpdateBody.t) (v : Voucher.t) (m : Z) (ticks : nat -> Tick)
    (n : nat) (db : DB) :
  role u = Some "ADMIN" ->
  filter (has_id id) (vouchers db) = [v] ->
  updateSchema body = true ->
  percent_over_100
    (default (Voucher.discount_type v) (UpdateBody.discount_type body))
    (or_num (UpdateBody.discount_value body) (Voucher.discount_value v))
  = false ->
  end_before_start
    (or_else (UpdateBody.start_at body) (Voucher.start_at v))
    (or_else (UpdateBody.end_at body) (Voucher.end_at v))
  = false ->
  fails (ticks n) = false ->
  fails (ticks (S n)) = false ->
  UpdateBody.max_total_redemptions body = Some m ->
  m < Voucher.total_redeemed v ->
  response_after (put_voucher (Some u) id body) ticks n db
  = json 200 (JVoucher "Voucher berhasil diupdate"
                (Some (apply_update body v)))
  /\ In (apply_update body v)
       (vouchers (store_after (put_voucher (Some u) id body) ticks n db))
  /\ Voucher.max_total_redemptions (apply_update body v) = m
  /\ Voucher.total_redeemed (apply_update body v) = Voucher.total_redeemed v
  /\ Voucher.total_redeemed (apply_update body v)
     > Voucher.max_total_redemptions (apply_update body v).
Proof.
  intros Hrole Hv Hschema Hpct Hwin Hf1 Hf2 Hmax Hlt.
  unfold put_voucher, requireAdmin.
  rewrite (role_is_true _ _ Hrole). simpl negb. cbv iota.
  unfold update_handler. rewrite Hschema. simpl negb. cbv iota.
  run_call. rewrite Hf1. cbn [fst snd]. rewrite Hv. cbn.
  rewrite Hpct, Hwin. run_call. rewrite Hf2, Hv.
  cbn [fst snd error data ok response_after store_after run vouchers].
  destruct (filter_single_In _ _ _ Hv) as [Hin Hid].
  assert (Hm : Voucher.max_total_redemptions (apply_update body v) = m).
  { unfold apply_update. simpl. rewrite Hmax. reflexivity. }
  repeat split.
  - apply update_where_In; assumption.
  - exact Hm.
  - rewrite Hmax. lia.
Qed.

Lemma update_stores_max_below_redeemed_witness :
  response_after (put_voucher (Some admin) "v-1" (set_max 1)) (calm "") 0
    (mkDB [newyear 5 2] [])
  = json 200 (JVoucher "Voucher berhasil diupdate"
                (Some (apply_update (set_max 1) (newyear 5 2))))
  /\ In (apply_update (set_max 1) (newyear 5 2))
       (vouchers (store_after (put_voucher (Some admin) "v-1" (set_max 1))
                    (calm "") 0 (mkDB [newyear 5 2] [])))
  /\ Voucher.max_total_redemptions (apply_update (set_max 1) (newyear 5 2))
     = 1
  /\ Voucher.total_redeemed (apply_update (set_max 1) (newyear 5 2))
     = Voucher.total_redeemed (newyear 5 2)
  /\ Voucher.total_redeemed (apply_update (set_max 1) (newyear 5 2))
     > Voucher.max_total_redemptions
         (apply_update (set_max 1) (newyear 5 2)).
Proof.
  apply (update_stores_max_below_redeemed admin "v-1" (set_max 1)
           (newyear 5 2) 1 (calm "") 0 (mkDB [newyear 5 2] []));
    try reflexivity.
Defined.

(** ** Eligibility *)

Lemma expired_spec (now : Timestamp) (v : Voucher.t) :
  match Voucher.end_at v with Some e => now >? e | None => false end
  = expired now v.
Proof.
  unfold expired. destruct (Voucher.end_at v); [apply Z.gtb_ltb|reflexivity].
Qed.

(** C4.  A valid redeem request of a USER that fails eligibility is
    answered with the error of the earliest failing check in the order
    voucher exists (NotFound), active (Inactive), window start (NotStarted
    with start_at), window end (Expired with end_at), capacity (Exhausted),
    minimum order (BelowMinimum with the minimum), prior redemption
    (AlreadyRedeemed with redeemed_at).  The store is left as it was, the
    request makes no write, and unless the error is AlreadyRedeemed the
    voucher fetch is its only storage call. *)
Theorem redeem_reports_first_failing_check (u : User) (code : string)
    (body : RedeemBody.t) (now : Timestamp) (ticks : nat -> Tick) (n : nat)
    (db : DB) (e : Ineligible) :
  role u = Some "USER" ->
  redeemVoucherSchema body = true ->
  let voucher := fetched_voucher code ticks n db in
  let prior := fetched_redemption voucher (user_id u) ticks n db in
  first_failing_check voucher prior now (RedeemBody.order_amount body)
  = Some e ->
  response_after (post_redeem (Some u) code body now) ticks n db
  = error_response code e
  /\ store_after (post_redeem (Some u) code body now) ticks n db = db
  /\ forallb (fun ev => negb (is_write ev))
       (log_after (post_redeem (Some u) code body now) ticks n db) = true
  /\ ((forall ts, e <> AlreadyRedeemed ts) ->
      log_after (post_redeem (Some u) code body now) ticks n db
      = [Ev (SelectVoucherByCode code)]).
Proof.
  intros Hrole Hbody voucher prior.
  unfold post_redeem, requireUser.
  rewrite (role_is_true _ _ Hrole). simpl negb. cbv iota.
  unfold redeem_handler. rewrite Hbody. simpl negb. cbv iota.
  run_read. fold (fetched_voucher code ticks n db). fold voucher.
  subst prior. unfold fetched_redemption.
  destruct voucher as [v|]; unfold first_failing_check, checks;
    cbn [find fst snd option_map].
  2: { intros [= <-]. repeat split. }
  destruct (Voucher.is_active v); cbn [negb].
  2: { intros [= <-]. repeat split. }
  fold (not_started now v).
  destruct (not_started now v).
  { intros [= <-]. repeat split. }
  rewrite expired_spec.
  destruct (expired now v).
  { intros [= <-]. repeat split. }
  rewrite Z.geb_leb.
  destruct (Voucher.max_total_redemptions v <=? Voucher.total_redeemed v).
  { intros [= <-]. repeat split. }
  destruct (RedeemBody.order_amount body <? Voucher.min_order_amount v).
  { intros [= <-]. repeat split. }
  run_read.
  destruct (data (fst (exec (ticks (S n))
                        (SelectRedemption (Voucher.id v) (user_id u)) db)))
    as [existingRedeem|].
  2: discriminate.
  intros [= <-]. repeat split.
  intros Hne. exfalso. eapply Hne. reflexivity.
Qed.

Lemma redeem_reports_first_failing_check_witness :
  response_after (post_redeem (Some alice) "NEWYEAR2026" (order 40000) 10)
    (calm "r-1") 0 (mkDB [newyear 1 0] [])
  = error_response "NEWYEAR2026" (BelowMinimum "IDR" 50000)
  /\ store_after (post_redeem (Some alice) "NEWYEAR2026" (order 40000) 10)
       (calm "r-1") 0 (mkDB [newyear 1 0] [])
     = mkDB [newyear 1 0] []
  /\ forallb (fun ev => negb (is_write ev))
       (log_after (post_redeem (Some alice) "NEWYEAR2026" (order 40000) 10)
          (calm "r-1") 0 (mkDB [newyear 1 0] [])) = true
  /\ ((forall ts, BelowMinimum "IDR" 50000 <> AlreadyRedeemed ts) ->
      log_after (post_redeem (Some alice) "NEWYEAR2026" (order 40000) 10)
        (calm "r-1") 0 (mkDB [newyear 1 0] [])
      = [Ev (SelectVoucherByCode "NEWYEAR2026")]).
Proof.
  apply (redeem_reports_first_failing_check alice "NEWYEAR2026"
           (order 40000) 10 (calm "r-1") 0 (mkDB [newyear 1 0] [])
           (BelowMinimum "IDR" 50000)); reflexivity.
Defined.

(** From the counter update on, the answer is 200 or 500. *)
Lemma commit_status (userId : string) (voucher : Voucher.t)
    (order_amount : Z) (order_id : option string) (ticks : nat -> Tick)
    (n : nat) (db : DB) :
  status (response_after (commit userId voucher order_amount order_id)
            ticks n db) = 200
  \/ status (response_after (commit userId voucher order_amount order_id)
               ticks n db) = 500.
Proof.
  unfold commit. rewrite response_after_call.
  destruct (error _); [right; reflexivity|].
  rewrite response_after_call.
  destruct (error _).
  - rewrite response_after_call. right; reflexivity.
  - destruct (data _); [left|right]; reflexivity.
Qed.

(** C5, as the specification states it, fails: the only ledger record
    of the pair is CANCELLED, none is SUCCESS, the earlier checks pass, and
    the request is answered AlreadyRedeemed. *)
Lemma cancelled_record_blocks_redemption :
  let db := mkDB [newyear 5 0] [alice_record CANCELLED] in
  Forall (fun r => Redemption.status r <> SUCCESS) (voucher_redemptions db)
  /\ first_failing_check (Some (newyear 5 0)) None 10 150000 = None
  /\ run (post_redeem (Some alice) "NEWYEAR2026" (order 150000) 10)
       (calm "r-2") 0 db
     = (error_response "NEWYEAR2026" (AlreadyRedeemed 500), db,
        [Ev (SelectVoucherByCode "NEWYEAR2026");
         Ev (SelectRedemption "v-1" "u-alice")]).
Proof.
  repeat split. repeat constructor; discriminate.
Qed.

(** C5, amended.  For a redeem request of user u against voucher v that
    passes the earlier checks, with a ledger lookup that does not fail:
    AlreadyRedeemed carrying redeemed_at is returned if and only if the
    ledger holds exactly one record of the pair (v, u), of any status,
    and redeemed_at is that record's. *)
Theorem already_redeemed_iff_record_found (u : User) (code : string)
    (body : RedeemBody.t) (now : Timestamp) (ticks : nat -> Tick) (n : nat)
    (db : DB) (v : Voucher.t) :
  role u = Some "USER" ->
  redeemVoucherSchema body = true ->
  fetched_voucher code ticks n db = Some v ->
  first_failing_check (Some v) None now (RedeemBody.order_amount body)
  = None ->
  fails (ticks (S n)) = false ->
  forall ts,
    response_after (post_redeem (Some u) code body now) ticks n db
    = error_response code (AlreadyRedeemed ts)
    <-> exists r,
          filter (of_voucher_user (Voucher.id v) (user_id u))
            (voucher_redemptions db) = [r]
          /\ Redemption.redeemed_at r = ts.
Proof.
  intros Hrole Hbody Hv Hchecks Hf ts.
  unfold post_redeem, requireUser.
  rewrite (role_is_true _ _ Hrole). simpl negb. cbv iota.
  unfold redeem_handler. rewrite Hbody. simpl negb. cbv iota.
  run_read. fold (fetched_voucher code ticks n db). rewrite Hv.
  revert Hchecks. unfold first_failing_check, checks.
  cbn [find fst snd option_map].
  destruct (Voucher.is_active v); cbn [negb]; [|discriminate].
  fold (not_started now v). destruct (not_started now v); [discriminate|].
  rewrite expired_spec. destruct (expired now v); [discriminate|].
  rewrite Z.geb_leb.
  destruct (Voucher.max_total_redemptions v <=? Voucher.total_redeemed v);
    [discriminate|].
  destruct (RedeemBody.order_amount body <? Voucher.min_order_amount v);
    [discriminate|].
  intros _. run_read. unfold exec at 1. rewrite Hf. cbn [fst].
  destruct (filter (of_voucher_user (Voucher.id v) (user_id u))
              (voucher_redemptions db)) as [|r [|r' rest]];
    cbn [single data ok failed].
  - split.
    + intros Heq. apply (f_equal status) in Heq.
      destruct (commit_status (user_id u) v (RedeemBody.order_amount body)
                  (RedeemBody.order_id body) ticks (S (S n)) db) as [H|H];
        rewrite H in Heq; discriminate.
    + intros (r & Hr & _). discriminate.
  - split.
    + intros [= <-]. exists r. split; reflexivity.
    + intros (r0 & [= <-] & <-). reflexivity.
  - split.
    + intros Heq. apply (f_equal status) in Heq.
      destruct (commit_status (user_id u) v (RedeemBody.order_amount body)
                  (RedeemBody.order_id body) ticks (S (S n)) db) as [H|H];
        rewrite H in Heq; discriminate.
    + intros (r0 & Hr & _). discriminate.
Qed.

Lemma already_redeemed_iff_record_found_witness :
  response_after (post_redeem (Some alice) "NEWYEAR2026" (order 150000) 10)
    (calm "r-2") 0 (mkDB [newyear 5 0] [alice_record CANCELLED])
  = error_response "NEWYEAR2026" (AlreadyRedeemed 500)
  <-> exists r,
        filter (of_voucher_user (Voucher.id (newyear 5 0)) (user_id alice))
          (voucher_redemptions
             (mkDB [newyear 5 0] [alice_record CANCELLED])) = [r]
        /\ Redemption.redeemed_at r = 500.
Proof.
  apply (already_redeemed_iff_record_found alice "NEWYEAR2026"
           (order 150000) 10 (calm "r-2") 0
           (mkDB [newyear 5 0] [alice_record CANCELLED]) (newyear 5 0));
    reflexivity.
Defined.

(** ** The state transition: counter update, ledger insert, rollback *)

(** A request that runs alone and whose ledger insert fails puts the
    counter back: when the voucher it read is the only row of its id, the
    store ends as it began and the answer is 500. *)
Lemma rollback_restores_store_alone (userId : string) (v : Voucher.t)
    (order_amount : Z) (order_id : option string) (ticks : nat -> Tick)
    (n : nat) (db : DB) :
  filter (has_id (Voucher.id v)) (vouchers db) = [v] ->
  fails (ticks n) = false ->
  fails (ticks (S n)) = true ->
  fails (ticks (S (S n))) = false ->
  response_after (commit userId v order_amount order_id) ticks n db
  = json 500 (JError "Database Error" "Gagal menyimpan redemption")
  /\ store_after (commit userId v order_amount order_id) ticks n db = db.
Proof.
  intros Hv Hf1 Hf2 Hf3. unfold commit.
  run_call. rewrite Hf1. cbn [fst snd error ok_empty].
  run_call. rewrite Hf2. cbn [orb fst snd error failed].
  run_call. rewrite Hf3. cbn [fst snd].
  split; [reflexivity|].
  unfold store_after; cbn [run fst snd vouchers voucher_redemptions].
  destruct db as [vs rs]; cbn [vouchers voucher_redemptions] in *.
  f_equal. unfold update_where. rewrite map_map.
  rewrite <- (map_id vs) at 2. apply map_ext_in. intros r Hr.
  unfold counter_filter.
  destruct (has_id (Voucher.id v) r) eqn:Hid; cbn [andb].
  - assert (Hrv : In r (filter (has_id (Voucher.id v)) vs))
      by (apply filter_In; auto).
    rewrite Hv in Hrv. destruct Hrv as [<-|[]].
    rewrite Z.eqb_refl. unfold has_id in *. cbn. rewrite Hid.
    destruct v; reflexivity.
  - rewrite Hid. reflexivity.
Qed.

(** C2.  The rollback writes the value read at the start to every row of
    the voucher's id, whatever the counter holds by then.  Alice increments
    the counter of a fresh voucher from 0 to 1; Bob redeems, 1 to 2, and
    his ledger record is written; Alice's ledger insert fails and her
    rollback sets the counter to 0: Bob's increment is lost although his
    record stands, and Alice is answered 500. *)
Theorem rollback_overwrites_concurrent_increment :
  snd (interleave bob_in_between race (mkDB [newyear 5 0] []))
  = mkDB [newyear 5 2] [bob_record]
  /\ snd (interleave (bob_in_between ++ alice_rolls_back) race
            (mkDB [newyear 5 0] []))
     = mkDB [newyear 5 0] [bob_record]
  /\ map response_of
       (fst (interleave (bob_in_between ++ alice_rolls_back) race
               (mkDB [newyear 5 0] [])))
     = [ Some (json 500
                 (JError "Database Error" "Gagal menyimpan redemption"));
         Some (json 200
                 (JRedeemed "Voucher berhasil digunakan!" "NEWYEAR2026"
                    "New Year Discount" PERCENT 30 150000 30000 120000
                    "IDR" 20)) ].
Proof. repeat split. Qed.

(** C3.  The handler does not notice that its conditional update, the
    one the source marks "Optimistic locking", matched no row.  Alice
    reads the counter at 0; Bob redeems and the counter is 1; Alice's
    conditional update then matches no row, which the store does not
    report as an error, and the handler looks at nothing else: she is not
    sent back to the start and no conflict is reported, her ledger record
    is written and she is answered 200.  A voucher that allows one
    redemption has two SUCCESS rows and a counter of 1. *)
Lemma conflict_answered_with_success :
  interleave bob_overtakes race (mkDB [newyear 1 0] [])
  = ([ commit "u-alice" (newyear 1 0) 150000 None;
       Ret (json 200
              (JRedeemed "Voucher berhasil digunakan!" "NEWYEAR2026"
                 "New Year Discount" PERCENT 30 150000 30000 120000
                 "IDR" 20)) ],
     mkDB [newyear 1 1] [bob_record])
  /\ interleave (bob_overtakes ++ alice_goes_on) race
       (mkDB [newyear 1 0] [])
     = ([ Ret (json 200
                 (JRedeemed "Voucher berhasil digunakan!" "NEWYEAR2026"
                    "New Year Discount" PERCENT 30 150000 30000 120000
                    "IDR" 30));
          Ret (json 200
                 (JRedeemed "Voucher berhasil digunakan!" "NEWYEAR2026"
                    "New Year Discount" PERCENT 30 150000 30000 120000
                    "IDR" 20)) ],
        mkDB [newyear 1 1] [bob_record; alice_late_record]).
Proof. split; reflexivity. Qed.

(** Every path of the redeem route, call by call. *)
Ltac walk_redeem user body now :=
  unfold post_redeem, requireUser, redeem_handler;
  destruct user as [u|]; [|exact I];
  destruct (role_is "USER" u); [|exact I];
  destruct (redeemVoucherSchema body); [|exact I];
  cbn; intros sel; destruct (found sel) as [v|]; [|exact I];
  destruct (Voucher.is_active v); [|exact I];
  destruct (not_started now v); [exact I|];
  destruct (expired now v); [exact I|];
  destruct (Voucher.max_total_redemptions v <=? Voucher.total_redeemed v);
    [exact I|];
  destruct (RedeemBody.order_amount body <? Voucher.min_order_amount v);
    [exact I|];
  cbn; intros red; destruct (data red); [exact I|];
  cbn; intros upd; destruct (error upd); [exact I|];
  cbn; intros ins; destruct (error ins); [cbn; intros; exact I|];
  destruct (data ins); exact I.

(** The handler has no retry.  A redeem request fetches the voucher at
    most once and issues the conditional counter update at most once,
    whatever its storage calls return.  When the store reports an error
    for the counter update, the request ends right there with 500
    Database Error, asking the caller to try again, and has written
    nothing. *)
Theorem counter_update_not_retried (user : option User) (code : string)
    (body : RedeemBody.t) (now : Timestamp) :
  at_most is_fetch_by_code 1 (post_redeem user code body now)
  /\ at_most is_conditional_update 1 (post_redeem user code body now)
  /\ forall (userId : string) (voucher : Voucher.t) (order_amount : Z)
       (order_id : option string) (t : Tick) (db : DB),
       fails t = true ->
       step t (commit userId voucher order_amount order_id) db
       = (Ret (json 500 (JError "Database Error"
                 "Gagal memproses redeem, silakan coba lagi")), db).
Proof.
  split; [|split].
  - walk_redeem user body now.
  - walk_redeem user body now.
  - intros userId voucher order_amount order_id t db Hf.
    unfold commit, step, exec. rewrite Hf. reflexivity.
Qed.

Lemma counter_update_not_retried_witness :
  step fault (commit "u-alice" (newyear 1 0) 150000 None)
    (mkDB [newyear 1 0] [])
  = (Ret (json 500 (JError "Database Error"
            "Gagal memproses redeem, silakan coba lagi")),
     mkDB [newyear 1 0] []).
Proof.
  apply (counter_update_not_retried (Some alice) "NEWYEAR2026"
           (order 150000) 10).
  reflexivity.
Defined.

(** ** The capacity invariant *)

(** What [wp] promises holds of every run. *)
Lemma wp_sound {A : Type} (p : Prog A) (Q : A -> DB -> Prop) :
  forall (db : DB), wp p Q db ->
  forall (ticks : nat -> Tick) (n : nat),
    Q (response_after p ticks n db) (store_after p ticks n db).
Proof.
  induction p as [a|R op k IH]; intros db Hwp ticks n.
  - exact Hwp.
  - rewrite response_after_call, store_after_call. apply IH. apply Hwp.
Qed.

Lemma update_where_ids (p : Voucher.t -> bool) (f : Voucher.t -> Voucher.t)
    (rows : list Voucher.t) :
  (forall r, Voucher.id (f r) = Voucher.id r) ->
  map Voucher.id (update_where p f rows) = map Voucher.id rows.
Proof.
  intros Hf. unfold update_where. rewrite map_map. apply map_ext.
  intros r. destruct (p r); [apply Hf|reflexivity].
Qed.

Lemma Forall_update_where {T : Type} (P : T -> Prop) (p : T -> bool)
    (f : T -> T) (rows : list T) :
  Forall P rows ->
  (forall r, In r rows -> p r = true -> P (f r)) ->
  Forall P (update_where p f rows).
Proof.
  intros Hall Hf. unfold update_where. apply Forall_forall.
  intros r' Hin. apply in_map_iff in Hin as (r & <- & Hr).
  destruct (p r) eqn:Hp; [apply Hf; assumption|].
  rewrite Forall_forall in Hall. apply Hall, Hr.
Qed.

Lemma unique_id (rows : list Voucher.t) (a b : Voucher.t) :
  NoDup (map Voucher.id rows) ->
  In a rows -> In b rows -> Voucher.id a = Voucher.id b -> a = b.
Proof.
  induction rows as [|r rows IH]; simpl; [contradiction|].
  intros Hnd Ha Hb Hid. inversion Hnd as [|? ? Hnotin Hnd']; subst.
  destruct Ha as [<-|Ha], Hb as [<-|Hb]; auto.
  - exfalso. apply Hnotin. rewrite Hid. apply in_map, Hb.
  - exfalso. apply Hnotin. rewrite <- Hid. apply in_map, Ha.
Qed.

Lemma has_id_eq (i : string) (v : Voucher.t) :
  has_id i v = true -> Voucher.id v = i.
Proof. unfold has_id. apply String.eqb_eq. Qed.

Lemma NoDup_filter_ids (p : Voucher.t -> bool) (rows : list Voucher.t) :
  NoDup (map Voucher.id rows) -> NoDup (map Voucher.id (filter p rows)).
Proof.
  induction rows as [|r rows IH]; simpl; intros Hnd; [constructor|].
  inversion Hnd as [|? ? Hnotin Hnd']; subst.
  destruct (p r); simpl; [constructor|]; auto.
  intros Hin. apply Hnotin. apply in_map_iff in Hin as (x & Hx & Hin).
  apply in_map_iff. exists x. split; [assumption|].
  apply filter_In in Hin. tauto.
Qed.

(** The counter updates of a redeem request keep the store in order when
    the voucher it read is in the store with room for one more. *)
Lemma counter_update_ok (v : Voucher.t) (e : option Z) (k : Z) (db : DB) :
  db_ok db ->
  (forall r, In r (vouchers db) -> Voucher.id r = Voucher.id v ->
             0 <= k <= Voucher.max_total_redemptions r) ->
  db_ok (mkDB (update_where (counter_filter (Voucher.id v) e)
                 (Voucher.set_total_redeemed k) (vouchers db))
              (voucher_redemptions db)).
Proof.
  intros [Hnd Hall] Hk. split; cbn [vouchers].
  - rewrite update_where_ids; [assumption|reflexivity].
  - apply Forall_update_where; [assumption|].
    intros r Hr Hp. unfold counter_filter in Hp.
    apply andb_prop in Hp as [Hid _]. apply has_id_eq in Hid.
    unfold counter_in_range. cbn. apply Hk; assumption.
Qed.

Lemma update_where_max (p : Voucher.t -> bool) (k : Z)
    (rows : list Voucher.t) (r' : Voucher.t) :
  In r' (update_where p (Voucher.set_total_redeemed k) rows) ->
  exists r, In r rows /\ Voucher.id r' = Voucher.id r
            /\ Voucher.max_total_redemptions r'
               = Voucher.max_total_redemptions r.
Proof.
  unfold update_where. intros Hin.
  apply in_map_iff in Hin as (r & <- & Hr). exists r.
  destruct (p r); auto.
Qed.

Lemma single_In {T : Type} (rows : list T) (r : T) :
  data (single rows) = Some r -> rows = [r].
Proof.
  destruct rows as [|x [|y rest]]; cbn; try discriminate.
  intros [= ->]. reflexivity.
Qed.

Lemma found_data {T : Type} (res : Result T) (r : T) :
  found res = Some r -> data res = Some r.
Proof. unfold found. destruct (error res); [discriminate|auto]. Qed.

Lemma fetched_by_code (t : Tick) (code : string) (db : DB) (v : Voucher.t) :
  data (fst (exec t (SelectVoucherByCode code) db)) = Some v ->
  In v (vouchers db).
Proof.
  unfold exec. destruct (fails t); cbn [fst]; [discriminate|].
  intros H. apply single_In in H. eapply filter_single_In, H.
Qed.

Lemma fetched_by_id (t : Tick) (id : string) (db : DB) (v : Voucher.t) :
  data (fst (exec t (SelectVoucherById id) db)) = Some v ->
  filter (has_id id) (vouchers db) = [v].
Proof.
  unfold exec. destruct (fails t); cbn [fst]; [discriminate|].
  apply single_In.
Qed.

Lemma db_ok_vouchers (db : DB) (rs : list Redemption.t) :
  db_ok db -> db_ok (mkDB (vouchers db) rs).
Proof. intros H. exact H. Qed.

Lemma commit_preserves_db_ok (userId : string) (v : Voucher.t)
    (order_amount : Z) (order_id : option string) (db : DB) :
  db_ok db ->
  In v (vouchers db) ->
  Voucher.total_redeemed v < Voucher.max_total_redemptions v ->
  wp (commit userId v order_amount order_id) (fun _ db' => db_ok db') db.
Proof.
  intros Hok Hin Hroom.
  assert (Hv : counter_in_range v).
  { destruct Hok as [_ Hall]. rewrite Forall_forall in Hall. auto. }
  unfold counter_in_range in Hv.
  assert (Hsame : forall r, In r (vouchers db) ->
            Voucher.id r = Voucher.id v -> r = v).
  { intros r Hr Hid. destruct Hok as [Hnd _].
    eapply unique_id; eassumption. }
  assert (Hok1 : db_ok (mkDB (update_where
                   (counter_filter (Voucher.id v)
                      (Some (Voucher.total_redeemed v)))
                   (Voucher.set_total_redeemed (Voucher.total_redeemed v + 1))
                   (vouchers db)) (voucher_redemptions db))).
  { apply counter_update_ok; [assumption|].
    intros r Hr Hid. rewrite (Hsame r Hr Hid). lia. }
  unfold commit. cbn [wp]. intros t1. unfold exec.
  destruct (fails t1); cbn [fst snd error failed ok_empty]; [exact Hok|].
  intros t2. unfold exec.
  destruct (fails t2 || _); cbn [fst snd error data failed ok].
  - intros t3. unfold exec.
    destruct (fails t3); cbn [fst snd]; [exact Hok1|].
    apply (counter_update_ok v None); [exact Hok1|].
    cbn [vouchers]. intros r' Hr' Hid'.
    apply update_where_max in Hr' as (r & Hr & Hidr & Hmax).
    rewrite Hmax, (Hsame r Hr) by congruence. lia.
  - exact Hok1.
Qed.

Lemma redeem_preserves_db_ok (user : option User) (code : string)
    (body : RedeemBody.t) (now : Timestamp) (db : DB) :
  db_ok db ->
  wp (post_redeem user code body now) (fun _ db' => db_ok db') db.
Proof.
  intros Hok. unfold post_redeem, requireUser, redeem_handler.
  destruct user as [u|]; [|exact Hok].
  destruct (role_is "USER" u); [|exact Hok].
  destruct (redeemVoucherSchema body); [|exact Hok].
  cbn [wp]. intros t1. rewrite exec_read by reflexivity.
  destruct (found _) as [v|] eqn:Hfound; [|exact Hok].
  destruct (Voucher.is_active v); [|exact Hok].
  destruct (not_started now v); [exact Hok|].
  destruct (expired now v); [exact Hok|].
  destruct (Z.leb_spec (Voucher.max_total_redemptions v)
              (Voucher.total_redeemed v)) as [|Hroom]; [exact Hok|].
  destruct (RedeemBody.order_amount body <? Voucher.min_order_amount v);
    [exact Hok|].
  cbn [wp]. intros t2. rewrite exec_read by reflexivity.
  destruct (data _); [exact Hok|].
  apply commit_preserves_db_ok; try assumption.
  eapply fetched_by_code, found_data, Hfound.
Qed.

Lemma no_row_of_id (i : string) (rows : list Voucher.t) :
  existsb (has_id i) rows = false -> ~ In i (map Voucher.id rows).
Proof.
  intros Hex Hin. apply in_map_iff in Hin as (r & Hid & Hr).
  assert (Htrue : existsb (has_id i) rows = true).
  { apply existsb_exists. exists r. split; [assumption|].
    unfold has_id. rewrite Hid. apply String.eqb_refl. }
  congruence.
Qed.

Lemma insert_ok (row : Voucher.t) (db : DB) :
  db_ok db ->
  existsb (has_id (Voucher.id row)) (vouchers db) = false ->
  counter_in_range row ->
  db_ok (mkDB (vouchers db ++ [row])%list (voucher_redemptions db)).
Proof.
  intros [Hnd Hall] Hfresh Hrow. split; cbn [vouchers].
  - rewrite map_app. cbn [map].
    apply NoDup_app; [assumption|repeat constructor; intros []|].
    intros i Hi [<-|[]]. eapply no_row_of_id; eassumption.
  - apply Forall_app. split; [assumption|].
    constructor; [assumption|constructor].
Qed.

Lemma create_preserves_db_ok (user : option User) (b : CreateBody.t)
    (db : DB) :
  db_ok db ->
  wp (post_vouchers user b) (fun _ db' => db_ok db') db.
Proof.
  intros Hok. unfold post_vouchers, requireAdmin, create_handler.
  destruct user as [u|]; [|exact Hok].
  destruct (role_is "ADMIN" u); [|exact Hok].
  destruct (createVoucherSchema b) eqn:Hschema; [|exact Hok].
  destruct (percent_over_100 _ _); [exact Hok|].
  destruct (end_before_start _ _); [exact Hok|].
  cbn [negb wp]. intros t1. rewrite exec_read by reflexivity.
  destruct (data _); [exact Hok|].
  cbn [wp]. intros t2. unfold exec.
  destruct (fails t2 || _) eqn:Hpk; cbn [fst snd error failed ok];
    [exact Hok|].
  apply orb_false_elim in Hpk as [_ Hfresh].
  apply insert_ok; [assumption|exact Hfresh|].
  unfold counter_in_range. cbn.
  unfold createVoucherSchema in Hschema.
  apply andb_prop in Hschema as [_ Hmax].
  destruct (CreateBody.max_total_redemptions b) as [m|]; cbn in *; lia.
Qed.

Lemma delete_preserves_db_ok (user : option User) (id : string) (db : DB) :
  db_ok db ->
  wp (delete_voucher user id) (fun _ db' => db_ok db') db.
Proof.
  intros Hok. unfold delete_voucher, requireAdmin, delete_handler.
  destruct user as [u|]; [|exact Hok].
  destruct (role_is "ADMIN" u); [|exact Hok].
  cbn [negb wp]. intros t1. rewrite exec_read by reflexivity.
  destruct (found _); [|exact Hok].
  destruct (0 <? _); [exact Hok|].
  cbn [wp]. intros t2. unfold exec.
  destruct (fails t2); cbn [fst snd error failed ok_empty]; [exact Hok|].
  destruct Hok as [Hnd Hall]. split; cbn [vouchers].
  - apply NoDup_filter_ids, Hnd.
  - rewrite Forall_forall in *. intros r Hr.
    apply filter_In in Hr. apply Hall, Hr.
Qed.

Lemma update_preserves_db_ok (user : option User) (id : string)
    (body : UpdateBody.t) (db : DB) :
  db_ok db ->
  lowers_below_redeemed (Update user id body) db = false ->
  wp (put_voucher user id body) (fun _ db' => db_ok db') db.
Proof.
  intros Hok Hlow. unfold put_voucher, requireAdmin, update_handler.
  destruct user as [u|]; [|exact Hok].
  destruct (role_is "ADMIN" u); [|exact Hok].
  destruct (updateSchema body); [|exact Hok].
  cbn [negb wp]. intros t1. rewrite exec_read by reflexivity.
  destruct (found _) as [existing|]; [|exact Hok].
  destruct (percent_over_100 _ _); [exact Hok|].
  destruct (end_before_start _ _); [exact Hok|].
  cbn [wp]. intros t2. unfold exec.
  destruct (fails t2); cbn [fst snd error failed]; [exact Hok|].
  destruct (filter (has_id id) (vouchers db)) as [|v0 [|v1 rest]];
    cbn [fst snd error failed ok]; try exact Hok.
  destruct Hok as [Hnd Hall]. split; cbn [vouchers].
  - rewrite update_where_ids; [assumption|reflexivity].
  - apply Forall_update_where; [assumption|].
    intros r Hr Hid. rewrite Forall_forall in Hall. specialize (Hall r Hr).
    unfold counter_in_range in *. cbn.
    unfold lowers_below_redeemed in Hlow.
    destruct (UpdateBody.max_total_redemptions body) as [m|]; [|exact Hall].
    assert (Hm : (m <? Voucher.total_redeemed r) = false).
    { destruct (m <? Voucher.total_redeemed r) eqn:Hlt; [|reflexivity].
      rewrite <- Hlow. symmetry. apply existsb_exists. exists r.
      rewrite Hid, Hlt. auto. }
    apply Z.ltb_ge in Hm. lia.
Qed.

(** Every public operation but an update under the redeemed count keeps
    ids unique and counters in range. *)
Lemma route_preserves_db_ok (op : Operation) (db : DB) :
  db_ok db ->
  lowers_below_redeemed op db = false ->
  wp (route op) (fun _ db' => db_ok db') db.
Proof.
  intros Hok Hlow. destruct op; cbn [route].
  - apply create_preserves_db_ok, Hok.
  - apply update_preserves_db_ok; assumption.
  - apply delete_preserves_db_ok, Hok.
  - apply redeem_preserves_db_ok, Hok.
Qed.

Lemma reachable_db_ok (db : DB) : reachable db -> db_ok db.
Proof.
  induction 1 as [|db op ticks n Hreach IH Hlow].
  - split; constructor.
  - apply (wp_sound (route op) (fun _ db' => db_ok db') db).
    apply route_preserves_db_ok; assumption.
Qed.

(** C1, amended.  In every store reachable from the empty one by create,
    update, delete and redeem requests served one after another, whatever
    storage calls fail, every voucher has 0 <= total_redeemed <=
    max_total_redemptions, provided no update request asks for a
    max_total_redemptions below the total_redeemed its voucher has at that
    time.  Create, delete, the counter increment of redeem and its
    rollback keep the counter in range. *)
Theorem counter_in_range_when_max_not_lowered (db : DB) :
  reachable db ->
  forall v, In v (vouchers db) -> counter_in_range v.
Proof.
  intros Hreach v Hv. apply reachable_db_ok in Hreach as [_ Hall].
  rewrite Forall_forall in Hall. apply Hall, Hv.
Qed.

Lemma counter_in_range_when_max_not_lowered_witness :
  counter_in_range (newyear 2 1).
Proof.
  apply (counter_in_range_when_max_not_lowered
           (store_after
              (route (Redeem (Some alice) "NEWYEAR2026" (order 150000) 10))
              (calm "r-1") 0
              (store_after (route (Create (Some admin) (newyear_body 2)))
                 (calm "v-1") 0 empty_db))).
  - apply reach_op; [|reflexivity].
    apply reach_op; [|reflexivity].
    apply reach_empty.
  - simpl. left. reflexivity.
Defined.

(** C1, as the specification states it, fails: a voucher for two is
    redeemed by two users and then updated to max_total_redemptions = 1;
    the update is stored and total_redeemed = 2 exceeds it. *)
Lemma update_breaks_counter_range :
  vouchers (serve lowered_after_two empty_db) = [newyear 1 2]
  /\ ~ counter_in_range (newyear 1 2).
Proof.
  split; [reflexivity|]. unfold counter_in_range. simpl. lia.
Qed.

(** ** The field rules of stored vouchers *)

Lemma set_total_fields (k : Z) (v : Voucher.t) :
  fields_valid v -> fields_valid (Voucher.set_total_redeemed k v).
Proof. intros H. exact H. Qed.

Lemma percent_checked (ty : DiscountType) (dv : Z) :
  percent_over_100 ty dv = false -> ty = PERCENT -> dv <= 100.
Proof.
  unfold percent_over_100. intros H ->. cbn in H. apply Z.ltb_ge, H.
Qed.

Lemma created_fields_valid (b : CreateBody.t) (i u : string) :
  createVoucherSchema b = true ->
  percent_over_100 (CreateBody.discount_type b) (CreateBody.discount_value b)
  = false ->
  fields_valid
    (Voucher.mk i (CreateBody.code b) (CreateBody.name b)
       (CreateBody.description b) (CreateBody.discount_type b)
       (CreateBody.discount_value b) (default "IDR" (CreateBody.currency b))
       (default 0 (CreateBody.min_order_amount b))
       (CreateBody.max_discount_amount b)
       (default 1 (CreateBody.max_total_redemptions b)) 0
       (CreateBody.start_at b) (CreateBody.end_at b) true u).
Proof.
  unfold createVoucherSchema. intros Hschema Hpct.
  repeat (apply andb_prop in Hschema as [Hschema ?]).
  unfold fields_valid. cbn. repeat split.
  - lia.
  - apply percent_checked, Hpct.
  - intros m Hm. rewrite Hm in *. cbn in *. lia.
Qed.

Lemma updated_fields_valid (body : UpdateBody.t) (v : Voucher.t) :
  updateSchema body = true ->
  percent_over_100
    (default (Voucher.discount_type v) (UpdateBody.discount_type body))
    (or_num (UpdateBody.discount_value body) (Voucher.discount_value v))
  = false ->
  fields_valid v ->
  fields_valid (apply_update body v).
Proof.
  unfold updateSchema. intros Hschema Hpct (Hpos & Hle & Hcap).
  repeat (apply andb_prop in Hschema as [Hschema ?]).
  unfold fields_valid, apply_update. cbn.
  assert (Hdv : or_num (UpdateBody.discount_value body)
                  (Voucher.discount_value v)
                = match UpdateBody.discount_value body with
                  | Some x => x
                  | None => Voucher.discount_value v
                  end).
  { unfold or_num, truthy.
    destruct (UpdateBody.discount_value body) as [x|]; [|reflexivity].
    cbn in *. destruct (Z.eqb_spec x 0); [lia|reflexivity]. }
  rewrite Hdv in Hpct. repeat split.
  - destruct (UpdateBody.discount_value body) as [x|]; cbn in *; lia.
  - intros Hty. apply (percent_checked _ _ Hpct).
    unfold default. exact Hty.
  - intros m Hm.
    destruct (UpdateBody.max_discount_amount body) as [x|]; cbn in *.
    + injection Hm as <-. lia.
    + apply Hcap, Hm.
Qed.

(** Every route keeps the field rules of the stored vouchers. *)
Lemma route_preserves_fields (op : Operation) (db : DB) :
  Forall fields_valid (vouchers db) ->
  wp (route op) (fun _ db' => Forall fields_valid (vouchers db')) db.
Proof.
  intros Hok.
  destruct op as [user b|user id upd|user id|user code b now]; cbn [route].
  - unfold post_vouchers, requireAdmin, create_handler.
    destruct user as [u|]; [|exact Hok].
    destruct (role_is "ADMIN" u); [|exact Hok].
    destruct (createVoucherSchema b) eqn:Hschema; [|exact Hok].
    destruct (percent_over_100 _ _) eqn:Hpct; [exact Hok|].
    destruct (end_before_start _ _); [exact Hok|].
    cbn [negb wp]. intros t1. rewrite exec_read by reflexivity.
    destruct (data _); [exact Hok|].
    cbn [wp]. intros t2. unfold exec.
    destruct (fails t2 || _); cbn [fst snd error failed ok vouchers];
      [exact Hok|].
    apply Forall_app. split; [exact Hok|].
    constructor; [|constructor]. apply created_fields_valid; assumption.
  - unfold put_voucher, requireAdmin, update_handler.
    destruct user as [u|]; [|exact Hok].
    destruct (role_is "ADMIN" u); [|exact Hok].
    destruct (updateSchema upd) eqn:Hschema; [|exact Hok].
    cbn [negb wp]. intros t1. rewrite exec_read by reflexivity.
    destruct (found _) as [existing|] eqn:Hfound; [|exact Hok].
    destruct (percent_over_100 _ _) eqn:Hpct; [exact Hok|].
    destruct (end_before_start _ _); [exact Hok|].
    cbn [wp]. intros t2. unfold exec.
    destruct (fails t2); cbn [fst snd error failed]; [exact Hok|].
    apply found_data, fetched_by_id in Hfound. rewrite Hfound.
    cbn [fst snd error ok vouchers].
    apply Forall_update_where; [exact Hok|].
    intros r Hr Hid.
    assert (Hin : In r (filter (has_id id) (vouchers db)))
      by (apply filter_In; auto).
    rewrite Hfound in Hin. destruct Hin as [<-|[]].
    apply updated_fields_valid; try assumption.
    rewrite Forall_forall in Hok. apply Hok, Hr.
  - unfold delete_voucher, requireAdmin, delete_handler.
    destruct user as [u|]; [|exact Hok].
    destruct (role_is "ADMIN" u); [|exact Hok].
    cbn [negb wp]. intros t1. rewrite exec_read by reflexivity.
    destruct (found _); [|exact Hok].
    destruct (0 <? _); [exact Hok|].
    cbn [wp]. intros t2. unfold exec.
    destruct (fails t2); cbn [fst snd error failed ok_empty vouchers];
      [exact Hok|].
    apply Forall_forall. intros r Hr. rewrite Forall_forall in Hok.
    apply filter_In in Hr. apply Hok, Hr.
  - unfold post_redeem, requireUser, redeem_handler.
    destruct user as [u|]; [|exact Hok].
    destruct (role_is "USER" u); [|exact Hok].
    destruct (redeemVoucherSchema b); [|exact Hok].
    cbn [negb wp]. intros t1. rewrite exec_read by reflexivity.
    destruct (found _) as [v|]; [|exact Hok].
    destruct (Voucher.is_active v); [|exact Hok].
    destruct (not_started now v); [exact Hok|].
    destruct (expired now v); [exact Hok|].
    destruct (_ <=? _); [exact Hok|].
    destruct (_ <? _); [exact Hok|].
    cbn [wp]. intros t2. rewrite exec_read by reflexivity.
    destruct (data _); [exact Hok|].
    unfold commit. cbn [wp]. intros t3. unfold exec.
    destruct (fails t3); cbn [fst snd error failed ok_empty]; [exact Hok|].
    assert (Hok1 : Forall fields_valid
              (update_where
                 (counter_filter (Voucher.id v)
                    (Some (Voucher.total_redeemed v)))
                 (Voucher.set_total_redeemed (Voucher.total_redeemed v + 1))
                 (vouchers db))).
    { apply Forall_update_where; [exact Hok|]. intros r Hr _.
      rewrite Forall_forall in Hok. apply set_total_fields, Hok, Hr. }
    intros t4. unfold exec.
    destruct (fails t4 || _); cbn [fst snd error data failed ok vouchers].
    + intros t5. unfold exec.
      destruct (fails t5); cbn [fst snd vouchers]; [exact Hok1|].
      apply Forall_update_where; [exact Hok1|]. intros r Hr _.
      rewrite Forall_forall in Hok1. apply set_total_fields, Hok1, Hr.
    + exact Hok1.
Qed.

Lemma served_fields_valid (ops : list (Operation * (nat -> Tick))) :
  forall db, Forall fields_valid (vouchers db) ->
             Forall fields_valid (vouchers (serve ops db)).
Proof.
  induction ops as [|[op ticks] ops IH]; intros db Hok; [exact Hok|].
  cbn [serve]. apply IH.
  apply (wp_sound (route op)
           (fun _ db' => Forall fields_valid (vouchers db')) db).
  apply route_preserves_fields, Hok.
Qed.

(** X21.  Every voucher of a store built from the empty one by requests
    served one after another meets the field rules of the data model, so
    for a positive order a hundred times which is still a safe integer
    (at most Number.MAX_SAFE_INTEGER) its discount is between 0 and the
    order, and the final amount is the order minus the discount and not
    negative. *)
Corollary stored_discount_within_order
    (ops : list (Operation * (nat -> Tick))) (v : Voucher.t)
    (order_amount : Z) :
  In v (vouchers (serve ops empty_db)) ->
  0 < order_amount ->
  order_amount * 100 <= MAX_SAFE_INTEGER ->
  0 <= discount_amount v order_amount <= order_amount
  /\ final_amount v order_amount
     = order_amount - discount_amount v order_amount
  /\ 0 <= final_amount v order_amount.
Proof.
  intros Hv Ho Hb.
  assert (Hfv : fields_valid v).
  { pose proof (served_fields_valid ops empty_db (Forall_nil _)) as Hall.
    rewrite Forall_forall in Hall. apply Hall, Hv. }
  destruct (discount_range v order_amount Hfv Ho
              (exact_for_hundredfold v order_amount Hfv Ho Hb))
    as [Hrange Hfinal].
  split; [exact Hrange|]. split; [exact Hfinal|]. rewrite Hfinal. lia.
Qed.

Lemma stored_discount_within_order_witness :
  0 <= discount_amount (newyear 2 1) 150000 <= 150000
  /\ final_amount (newyear 2 1) 150000
     = 150000 - discount_amount (newyear 2 1) 150000
  /\ 0 <= final_amount (newyear 2 1) 150000.
Proof.
  apply (stored_discount_within_order created_and_redeemed (newyear 2 1)
           150000).
  - vm_compute. left. reflexivity.
  - lia.
  - unfold MAX_SAFE_INTEGER. lia.
Defined.

(** ** The capacity invariant under interleaving *)

Lemma later_trans (w1 w2 w3 : World) :
  later w1 w2 -> later w2 w3 -> later w1 w3.
Proof.
  intros H12 H23. induction H23 as [|w2 w w3 _ IH Hm]; [assumption|].
  eapply later_step; [apply IH, H12|exact Hm].
Qed.

Lemma safe_later (p : Prog Response) (w w' : World) :
  safe p w -> later w w' -> safe p w'.
Proof.
  destruct p as [a|R op k]; cbn [safe]; [trivial|].
  intros Hsafe Hl w'' Hl' Hg t Ht.
  apply Hsafe; [eapply later_trans; eassumption|assumption|assumption].
Qed.

Lemma later_used (w w' : World) : later w w' -> incl (used w) (used w').
Proof.
  induction 1 as [|w w' w'' _ IH (_ & Hincl & _)]; [apply incl_refl|].
  eapply incl_tran; eassumption.
Qed.

Lemma later_max (w w' : World) :
  later w w' ->
  forall r', In r' (vouchers (store w')) ->
    In (Voucher.id r') (used w) ->
    exists r, In r (vouchers (store w))
              /\ Voucher.id r = Voucher.id r'
              /\ Voucher.max_total_redemptions r
                 = Voucher.max_total_redemptions r'.
Proof.
  induction 1 as [w|w w' w'' Hl IH (_ & _ & Hmax)]; intros r' Hr' Hid.
  - exists r'. auto.
  - destruct (Hmax r' Hr') as (r1 & Hr1 & Hid1 & Hmax1).
    { eapply later_used; eassumption. }
    destruct (IH r1 Hr1) as (r & Hr & Hid0 & Hmax0).
    { rewrite Hid1. exact Hid. }
    exists r. repeat split; [assumption|congruence|congruence].
Qed.

(** The voucher a request has read keeps its max_total_redemptions for
    as long as a row of its id exists. *)
Lemma later_snapshot (w w' : World) (v : Voucher.t) :
  good w -> In v (vouchers (store w)) -> later w w' ->
  forall r', In r' (vouchers (store w')) -> Voucher.id r' = Voucher.id v ->
    Voucher.max_total_redemptions r' = Voucher.max_total_redemptions v.
Proof.
  intros [[Hnd _] Hincl] Hv Hl r' Hr' Hid.
  destruct (later_max _ _ Hl r' Hr') as (r & Hr & Hidr & Hmax).
  { rewrite Hid. apply Hincl, in_map, Hv. }
  rewrite <- Hmax. f_equal.
  eapply unique_id; try eassumption. congruence.
Qed.

Lemma moves_same_vouchers (w : World) (u : string) (db' : DB) :
  good w -> vouchers db' = vouchers (store w) ->
  moves w (mkWorld (u :: used w) db').
Proof.
  intros [Hok Hincl] Hsame. unfold moves, good, db_ok. cbn [store used].
  rewrite Hsame. repeat split; try apply Hok.
  - apply incl_tl, Hincl.
  - apply incl_tl, incl_refl.
  - intros r' Hr' _. exists r'. auto.
Qed.

Lemma moves_read (w : World) (t : Tick) {R : Type} (op : DbOp R) :
  good w -> is_write (Ev op) = false -> moves w (after_call t op w).
Proof.
  intros Hg Hread. unfold after_call. rewrite exec_read by assumption.
  apply moves_same_vouchers; [assumption|reflexivity].
Qed.

Lemma moves_counter (w : World) (u i : string) (e : option Z) (k : Z) :
  good w ->
  (forall r, In r (vouchers (store w)) -> Voucher.id r = i ->
             0 <= k <= Voucher.max_total_redemptions r) ->
  moves w (mkWorld (u :: used w)
             (mkDB (update_where (counter_filter i e)
                      (Voucher.set_total_redeemed k) (vouchers (store w)))
                   (voucher_redemptions (store w)))).
Proof.
  intros [[Hnd Hall] Hincl] Hk. unfold moves, good, db_ok.
  cbn [store used vouchers].
  rewrite update_where_ids by reflexivity. repeat split.
  - assumption.
  - apply Forall_update_where; [assumption|].
    intros r Hr Hp. unfold counter_filter in Hp.
    apply andb_prop in Hp as [Hid _]. apply has_id_eq in Hid.
    unfold counter_in_range. cbn. apply Hk; assumption.
  - apply incl_tl, Hincl.
  - apply incl_tl, incl_refl.
  - intros r' Hr' _. apply update_where_max in Hr' as (r & Hr & Hid & Hmax).
    exists r. auto.
Qed.

Lemma moves_insert (w : World) (row : Voucher.t) :
  good w ->
  ~ In (Voucher.id row) (used w) ->
  counter_in_range row ->
  moves w (mkWorld (Voucher.id row :: used w)
             (mkDB (vouchers (store w) ++ [row])%list
                   (voucher_redemptions (store w)))).
Proof.
  intros [[Hnd Hall] Hincl] Hfresh Hrow. unfold moves, good, db_ok.
  cbn [store used vouchers]. rewrite map_app. cbn [map]. repeat split.
  - apply NoDup_app; [assumption|repeat constructor; intros []|].
    intros i Hi [<-|[]]. apply Hfresh, Hincl, Hi.
  - apply Forall_app. split; [assumption|].
    constructor; [exact Hrow|constructor].
  - apply incl_app; [apply incl_tl, Hincl|].
    intros i [<-|[]]. left; reflexivity.
  - apply incl_tl, incl_refl.
  - intros r' Hr' Hid. apply in_app_or in Hr' as [Hr'|[<-|[]]].
    + exists r'. auto.
    + contradiction.
Qed.

Lemma moves_delete (w : World) (u i : string) :
  good w ->
  moves w (mkWorld (u :: used w)
             (mkDB (filter (fun v => negb (has_id i v)) (vouchers (store w)))
                   (voucher_redemptions (store w)))).
Proof.
  intros [[Hnd Hall] Hincl]. unfold moves, good, db_ok.
  cbn [store used vouchers]. repeat split.
  - apply NoDup_filter_ids, Hnd.
  - rewrite Forall_forall in *. intros r Hr.
    apply filter_In in Hr. apply Hall, Hr.
  - intros x Hx. apply in_map_iff in Hx as (r & <- & Hr).
    apply filter_In in Hr as [Hr _]. right. apply Hincl, in_map, Hr.
  - apply incl_tl, incl_refl.
  - intros r' Hr' _. apply filter_In in Hr' as [Hr' _]. exists r'. auto.
Qed.

Lemma moves_update (w : World) (u i : string) (body : UpdateBody.t) :
  good w ->
  UpdateBody.max_total_redemptions body = None ->
  moves w (mkWorld (u :: used w)
             (mkDB (update_where (has_id i) (apply_update body)
                      (vouchers (store w)))
                   (voucher_redemptions (store w)))).
Proof.
  intros [[Hnd Hall] Hincl] Hmax. unfold moves, good, db_ok.
  cbn [store used vouchers].
  rewrite update_where_ids by reflexivity. repeat split.
  - assumption.
  - apply Forall_update_where; [assumption|].
    intros r Hr _. rewrite Forall_forall in Hall. specialize (Hall r Hr).
    unfold counter_in_range in *. cbn. rewrite Hmax. exact Hall.
  - apply incl_tl, Hincl.
  - apply incl_tl, incl_refl.
  - intros r' Hr' _. unfold update_where in Hr'.
    apply in_map_iff in Hr' as (r & <- & Hr). exists r.
    destruct (has_id i r); cbn; rewrite ?Hmax; auto.
Qed.

(** From the counter update on, a redeem request only moves. *)
Lemma commit_safe (userId : string) (v : Voucher.t) (order_amount : Z)
    (order_id : option string) (w0 w : World) :
  good w0 -> In v (vouchers (store w0)) ->
  Voucher.total_redeemed v < Voucher.max_total_redemptions v ->
  later w0 w ->
  safe (commit userId v order_amount order_id) w.
Proof.
  intros Hg0 Hv Hroom Hl.
  assert (Hrange : counter_in_range v).
  { destruct Hg0 as [[_ Hall] _]. rewrite Forall_forall in Hall. auto. }
  unfold counter_in_range in Hrange.
  unfold commit. cbn [safe]. intros w1 Hl1 Hg1 t1 Hf1.
  pose proof (later_trans _ _ _ Hl Hl1) as Hl01.
  unfold after_call, exec.
  destruct (fails t1); cbn [fst snd error failed ok_empty].
  { split; [|exact I]. apply moves_same_vouchers; auto. }
  assert (Hm1 : moves w1 (mkWorld (uuid t1 :: used w1)
            (mkDB (update_where
                     (counter_filter (Voucher.id v)
                        (Some (Voucher.total_redeemed v)))
                     (Voucher.set_total_redeemed
                        (Voucher.total_redeemed v + 1))
                     (vouchers (store w1)))
                  (voucher_redemptions (store w1))))).
  { apply moves_counter; [assumption|]. intros r Hr Hid.
    rewrite (later_snapshot _ _ _ Hg0 Hv Hl01 r Hr Hid). lia. }
  split; [exact Hm1|].
  pose proof (later_step _ _ _ Hl01 Hm1) as Hl02.
  cbn [safe]. intros w2 Hl2 Hg2 t2 Hf2.
  pose proof (later_trans _ _ _ Hl02 Hl2) as Hl03.
  unfold after_call, exec.
  destruct (fails t2 || _); cbn [fst snd error data failed ok].
  - assert (Hm2 : moves w2 (mkWorld (uuid t2 :: used w2) (store w2))).
    { apply moves_same_vouchers; auto. }
    split; [exact Hm2|].
    pose proof (later_step _ _ _ Hl03 Hm2) as Hl04.
    cbn [safe]. intros w3 Hl3 Hg3 t3 Hf3.
    pose proof (later_trans _ _ _ Hl04 Hl3) as Hl05.
    unfold after_call, exec.
    destruct (fails t3); cbn [fst snd].
    { split; [|exact I]. apply moves_same_vouchers; auto. }
    split; [|exact I].
    apply moves_counter; [assumption|]. intros r Hr Hid.
    rewrite (later_snapshot _ _ _ Hg0 Hv Hl05 r Hr Hid). lia.
  - split; [|exact I]. apply moves_same_vouchers; auto.
Qed.

Lemma redeem_safe (user : option User) (code : string)
    (body : RedeemBody.t) (now : Timestamp) (w : World) :
  safe (post_redeem user code body now) w.
Proof.
  unfold post_redeem, requireUser, redeem_handler.
  destruct user as [u|]; [|exact I].
  destruct (role_is "USER" u); [|exact I].
  destruct (redeemVoucherSchema body); [|exact I].
  cbn [negb safe]. intros w1 _ Hg1 t1 _.
  assert (Hm1 := moves_read w1 t1 (SelectVoucherByCode code) Hg1 eq_refl).
  split; [exact Hm1|].
  destruct (found _) as [v|] eqn:Hfound; [|exact I].
  destruct (Voucher.is_active v); [|exact I].
  destruct (not_started now v); [exact I|].
  destruct (expired now v); [exact I|].
  destruct (Z.leb_spec (Voucher.max_total_redemptions v)
              (Voucher.total_redeemed v)) as [|Hroom]; [exact I|].
  destruct (RedeemBody.order_amount body <? Voucher.min_order_amount v);
    [exact I|].
  cbn [safe]. intros w2 Hl2 Hg2 t2 _.
  assert (Hm2 := moves_read w2 t2
                   (SelectRedemption (Voucher.id v) (user_id u)) Hg2 eq_refl).
  split; [exact Hm2|].
  destruct (data _); [exact I|].
  apply (commit_safe _ _ _ _ w1); try assumption.
  - eapply fetched_by_code, found_data, Hfound.
  - eapply later_step; [|exact Hm2].
    eapply later_trans; [|exact Hl2].
    eapply later_step; [apply later_now|exact Hm1].
Qed.

Lemma create_safe (user : option User) (b : CreateBody.t) (w : World) :
  safe (post_vouchers user b) w.
Proof.
  unfold post_vouchers, requireAdmin, create_handler.
  destruct user as [u|]; [|exact I].
  destruct (role_is "ADMIN" u); [|exact I].
  destruct (createVoucherSchema b) eqn:Hschema; [|exact I].
  destruct (percent_over_100 _ _); [exact I|].
  destruct (end_before_start _ _); [exact I|].
  cbn [negb safe]. intros w1 _ Hg1 t1 _.
  split; [apply moves_read; auto|].
  destruct (data _); [exact I|].
  cbn [safe]. intros w2 _ Hg2 t2 Hf2. unfold after_call, exec.
  destruct (fails t2 || _); cbn [fst snd error failed ok].
  { split; [|exact I]. apply moves_same_vouchers; auto. }
  split; [|exact I].
  match goal with
  | |- moves _ (mkWorld _ (mkDB (_ ++ [?row])%list _)) =>
      apply (moves_insert w2 row)
  end; [assumption|exact Hf2|].
  unfold counter_in_range. cbn.
  unfold createVoucherSchema in Hschema.
  apply andb_prop in Hschema as [_ Hmax].
  destruct (CreateBody.max_total_redemptions b) as [m|]; cbn in *; lia.
Qed.

Lemma delete_safe (user : option User) (id : string) (w : World) :
  safe (delete_voucher user id) w.
Proof.
  unfold delete_voucher, requireAdmin, delete_handler.
  destruct user as [u|]; [|exact I].
  destruct (role_is "ADMIN" u); [|exact I].
  cbn [negb safe]. intros w1 _ Hg1 t1 _.
  split; [apply moves_read; auto|].
  destruct (found _); [|exact I].
  destruct (0 <? _); [exact I|].
  cbn [safe]. intros w2 _ Hg2 t2 _. unfold after_call, exec.
  destruct (fails t2); cbn [fst snd error failed ok_empty].
  { split; [|exact I]. apply moves_same_vouchers; auto. }
  split; [|exact I]. apply moves_delete, Hg2.
Qed.

Lemma update_safe (user : option User) (id : string) (body : UpdateBody.t)
    (w : World) :
  UpdateBody.max_total_redemptions body = None ->
  safe (put_voucher user id body) w.
Proof.
  intros Hmax. unfold put_voucher, requireAdmin, update_handler.
  destruct user as [u|]; [|exact I].
  destruct (role_is "ADMIN" u); [|exact I].
  destruct (updateSchema body); [|exact I].
  cbn [negb safe]. intros w1 _ Hg1 t1 _.
  split; [apply moves_read; auto|].
  destruct (found _) as [existing|]; [|exact I].
  destruct (percent_over_100 _ _); [exact I|].
  destruct (end_before_start _ _); [exact I|].
  cbn [safe]. intros w2 _ Hg2 t2 _. unfold after_call, exec.
  destruct (fails t2); cbn [fst snd error failed].
  { split; [|exact I]. apply moves_same_vouchers; auto. }
  destruct (filter (has_id id) (vouchers (store w2))) as [|v0 [|v1 rest]];
    cbn [fst snd error failed ok];
    (split; [|exact I]);
    try (apply moves_same_vouchers; auto; fail).
  apply moves_update; assumption.
Qed.

Lemma route_safe (op : Operation) (w : World) :
  leaves_max_alone op = true -> safe (route op) w.
Proof.
  destruct op as [user b|user id upd|user id|user code b now];
    cbn [route leaves_max_alone]; intros Hop.
  - apply create_safe.
  - apply update_safe.
    destruct (UpdateBody.max_total_redemptions upd); [discriminate|auto].
  - apply delete_safe.
  - apply redeem_safe.
Qed.

(** A call of one request of a pool is a move and leaves the others safe. *)
Lemma step_nth_safe (pool : Pool) :
  forall (i : nat) (t : Tick) (w : World),
    good w ->
    Forall (fun p => safe p w) pool ->
    ~ In (uuid t) (used w) ->
    moves w (mkWorld (uuid t :: used w)
               (snd (step_nth i t pool (store w))))
    /\ Forall (fun p => safe p (mkWorld (uuid t :: used w)
                               (snd (step_nth i t pool (store w)))))
         (fst (step_nth i t pool (store w))).
Proof.
  induction pool as [|p rest IH]; intros i t w Hg Hsafe Hfresh.
  - destruct i; cbn; (split; [apply moves_same_vouchers; auto|constructor]).
  - inversion Hsafe as [|? ? Hp Hrest]; subst.
    destruct i as [|j]; cbn [step_nth].
    + destruct p as [a|R op k]; cbn [step].
      * cbn [fst snd].
        assert (Hm : moves w (mkWorld (uuid t :: used w) (store w)))
          by (apply moves_same_vouchers; auto).
        split; [exact Hm|]. constructor; [exact I|].
        eapply Forall_impl; [|exact Hrest]. intros q Hq.
        eapply safe_later; [exact Hq|].
        eapply later_step; [apply later_now|exact Hm].
      * cbn [safe] in Hp.
        destruct (Hp w (later_now w) Hg t Hfresh) as [Hm Hk].
        unfold after_call in Hm, Hk.
        destruct (exec t op (store w)) as [r db']. cbn [fst snd] in *.
        split; [exact Hm|]. constructor; [exact Hk|].
        eapply Forall_impl; [|exact Hrest]. intros q Hq.
        eapply safe_later; [exact Hq|].
        eapply later_step; [apply later_now|exact Hm].
    + destruct (IH j t w Hg Hrest Hfresh) as [Hm Hrest'].
      destruct (step_nth j t rest (store w)) as [rest' db']. cbn [fst snd] in *.
      split; [exact Hm|]. constructor; [|exact Hrest'].
      eapply safe_later; [exact Hp|].
      eapply later_step; [apply later_now|exact Hm].
Qed.

Lemma interleave_good (schedule : list (nat * Tick)) :
  forall (pool : Pool) (w : World),
    good w ->
    Forall (fun p => safe p w) pool ->
    NoDup (map (fun x => uuid (snd x)) schedule) ->
    (forall x, In x schedule -> ~ In (uuid (snd x)) (used w)) ->
    db_ok (snd (interleave schedule pool (store w))).
Proof.
  induction schedule as [|[i t] schedule IH];
    intros pool w Hg Hsafe Hnd Hfresh.
  - apply Hg.
  - cbn [interleave]. cbn [map snd] in Hnd.
    inversion Hnd as [|? ? Hnotin Hnd']; subst.
    destruct (step_nth_safe pool i t w Hg Hsafe) as [Hm Hpool'].
    { apply (Hfresh (i, t)). left; reflexivity. }
    destruct (step_nth i t pool (store w)) as [pool' db']. cbn [fst snd] in *.
    apply (IH pool' (mkWorld (uuid t :: used w) db')).
    + apply Hm.
    + exact Hpool'.
    + exact Hnd'.
    + intros x Hx [Heq|Hin].
      * apply Hnotin. rewrite Heq.
        apply (in_map (fun x => uuid (snd x))), Hx.
      * apply (Hfresh x); [right; exact Hx|exact Hin].
Qed.

(** X20.  Requests interleaved at their storage calls in any order, with
    any calls failing: as long as no request is an update naming
    max_total_redemptions and the store never generates an id twice, every
    counter stays in range. *)
Theorem counter_in_range_interleaved (ops : list Operation)
    (schedule : list (nat * Tick)) :
  forallb leaves_max_alone ops = true ->
  NoDup (map (fun x => uuid (snd x)) schedule) ->
  Forall counter_in_range
    (vouchers (snd (interleave schedule (map route ops) empty_db))).
Proof.
  intros Hops Hnd.
  apply (interleave_good schedule (map route ops) (mkWorld [] empty_db)).
  - repeat split; try constructor. intros x [].
  - apply Forall_forall. intros p Hp.
    apply in_map_iff in Hp as (op & <- & Hop).
    apply route_safe. rewrite forallb_forall in Hops. apply Hops, Hop.
  - exact Hnd.
  - intros x _ [].
Qed.

Lemma counter_in_range_interleaved_witness :
  Forall counter_in_range
    (vouchers (snd (interleave create_then_race (map route create_and_race)
                      empty_db))).
Proof.
  apply (counter_in_range_interleaved create_and_race create_then_race).
  - reflexivity.
  - simpl. repeat constructor; simpl; intuition discriminate.
Defined.

Example counter_in_range_fresh_race :
  Forall counter_in_range
    (vouchers (snd (interleave fresh_race race (mkDB [newyear 1 0] [])))).
Proof. repeat constructor; simpl; lia. Qed.

(** ** Identity and the routes as registered *)

Lemma substring_all (s : string) : String.substring 0 (String.length s) s = s.
Proof. induction s as [|c s IH]; simpl; [reflexivity|]. now rewrite IH. Qed.

Lemma bearer_token (token : string) :
  String.prefix "Bearer " ("Bearer " ++ token) = true
  /\ String.substring 7 (String.length ("Bearer " ++ token) - 7)
       ("Bearer " ++ token) = token.
Proof.
  split.
  - simpl. destruct token; reflexivity.
  - simpl. rewrite Nat.sub_0_r. apply substring_all.
Qed.

(** X3.  A request without an Authorization header, or with one that does not
    start with "Bearer " (the empty header included), is answered 401
    whatever the identity side would say; the rest of the route never
    runs. *)
Theorem authenticate_rejects_malformed_header (idn : Identity)
    (authorization : option string) (next : User -> Prog Response) :
  (forall h, authorization = Some h -> String.prefix "Bearer " h = false) ->
  authenticateToken idn authorization next
  = Ret (json 401 (JError "Unauthorized"
      "Token tidak ditemukan. Format: Authorization: Bearer <token>")).
Proof.
  intros Hbad. unfold authenticateToken.
  destruct authorization as [h|]; [|reflexivity].
  rewrite (Hbad h eq_refl). rewrite orb_true_r. reflexivity.
Qed.

Lemma authenticate_rejects_malformed_header_witness :
  authenticateToken idn0 (Some "Basic tok-alice") no_reply
  = Ret (json 401 (JError "Unauthorized"
      "Token tidak ditemukan. Format: Authorization: Bearer <token>")).
Proof.
  apply (authenticate_rejects_malformed_header idn0 (Some "Basic tok-alice")
           no_reply).
  intros h Hh. injection Hh as <-. reflexivity.
Defined.

Lemma authenticate_next (idn : Identity) (token : string)
    (user : AuthUser) (p : Profile) (next : User -> Prog Response) :
  found (getUser idn token) = Some user ->
  profiles_fail idn = false ->
  filter (fun q => (profile_id q =? auth_id user)%string) (profiles idn)
  = [p] ->
  authenticateToken idn (Some ("Bearer " ++ token)) next
  = next (mkUser (auth_id user) (auth_email user) (profile_role p)).
Proof.
  intros Huser Hfail Hp. unfold authenticateToken.
  destruct (bearer_token token) as [Hpre Htok].
  rewrite Hpre, Htok, Huser. cbn [String.eqb append]. cbn [orb negb].
  unfold select_profile. rewrite Hfail, Hp. cbn [single error ok data].
  unfold req_user. f_equal. f_equal.
  destruct (filter_single_In _ _ _ Hp) as [_ Hid].
  apply String.eqb_eq, Hid.
Qed.

(** X2.  A valid token whose user has no profile row, or several, or whose
    profile query fails, is answered 500 "Gagal mengambil data user": the
    rest of the route never runs and no default role is attached. *)
Theorem authenticate_without_profile_is_500 (idn : Identity)
    (token : string) (user : AuthUser) (next : User -> Prog Response) :
  found (getUser idn token) = Some user ->
  (profiles_fail idn = true
   \/ forall p,
        filter (fun q => (profile_id q =? auth_id user)%string)
          (profiles idn) <> [p]) ->
  authenticateToken idn (Some ("Bearer " ++ token)) next
  = Ret (json 500 (JError "Internal Server Error"
           "Gagal mengambil data user")).
Proof.
  intros Huser Hnone. unfold authenticateToken.
  destruct (bearer_token token) as [Hpre Htok].
  rewrite Hpre, Htok, Huser. cbn [String.eqb append]. cbn [orb negb].
  unfold select_profile.
  destruct Hnone as [->|Hrows]; [reflexivity|].
  destruct (profiles_fail idn); [reflexivity|].
  destruct (filter _ (profiles idn)) as [|p [|q rest]]; try reflexivity.
  exfalso. apply (Hrows p). reflexivity.
Qed.

Lemma authenticate_without_profile_is_500_witness :
  authenticateToken idn0 (Some ("Bearer " ++ "tok-dave")) no_reply
  = Ret (json 500 (JError "Internal Server Error"
           "Gagal mengambil data user")).
Proof.
  apply (authenticate_without_profile_is_500 idn0 "tok-dave"
           (mkAuthUser "u-dave" "dave@example.com") no_reply).
  - reflexivity.
  - right. intros p. simpl. discriminate.
Defined.

(** X4.  No user passes both guards: an ADMIN passes requireAdmin and gets
    403 from requireUser, a USER passes requireUser and gets 403 from
    requireAdmin, and any other role, null included, gets 403 from
    both. *)
Theorem roles_are_exclusive (u : User) (k1 k2 : User -> Prog Response) :
  let forbidden_admin :=
    Ret (json 403 (JError "Forbidden"
      "Akses ditolak. Hanya ADMIN yang bisa mengakses endpoint ini")) in
  let forbidden_user :=
    Ret (json 403 (JError "Forbidden"
      "Endpoint ini hanya untuk USER biasa")) in
  (role u = Some "ADMIN" ->
   requireAdmin (Some u) k1 = k1 u
   /\ requireUser (Some u) k2 = forbidden_user)
  /\ (role u = Some "USER" ->
      requireUser (Some u) k2 = k2 u
      /\ requireAdmin (Some u) k1 = forbidden_admin)
  /\ (role u <> Some "ADMIN" -> role u <> Some "USER" ->
      requireAdmin (Some u) k1 = forbidden_admin
      /\ requireUser (Some u) k2 = forbidden_user).
Proof.
  unfold requireAdmin, requireUser. repeat split.
  - rewrite (role_is_true _ _ H). reflexivity.
  - rewrite role_is_false; [reflexivity|]. rewrite H. discriminate.
  - rewrite (role_is_true _ _ H). reflexivity.
  - rewrite role_is_false; [reflexivity|]. rewrite H. discriminate.
  - rewrite role_is_false by assumption. reflexivity.
  - rewrite role_is_false by assumption. reflexivity.
Qed.

Lemma roles_are_exclusive_witness :
  requireAdmin (Some admin) no_reply = no_reply admin
  /\ requireUser (Some admin) no_reply
     = Ret (json 403 (JError "Forbidden"
              "Endpoint ini hanya untuk USER biasa")).
Proof.
  apply (roles_are_exclusive admin no_reply no_reply). reflexivity.
Defined.

(** X5.  The create, update and delete routes answer 403 Forbidden to an
    authenticated caller whose role is not exactly "ADMIN", make no
    storage call and leave the store as it was. *)
Theorem admin_routes_forbidden_unless_admin (u : User) (b : CreateBody.t)
    (id : string) (upd : UpdateBody.t) (ticks : nat -> Tick) (n : nat)
    (db : DB) :
  role u <> Some "ADMIN" ->
  let forbidden :=
    json 403 (JError "Forbidden"
      "Akses ditolak. Hanya ADMIN yang bisa mengakses endpoint ini") in
  run (post_vouchers (Some u) b) ticks n db = (forbidden, db, [])
  /\ run (put_voucher (Some u) id upd) ticks n db = (forbidden, db, [])
  /\ run (delete_voucher (Some u) id) ticks n db = (forbidden, db, []).
Proof.
  intros Hrole. unfold post_vouchers, put_voucher, delete_voucher,
    requireAdmin.
  rewrite (role_is_false _ _ Hrole). repeat split.
Qed.

Lemma admin_routes_forbidden_unless_admin_witness :
  run (post_vouchers (Some alice) (newyear_body 2)) (calm "v-9") 0
    (mkDB [newyear 2 0] [])
  = (json 403 (JError "Forbidden"
       "Akses ditolak. Hanya ADMIN yang bisa mengakses endpoint ini"),
     mkDB [newyear 2 0] [], [])
  /\ run (put_voucher (Some alice) "v-1" (set_max 9)) (calm "v-9") 0
       (mkDB [newyear 2 0] [])
     = (json 403 (JError "Forbidden"
          "Akses ditolak. Hanya ADMIN yang bisa mengakses endpoint ini"),
        mkDB [newyear 2 0] [], [])
  /\ run (delete_voucher (Some alice) "v-1") (calm "v-9") 0
       (mkDB [newyear 2 0] [])
     = (json 403 (JError "Forbidden"
          "Akses ditolak. Hanya ADMIN yang bisa mengakses endpoint ini"),
        mkDB [newyear 2 0] [], []).
Proof.
  apply (admin_routes_forbidden_unless_admin alice (newyear_body 2) "v-1"
           (set_max 9) (calm "v-9") 0 (mkDB [newyear 2 0] [])).
  simpl. discriminate.
Defined.

Lemma role_or_user_blank (p : Profile) :
  profile_role p = None -> role_or_user (Some p) = "USER".
Proof. unfold role_or_user. intros ->. reflexivity. Qed.

(** X6.  For a user who signs in but whose profile row cannot be read
    (none, several, or a failing query), POST /auth/login answers 200 with
    role "USER", while the redeem route with a token of that user answers
    500 and touches nothing. *)
Theorem login_says_user_without_profile (idn : Identity)
    (email password token : string) (user : AuthUser) (session : Session)
    (code : string) (body : RedeemBody.t) (now : Timestamp)
    (ticks : nat -> Tick) (n : nat) (db : DB) :
  email <> "" -> password <> "" ->
  signInWithPassword idn email password = ok (user, session) ->
  found (getUser idn token) = Some user ->
  error (select_profile idn (auth_id user)) = true ->
  login idn (mkLoginBody (Some email) (Some password))
  = LoginOk (auth_id user) (auth_email user) "USER" None session
  /\ run (redeem_route idn (Some ("Bearer " ++ token)) code body now)
       ticks n db
     = (json 500 (JError "Internal Server Error"
                    "Gagal mengambil data user"), db, []).
Proof.
  intros He Hp Hsign Huser Hprof. split.
  - unfold login, blank. cbn [login_email login_password default].
    apply String.eqb_neq in He, Hp. rewrite He, Hp, Hsign.
    cbn [orb error ok data].
    unfold select_profile in *.
    destruct (profiles_fail idn); [reflexivity|].
    destruct (filter _ (profiles idn)) as [|p [|q rest]];
      try reflexivity; discriminate.
  - unfold redeem_route, authenticateToken.
    destruct (bearer_token token) as [Hpre Htok].
    rewrite Hpre, Htok, Huser. cbn [String.eqb append]. cbn [orb negb].
    rewrite Hprof. reflexivity.
Qed.

Lemma login_says_user_without_profile_witness :
  login idn0 (mkLoginBody (Some "dave@example.com") (Some "secret"))
  = LoginOk "u-dave" "dave@example.com" "USER" None
      (mkSession "tok-dave" "ref-dave" 99)
  /\ run (redeem_route idn0 (Some ("Bearer " ++ "tok-dave")) "NEWYEAR2026"
            (order 150000) 10)
       (calm "r-1") 0 (mkDB [newyear 2 0] [])
     = (json 500 (JError "Internal Server Error"
                    "Gagal mengambil data user"),
        mkDB [newyear 2 0] [], []).
Proof.
  apply (login_says_user_without_profile idn0 "dave@example.com" "secret"
           "tok-dave" (mkAuthUser "u-dave" "dave@example.com")
           (mkSession "tok-dave" "ref-dave" 99));
    try reflexivity; discriminate.
Defined.

(** X7.  For a user whose profile row has a null role, POST /auth/login
    answers 200 with role "USER", while with a token of that user the
    redeem route answers 403 (not a USER) and the create route answers 403
    (not an ADMIN), both without a storage call. *)
Theorem login_says_user_for_null_role (idn : Identity)
    (email password token : string) (user : AuthUser) (session : Session)
    (p : Profile) (code : string) (body : RedeemBody.t) (now : Timestamp)
    (b : CreateBody.t) (ticks : nat -> Tick) (n : nat) (db : DB) :
  email <> "" -> password <> "" ->
  signInWithPassword idn email password = ok (user, session) ->
  found (getUser idn token) = Some user ->
  profiles_fail idn = false ->
  filter (fun q => (profile_id q =? auth_id user)%string) (profiles idn)
  = [p] ->
  profile_role p = None ->
  login idn (mkLoginBody (Some email) (Some password))
  = LoginOk (auth_id user) (auth_email user) "USER" (full_name p) session
  /\ run (redeem_route idn (Some ("Bearer " ++ token)) code body now)
       ticks n db
     = (json 403 (JError "Forbidden" "Endpoint ini hanya untuk USER biasa"),
        db, [])
  /\ run (create_route idn (Some ("Bearer " ++ token)) b) ticks n db
     = (json 403 (JError "Forbidden"
          "Akses ditolak. Hanya ADMIN yang bisa mengakses endpoint ini"),
        db, []).
Proof.
  intros He Hp Hsign Huser Hfail Hrow Hrole. split; [|split].
  - unfold login, blank. cbn [login_email login_password default].
    apply String.eqb_neq in He, Hp. rewrite He, Hp, Hsign.
    cbn [orb error ok data].
    unfold select_profile. rewrite Hfail, Hrow. cbn [single data ok].
    rewrite (role_or_user_blank _ Hrole). reflexivity.
  - unfold redeem_route.
    rewrite (authenticate_next idn token user p _ Huser Hfail Hrow).
    unfold post_redeem, requireUser, role_is. cbn [role]. rewrite Hrole.
    reflexivity.
  - unfold create_route.
    rewrite (authenticate_next idn token user p _ Huser Hfail Hrow).
    unfold post_vouchers, requireAdmin, role_is. cbn [role]. rewrite Hrole.
    reflexivity.
Qed.

Lemma login_says_user_for_null_role_witness :
  login idn0 (mkLoginBody (Some "carol@example.com") (Some "secret"))
  = LoginOk "u-carol" "carol@example.com" "USER" (Some "Carol")
      (mkSession "tok-carol" "ref-carol" 99)
  /\ run (redeem_route idn0 (Some ("Bearer " ++ "tok-carol")) "NEWYEAR2026"
            (order 150000) 10)
       (calm "r-1") 0 (mkDB [newyear 2 0] [])
     = (json 403 (JError "Forbidden" "Endpoint ini hanya untuk USER biasa"),
        mkDB [newyear 2 0] [], [])
  /\ run (create_route idn0 (Some ("Bearer " ++ "tok-carol"))
            (newyear_body 2))
       (calm "r-1") 0 (mkDB [newyear 2 0] [])
     = (json 403 (JError "Forbidden"
          "Akses ditolak. Hanya ADMIN yang bisa mengakses endpoint ini"),
        mkDB [newyear 2 0] [], []).
Proof.
  apply (login_says_user_for_null_role idn0 "carol@example.com" "secret"
           "tok-carol" (mkAuthUser "u-carol" "carol@example.com")
           (mkSession "tok-carol" "ref-carol" 99)
           (mkProfile "u-carol" None (Some "Carol")));
    try reflexivity; discriminate.
Defined.

(** X1.  A request with the header "Bearer <token>", a token Supabase Auth
    resolves to a user and exactly one profile row of that user runs the
    redeem, create, update and delete routes exactly as the guarded
    handlers run for the user (id and email of the auth user, role of the
    profile row, null included): the token handed to the auth service is
    the header without its seven-character prefix, and the default role
    "USER" never replaces the role of the row. *)
Theorem routes_run_as_profile (idn : Identity) (token : string)
    (user : AuthUser) (p : Profile) :
  found (getUser idn token) = Some user ->
  profiles_fail idn = false ->
  filter (fun q => (profile_id q =? auth_id user)%string) (profiles idn)
  = [p] ->
  let authorization := Some ("Bearer " ++ token) in
  let u := Some (mkUser (auth_id user) (auth_email user) (profile_role p)) in
  (forall code body now,
     redeem_route idn authorization code body now
     = post_redeem u code body now)
  /\ (forall b, create_route idn authorization b = post_vouchers u b)
  /\ (forall id upd,
        update_route idn authorization id upd = put_voucher u id upd)
  /\ (forall id, delete_route idn authorization id = delete_voucher u id).
Proof.
  intros Huser Hfail Hrow. cbv zeta.
  unfold redeem_route, create_route, update_route, delete_route.
  repeat split; intros;
    rewrite (authenticate_next idn token user p _ Huser Hfail Hrow);
    reflexivity.
Qed.

Lemma routes_run_as_profile_witness :
  (forall code body now,
     redeem_route idn0 (Some ("Bearer " ++ "tok-alice")) code body now
     = post_redeem (Some (mkUser "u-alice" "alice@example.com" (Some "USER")))
         code body now)
  /\ (forall b,
        create_route idn0 (Some ("Bearer " ++ "tok-alice")) b
        = post_vouchers
            (Some (mkUser "u-alice" "alice@example.com" (Some "USER"))) b)
  /\ (forall id upd,
        update_route idn0 (Some ("Bearer " ++ "tok-alice")) id upd
        = put_voucher
            (Some (mkUser "u-alice" "alice@example.com" (Some "USER")))
            id upd)
  /\ (forall id,
        delete_route idn0 (Some ("Bearer " ++ "tok-alice")) id
        = delete_voucher
            (Some (mkUser "u-alice" "alice@example.com" (Some "USER"))) id).
Proof.
  apply (routes_run_as_profile idn0 "tok-alice"
           (mkAuthUser "u-alice" "alice@example.com")
           (mkProfile "u-alice" (Some "USER") (Some "Alice")));
    reflexivity.
Defined.

(** ** Voucher detail *)




(** ** Creating, updating and deleting vouchers *)

Lemma filter_app_single {T : Type} (p : T -> bool) (rows : list T) (r : T) :
  filter p rows = [] -> p r = true -> filter p (rows ++ [r]) = [r].
Proof.
  intros Hnone Hr. rewrite filter_app, Hnone. simpl. now rewrite Hr.
Qed.

(** X9.  A valid create request of an ADMIN for a code no voucher has, with
    no failing storage call and a free id, answers 201 with the stored
    voucher (total_redeemed 0, is_active true, created_by the caller,
    defaults applied), appends exactly that row, and a following GET
    /vouchers/:code of the code returns it. *)
Theorem create_then_fetch (u : User) (b : CreateBody.t)
    (ticks : nat -> Tick) (n : nat) (db : DB) :
  role u = Some "ADMIN" ->
  createVoucherSchema b = true ->
  percent_over_100 (CreateBody.discount_type b) (CreateBody.discount_value b)
  = false ->
  end_before_start (CreateBody.start_at b) (CreateBody.end_at b) = false ->
  filter (has_code (CreateBody.code b)) (vouchers db) = [] ->
  fails (ticks n) = false ->
  fails (ticks (S n)) = false ->
  existsb (has_id (uuid (ticks (S n)))) (vouchers db) = false ->
  let v := created_voucher b (uuid (ticks (S n))) (user_id u) in
  let db' := store_after (post_vouchers (Some u) b) ticks n db in
  response_after (post_vouchers (Some u) b) ticks n db
  = json 201 (JVoucher "Voucher berhasil dibuat" (Some v))
  /\ db' = mkDB (vouchers db ++ [v]) (voucher_redemptions db)
  /\ forall t now, fails t = false ->
       response_after (get_voucher (CreateBody.code b) now) (fun _ => t) 0 db'
       = DetailOk (detail now v).
Proof.
  intros Hrole Hschema Hpct Hwin Hcode Hf1 Hf2 Hfresh.
  unfold post_vouchers, requireAdmin.
  rewrite (role_is_true _ _ Hrole). simpl negb. cbv iota.
  unfold create_handler. rewrite Hschema, Hpct, Hwin. simpl negb. cbv iota.
  run_call. rewrite Hf1, Hcode. cbn [single data failed fst snd].
  run_call. rewrite Hf2, Hfresh. cbn [orb fst snd error ok data].
  fold (created_voucher b (uuid (ticks (S n))) (user_id u)).
  cbv zeta. split; [reflexivity|]. split; [reflexivity|].
  intros t now Ht.
  unfold store_after, response_after. cbn [run fst snd].
  unfold get_voucher, exec.
  cbn [run fst snd]. unfold exec. rewrite Ht. cbn [vouchers].
  rewrite (filter_app_single _ _ _ Hcode).
  - reflexivity.
  - unfold has_code, created_voucher. cbn. apply String.eqb_refl.
Qed.

Lemma create_then_fetch_witness :
  response_after (post_vouchers (Some admin) (newyear_body 2)) (calm "v-1")
    0 empty_db
  = json 201 (JVoucher "Voucher berhasil dibuat"
                (Some (created_voucher (newyear_body 2) "v-1" "u-admin")))
  /\ store_after (post_vouchers (Some admin) (newyear_body 2)) (calm "v-1")
       0 empty_db
     = mkDB ([] ++ [created_voucher (newyear_body 2) "v-1" "u-admin"]) []
  /\ forall t now, fails t = false ->
       response_after (get_voucher "NEWYEAR2026" now) (fun _ => t) 0
         (store_after (post_vouchers (Some admin) (newyear_body 2))
            (calm "v-1") 0 empty_db)
       = DetailOk
           (detail now (created_voucher (newyear_body 2) "v-1" "u-admin")).
Proof.
  apply (create_then_fetch admin (newyear_body 2) (calm "v-1") 0 empty_db);
    reflexivity.
Defined.

(** X10.  A valid create request for a code that a stored voucher has is
    answered 409 Conflict after the one lookup; nothing is written. *)
Theorem create_rejects_known_code (u : User) (b : CreateBody.t)
    (existing : Voucher.t) (ticks : nat -> Tick) (n : nat) (db : DB) :
  role u = Some "ADMIN" ->
  createVoucherSchema b = true ->
  percent_over_100 (CreateBody.discount_type b) (CreateBody.discount_value b)
  = false ->
  end_before_start (CreateBody.start_at b) (CreateBody.end_at b) = false ->
  filter (has_code (CreateBody.code b)) (vouchers db) = [existing] ->
  fails (ticks n) = false ->
  run (post_vouchers (Some u) b) ticks n db
  = (json 409 (JError "Conflict"
       ("Voucher dengan code '" ++ CreateBody.code b ++ "' sudah ada")),
     db, [Ev (SelectVoucherByCode (CreateBody.code b))]).
Proof.
  intros Hrole Hschema Hpct Hwin Hcode Hf1.
  rewrite run_components.
  unfold post_vouchers, requireAdmin.
  rewrite (role_is_true _ _ Hrole). simpl negb. cbv iota.
  unfold create_handler. rewrite Hschema, Hpct, Hwin. simpl negb. cbv iota.
  run_call. rewrite Hf1, Hcode. reflexivity.
Qed.

Lemma create_rejects_known_code_witness :
  run (post_vouchers (Some admin) (newyear_body 5)) (calm "v-9") 0
    (mkDB [newyear 2 0] [])
  = (json 409 (JError "Conflict"
       ("Voucher dengan code '" ++ "NEWYEAR2026" ++ "' sudah ada")),
     mkDB [newyear 2 0] [], [Ev (SelectVoucherByCode "NEWYEAR2026")]).
Proof.
  apply (create_rejects_known_code admin (newyear_body 5) (newyear 2 0)
           (calm "v-9") 0 (mkDB [newyear 2 0] [])); reflexivity.
Defined.

Lemma update_where_frozen (p : Voucher.t -> bool) (u : UpdateBody.t)
    (rows : list Voucher.t) :
  map frozen (update_where p (apply_update u) rows) = map frozen rows.
Proof.
  unfold update_where. rewrite map_map. apply map_ext.
  intros r. destruct (p r); reflexivity.
Qed.

Lemma update_where_others {T : Type} (p : T -> bool) (f : T -> T)
    (rows : list T) :
  (forall r, p (f r) = p r) ->
  filter (fun r => negb (p r)) (update_where p f rows)
  = filter (fun r => negb (p r)) rows.
Proof.
  intros Hp. unfold update_where.
  induction rows as [|r rows IH]; simpl; [reflexivity|].
  destruct (p r) eqn:Hr; simpl.
  - rewrite Hp, Hr. simpl. exact IH.
  - rewrite Hr. simpl. now rewrite IH.
Qed.

(** X11.  Whatever the caller, the body and the failures, PUT
    /vouchers/:id changes neither the id, code, total_redeemed or
    created_by of any voucher, nor the number and order of vouchers, nor
    any voucher of another id, nor the ledger. *)
Theorem update_keeps_identity_and_counter (user : option User) (id : string)
    (body : UpdateBody.t) (ticks : nat -> Tick) (n : nat) (db : DB) :
  let db' := store_after (put_voucher user id body) ticks n db in
  map frozen (vouchers db') = map frozen (vouchers db)
  /\ filter (fun v => negb (has_id id v)) (vouchers db')
     = filter (fun v => negb (has_id id v)) (vouchers db)
  /\ voucher_redemptions db' = voucher_redemptions db.
Proof.
  cbv zeta.
  apply (wp_sound (put_voucher user id body)
           (fun _ db' =>
              map frozen (vouchers db') = map frozen (vouchers db)
              /\ filter (fun v => negb (has_id id v)) (vouchers db')
                 = filter (fun v => negb (has_id id v)) (vouchers db)
              /\ voucher_redemptions db' = voucher_redemptions db) db).
  unfold put_voucher, requireAdmin, update_handler.
  destruct user as [u|]; [|repeat split].
  destruct (role_is "ADMIN" u); [|repeat split].
  destruct (updateSchema body); [|repeat split].
  cbn [negb wp]. intros t1. rewrite exec_read by reflexivity.
  destruct (found _) as [existing|]; [|repeat split].
  destruct (percent_over_100 _ _); [repeat split|].
  destruct (end_before_start _ _); [repeat split|].
  cbn [wp]. intros t2. unfold exec.
  destruct (fails t2); cbn [fst snd error failed]; [repeat split|].
  destruct (filter (has_id id) (vouchers db)) as [|v0 [|v1 rest]];
    cbn [fst snd error failed ok vouchers voucher_redemptions];
    try (repeat split; fail).
  repeat split.
  - apply update_where_frozen.
  - apply update_where_others. intros r. reflexivity.
Qed.

(** X12.  An update that switches a voucher to PERCENT without naming a
    discount_value is checked against the stored value: if that is above
    100 the request is answered 400 and nothing is written. *)
Theorem update_checks_percent_against_stored_value (u : User) (id : string)
    (body : UpdateBody.t) (v : Voucher.t) (ticks : nat -> Tick) (n : nat)
    (db : DB) :
  role u = Some "ADMIN" ->
  updateSchema body = true ->
  filter (has_id id) (vouchers db) = [v] ->
  fails (ticks n) = false ->
  UpdateBody.discount_type body = Some PERCENT ->
  UpdateBody.discount_value body = None ->
  100 < Voucher.discount_value v ->
  run (put_voucher (Some u) id body) ticks n db
  = (json 400 (JError "Validation Error"
       "Discount value untuk tipe PERCENT tidak boleh lebih dari 100"),
     db, [Ev (SelectVoucherById id)]).
Proof.
  intros Hrole Hschema Hv Hf Hty Hval Hbig.
  rewrite run_components.
  unfold put_voucher, requireAdmin.
  rewrite (role_is_true _ _ Hrole). simpl negb. cbv iota.
  unfold update_handler. rewrite Hschema. simpl negb. cbv iota.
  run_call. rewrite Hf, Hv. cbn [single found error data ok fst snd].
  rewrite Hty, Hval. unfold percent_over_100, or_num. cbn.
  apply Z.ltb_lt in Hbig. rewrite Hbig. reflexivity.
Qed.

Lemma update_checks_percent_against_stored_value_witness :
  run (put_voucher (Some admin) "v-3" make_percent) (calm "") 0
    (mkDB [fixed_500] [])
  = (json 400 (JError "Validation Error"
       "Discount value untuk tipe PERCENT tidak boleh lebih dari 100"),
     mkDB [fixed_500] [], [Ev (SelectVoucherById "v-3")]).
Proof.
  apply (update_checks_percent_against_stored_value admin "v-3" make_percent
           fixed_500 (calm "") 0 (mkDB [fixed_500] []));
    try reflexivity.
Defined.

Lemma filter_twice {T : Type} (p : T -> bool) (rows : list T) :
  filter p (filter p rows) = filter p rows.
Proof.
  induction rows as [|r rows IH]; simpl; [reflexivity|].
  destruct (p r) eqn:Hr; simpl; [rewrite Hr, IH|]; auto.
Qed.

(** X13.  Whatever the caller and the failures, DELETE /vouchers/:id
    leaves every voucher of another id and the whole ledger as they were
    and adds no voucher. *)
Theorem delete_touches_only_named (user : option User) (id : string)
    (ticks : nat -> Tick) (n : nat) (db : DB) :
  let db' := store_after (delete_voucher user id) ticks n db in
  filter (fun v => negb (has_id id v)) (vouchers db')
  = filter (fun v => negb (has_id id v)) (vouchers db)
  /\ voucher_redemptions db' = voucher_redemptions db
  /\ (forall v, In v (vouchers db') -> In v (vouchers db)).
Proof.
  cbv zeta.
  apply (wp_sound (delete_voucher user id)
           (fun _ db' =>
              filter (fun v => negb (has_id id v)) (vouchers db')
              = filter (fun v => negb (has_id id v)) (vouchers db)
              /\ voucher_redemptions db' = voucher_redemptions db
              /\ (forall v, In v (vouchers db') -> In v (vouchers db))) db).
  unfold delete_voucher, requireAdmin, delete_handler.
  destruct user as [u|]; [|repeat split; auto].
  destruct (role_is "ADMIN" u); [|repeat split; auto].
  cbn [negb wp]. intros t1. rewrite exec_read by reflexivity.
  destruct (found _); [|repeat split; auto].
  destruct (0 <? _); [repeat split; auto|].
  cbn [wp]. intros t2. unfold exec.
  destruct (fails t2);
    cbn [fst snd error failed ok_empty vouchers voucher_redemptions];
    [repeat split; auto|].
  repeat split.
  - apply filter_twice.
  - intros v Hv. apply filter_In in Hv. tauto.
Qed.

(** ** A redemption from start to finish *)

Lemma unique_filter (rows : list Voucher.t) (v : Voucher.t) :
  NoDup (map Voucher.id rows) -> In v rows ->
  filter (has_id (Voucher.id v)) rows = [v].
Proof.
  induction rows as [|r rows IH]; simpl; [contradiction|].
  intros Hnd Hv. inversion Hnd as [|? ? Hnotin Hnd']; subst.
  assert (Hnone : forall x, ~ In (Voucher.id x) (map Voucher.id rows) ->
            filter (has_id (Voucher.id x)) rows = []).
  { intros x Hx. clear -Hx. induction rows as [|q rows IH]; [reflexivity|].
    simpl in *. destruct (has_id (Voucher.id x) q) eqn:Hq.
    - exfalso. apply Hx. left. apply has_id_eq, Hq.
    - apply IH. tauto. }
  destruct Hv as [->|Hv].
  - unfold has_id at 1. rewrite String.eqb_refl. f_equal. apply Hnone, Hnotin.
  - destruct (has_id (Voucher.id v) r) eqn:Hr.
    + exfalso. apply Hnotin. apply has_id_eq in Hr. rewrite Hr.
      apply in_map, Hv.
    + apply IH; assumption.
Qed.

Lemma counter_filter_unique (rows : list Voucher.t) (v : Voucher.t)
    (f : Voucher.t -> Voucher.t) :
  filter (has_id (Voucher.id v)) rows = [v] ->
  update_where
    (counter_filter (Voucher.id v) (Some (Voucher.total_redeemed v))) f rows
  = update_where (has_id (Voucher.id v)) f rows.
Proof.
  intros Hv. unfold update_where. apply map_ext_in. intros r Hr.
  unfold counter_filter. destruct (has_id (Voucher.id v) r) eqn:Hid;
    [|reflexivity].
  assert (Hin : In r (filter (has_id (Voucher.id v)) rows))
    by (apply filter_In; auto).
  rewrite Hv in Hin. destruct Hin as [<-|[]]. now rewrite Z.eqb_refl.
Qed.

Lemma increment_then_rollback (rows : list Voucher.t) (v : Voucher.t) :
  filter (has_id (Voucher.id v)) rows = [v] ->
  update_where (counter_filter (Voucher.id v) None)
    (Voucher.set_total_redeemed (Voucher.total_redeemed v))
    (update_where
       (counter_filter (Voucher.id v) (Some (Voucher.total_redeemed v)))
       (Voucher.set_total_redeemed (Voucher.total_redeemed v + 1)) rows)
  = rows.
Proof.
  intros Hv. unfold update_where. rewrite map_map.
  rewrite <- (map_id rows) at 2. apply map_ext_in. intros r Hr.
  unfold counter_filter.
  destruct (has_id (Voucher.id v) r) eqn:Hid; cbn [andb].
  - assert (Hrv : In r (filter (has_id (Voucher.id v)) rows))
      by (apply filter_In; auto).
    rewrite Hv in Hrv. destruct Hrv as [<-|[]].
    rewrite Z.eqb_refl. unfold has_id in *. cbn. rewrite Hid.
    destruct v; reflexivity.
  - rewrite Hid. reflexivity.
Qed.

Lemma filter_update_where {T : Type} (p q : T -> bool) (f : T -> T)
    (rows : list T) :
  (forall r, p (f r) = p r) ->
  filter p (update_where q f rows) = update_where q f (filter p rows).
Proof.
  intros Hp. unfold update_where.
  induction rows as [|r rows IH]; simpl; [reflexivity|].
  destruct (q r) eqn:Hq; rewrite ?Hp; destruct (p r); simpl;
    rewrite ?Hq, IH; reflexivity.
Qed.

Section Eligible.
Variables (u : User) (code : string) (body : RedeemBody.t)
  (now : Timestamp) (ticks : nat -> Tick) (n : nat) (db : DB)
  (v : Voucher.t).
Hypothesis Hrole : role u = Some "USER".
Hypothesis Hbody : redeemVoucherSchema body = true.
Hypothesis Hcode : filter (has_code code) (vouchers db) = [v].
Hypothesis Hid : filter (has_id (Voucher.id v)) (vouchers db) = [v].
Hypothesis Hchecks :
  first_failing_check (Some v) None now (RedeemBody.order_amount body)
  = None.
Hypothesis Hfirst :
  filter (of_voucher_user (Voucher.id v) (user_id u))
    (voucher_redemptions db) = [].
Hypothesis Hcalm : forall k, (k < 4)%nat -> fails (ticks (n + k)) = false.
Hypothesis Hfresh :
  existsb (fun r => (Redemption.id r =? uuid (ticks (n + 3)))%string)
    (voucher_redemptions db) = false.

Lemma redeem_success :
  response_after (post_redeem (Some u) code body now) ticks n db
  = json 200 (JRedeemed "Voucher berhasil digunakan!"
      (Voucher.code v) (Voucher.name v) (Voucher.discount_type v)
      (Voucher.discount_value v) (RedeemBody.order_amount body)
      (discount_amount v (RedeemBody.order_amount body))
      (final_amount v (RedeemBody.order_amount body)) (Voucher.currency v)
      (clock (ticks (n + 3))))
  /\ store_after (post_redeem (Some u) code body now) ticks n db
     = redeemed_store u v body (ticks (n + 3)) db.
Proof.
  pose proof (Hcalm 0%nat ltac:(lia)) as H0.
  pose proof (Hcalm 1%nat ltac:(lia)) as H1.
  pose proof (Hcalm 2%nat ltac:(lia)) as H2.
  pose proof (Hcalm 3%nat ltac:(lia)) as H3.
  replace (n + 0)%nat with n in H0 by lia.
  replace (n + 1)%nat with (S n) in H1 by lia.
  replace (n + 2)%nat with (S (S n)) in H2 by lia.
  replace (n + 3)%nat with (S (S (S n))) in * by lia.
  unfold post_redeem, requireUser.
  rewrite (role_is_true _ _ Hrole). simpl negb. cbv iota.
  unfold redeem_handler. rewrite Hbody. simpl negb. cbv iota.
  run_call. rewrite H0, Hcode. cbn [single found error data ok fst snd].
  revert Hchecks. unfold first_failing_check, checks.
  cbn [find fst snd option_map].
  destruct (Voucher.is_active v); cbn [negb]; [|discriminate].
  fold (not_started now v). destruct (not_started now v); [discriminate|].
  rewrite expired_spec. destruct (expired now v); [discriminate|].
  rewrite Z.geb_leb.
  destruct (Voucher.max_total_redemptions v <=? Voucher.total_redeemed v);
    [discriminate|].
  destruct (RedeemBody.order_amount body <? Voucher.min_order_amount v);
    [discriminate|].
  intros _. run_call. rewrite H1, Hfirst. cbn [single data failed fst snd].
  unfold commit. run_call. rewrite H2. cbn [fst snd error ok_empty].
  run_call. cbn [voucher_redemptions]. rewrite H3, Hfresh.
  cbn [orb fst snd error data ok Redemption.redeemed_at].
  split; [reflexivity|].
  unfold store_after. cbn [run fst snd vouchers voucher_redemptions].
  unfold redeemed_store, redeemed_row.
  rewrite (counter_filter_unique _ _ _ Hid). reflexivity.
Qed.

(** X14.  An eligible redeem request that runs alone with no failing
    storage call (the code and the id of the voucher name one row, the
    user has no ledger row of it, the generated row id is free), for an
    order in the exact range of the voucher, is answered 200, appends
    exactly one ledger row (the voucher and the user, the order_id of the
    body or null when that is absent or empty, the order amount, the
    computed discount and final amount, SUCCESS, the store's id and
    clock), raises the counter of that voucher by one and leaves the
    other vouchers as they were. *)
Theorem redeem_commits_one_redemption :
  exact_for v (RedeemBody.order_amount body) ->
  let t := ticks (n + 3) in
  let db' := store_after (post_redeem (Some u) code body now) ticks n db in
  status (response_after (post_redeem (Some u) code body now) ticks n db)
  = 200
  /\ voucher_redemptions db'
     = (voucher_redemptions db
        ++ [Redemption.mk (uuid t) (Voucher.id v) (user_id u)
              (or_null (RedeemBody.order_id body))
              (RedeemBody.order_amount body)
              (discount_amount v (RedeemBody.order_amount body))
              (final_amount v (RedeemBody.order_amount body))
              SUCCESS (clock t)])%list
  /\ filter (has_id (Voucher.id v)) (vouchers db')
     = [Voucher.set_total_redeemed (Voucher.total_redeemed v + 1) v]
  /\ filter (fun r => negb (has_id (Voucher.id v) r)) (vouchers db')
     = filter (fun r => negb (has_id (Voucher.id v) r)) (vouchers db).
Proof.
  intros _. cbv zeta. destruct redeem_success as [Hresp Hstore].
  rewrite Hresp, Hstore. unfold redeemed_store, redeemed_row.
  cbn [vouchers voucher_redemptions]. repeat split.
  - rewrite filter_update_where by reflexivity. rewrite Hid.
    unfold update_where. cbn [map]. unfold has_id.
    now rewrite String.eqb_refl.
  - apply update_where_others. reflexivity.
Qed.

(** X15.  After an eligible redeem request that ran alone with no failing
    storage call (the conditions of this section), any further redeem
    request of the same user for the same code, whatever its amount and
    time, is answered 400 and leaves the store as it is, provided its own
    two lookups do not fail. *)
Theorem second_redeem_refused (body2 : RedeemBody.t) (now2 : Timestamp)
    (ticks2 : nat -> Tick) (m : nat) :
  redeemVoucherSchema body2 = true ->
  fails (ticks2 m) = false ->
  fails (ticks2 (S m)) = false ->
  let db' := store_after (post_redeem (Some u) code body now) ticks n db in
  status (response_after (post_redeem (Some u) code body2 now2) ticks2 m db')
  = 400
  /\ store_after (post_redeem (Some u) code body2 now2) ticks2 m db' = db'.
Proof.
  intros Hbody2 Hf1 Hf2. cbv zeta.
  destruct redeem_success as [_ ->].
  set (db' := redeemed_store u v body (ticks (n + 3)) db).
  set (v' := Voucher.set_total_redeemed (Voucher.total_redeemed v + 1) v).
  assert (Hcode' : filter (has_code code) (vouchers db') = [v']).
  { unfold db', redeemed_store. cbn [vouchers].
    rewrite filter_update_where by reflexivity. rewrite Hcode.
    unfold update_where. cbn [map]. unfold has_id.
    now rewrite String.eqb_refl. }
  assert (Hrow : filter (of_voucher_user (Voucher.id v') (user_id u))
                   (voucher_redemptions db')
                 = [redeemed_row u v body (ticks (n + 3))]).
  { unfold db', redeemed_store. cbn [voucher_redemptions].
    apply filter_app_single; [exact Hfirst|].
    unfold of_voucher_user, redeemed_row. cbn.
    now rewrite !String.eqb_refl. }
  unfold post_redeem, requireUser.
  rewrite (role_is_true _ _ Hrole). simpl negb. cbv iota.
  unfold redeem_handler. rewrite Hbody2. simpl negb. cbv iota.
  run_call. rewrite Hf1, Hcode'. cbn [single found error data ok fst snd].
  destruct (Voucher.is_active v'); cbn [negb]; [|split; reflexivity].
  destruct (not_started now2 v'); [split; reflexivity|].
  destruct (expired now2 v'); [split; reflexivity|].
  destruct (Voucher.max_total_redemptions v' <=? Voucher.total_redeemed v');
    [split; reflexivity|].
  destruct (RedeemBody.order_amount body2 <? Voucher.min_order_amount v');
    [split; reflexivity|].
  run_call. rewrite Hf2, Hrow. split; reflexivity.
Qed.
End Eligible.

Lemma redeem_commits_one_redemption_witness :
  let db := mkDB [newyear 2 0] [] in
  let body := RedeemBody.mk 150000 (Some "") in
  let db' := store_after (post_redeem (Some alice) "NEWYEAR2026" body 10)
               (calm "r-1") 0 db in
  status (response_after (post_redeem (Some alice) "NEWYEAR2026" body 10)
            (calm "r-1") 0 db)
  = 200
  /\ voucher_redemptions db'
     = (voucher_redemptions db
        ++ [Redemption.mk (uuid (calm "r-1" (0 + 3)%nat))
              (Voucher.id (newyear 2 0)) (user_id alice)
              (or_null (RedeemBody.order_id body))
              (RedeemBody.order_amount body)
              (discount_amount (newyear 2 0) (RedeemBody.order_amount body))
              (final_amount (newyear 2 0) (RedeemBody.order_amount body))
              SUCCESS (clock (calm "r-1" (0 + 3)%nat))])%list
  /\ filter (has_id (Voucher.id (newyear 2 0))) (vouchers db')
     = [Voucher.set_total_redeemed
          (Voucher.total_redeemed (newyear 2 0) + 1) (newyear 2 0)]
  /\ filter (fun r => negb (has_id (Voucher.id (newyear 2 0)) r))
       (vouchers db')
     = filter (fun r => negb (has_id (Voucher.id (newyear 2 0)) r))
         (vouchers db).
Proof.
  apply (redeem_commits_one_redemption alice "NEWYEAR2026"
           (RedeemBody.mk 150000 (Some "")) 10 (calm "r-1") 0
           (mkDB [newyear 2 0] []) (newyear 2 0));
    try reflexivity.
  unfold exact_for, safe_integer, MAX_SAFE_INTEGER; simpl.
  split; [lia|]. intros _. lia.
Defined.

(** An empty order_id is stored as null. *)
Example empty_order_id_stored_as_null :
  map Redemption.order_id
    (voucher_redemptions
       (store_after (post_redeem (Some alice) "NEWYEAR2026"
                       (RedeemBody.mk 150000 (Some "")) 10)
          (calm "r-1") 0 (mkDB [newyear 2 0] [])))
  = [None].
Proof. reflexivity. Qed.

Lemma second_redeem_refused_witness :
  let db' := store_after (post_redeem (Some alice) "NEWYEAR2026"
                            (order 150000) 10) (calm "r-1") 0
               (mkDB [newyear 2 0] []) in
  status (response_after (post_redeem (Some alice) "NEWYEAR2026"
                            (order 200000) 20) (calm "r-2") 0 db')
  = 400
  /\ store_after (post_redeem (Some alice) "NEWYEAR2026" (order 200000) 20)
       (calm "r-2") 0 db' = db'.
Proof.
  apply (second_redeem_refused alice "NEWYEAR2026" (order 150000)
           10 (calm "r-1") 0 (mkDB [newyear 2 0] []) (newyear 2 0));
    try reflexivity.
Defined.

Lemma commit_all_or_nothing (userId : string) (v : Voucher.t)
    (order_amount : Z) (order_id : option string) (ticks : nat -> Tick)
    (n : nat) (db : DB) :
  filter (has_id (Voucher.id v)) (vouchers db) = [v] ->
  fails (ticks (S (S n))) = false ->
  status (response_after (commit userId v order_amount order_id) ticks n db)
  <> 200 ->
  store_after (commit userId v order_amount order_id) ticks n db = db.
Proof.
  intros Hv Hf3. unfold commit. run_call.
  destruct (fails (ticks n)); cbn [fst snd error failed ok_empty];
    [reflexivity|].
  run_call. cbn [voucher_redemptions].
  destruct (fails (ticks (S n)) || _); cbn [fst snd error data failed ok].
  - intros _. run_call. rewrite Hf3. cbn [fst snd].
    unfold store_after. cbn [run fst snd vouchers voucher_redemptions].
    rewrite (increment_then_rollback _ _ Hv). destruct db; reflexivity.
  - intros Hne. exfalso. apply Hne. reflexivity.
Qed.

(** X16.  A redeem request that runs alone on a store with unique voucher
    ids and is not answered 200 leaves the store exactly as it was,
    provided the rollback call (the fifth call) does not fail. *)
Theorem failed_redeem_leaves_store (user : option User) (code : string)
    (body : RedeemBody.t) (now : Timestamp) (ticks : nat -> Tick) (n : nat)
    (db : DB) :
  NoDup (map Voucher.id (vouchers db)) ->
  fails (ticks (n + 4)%nat) = false ->
  status (response_after (post_redeem user code body now) ticks n db)
  <> 200 ->
  store_after (post_redeem user code body now) ticks n db = db.
Proof.
  intros Hnd Hf. replace (n + 4)%nat with (S (S (S (S n)))) in Hf by lia.
  unfold post_redeem, requireUser, redeem_handler.
  destruct user as [u|]; [|reflexivity].
  destruct (role_is "USER" u); [|reflexivity].
  destruct (redeemVoucherSchema body); [|reflexivity].
  cbn [negb]. run_read.
  destruct (found _) as [v|] eqn:Hfound; [|reflexivity].
  destruct (Voucher.is_active v); cbn [negb]; [|reflexivity].
  destruct (not_started now v); [reflexivity|].
  destruct (expired now v); [reflexivity|].
  destruct (Voucher.max_total_redemptions v <=? Voucher.total_redeemed v);
    [reflexivity|].
  destruct (RedeemBody.order_amount body <? Voucher.min_order_amount v);
    [reflexivity|].
  run_read.
  destruct (data (fst (exec (ticks (S n))
                    (SelectRedemption (Voucher.id v) (user_id u)) db)));
    [reflexivity|].
  apply commit_all_or_nothing; [|exact Hf].
  apply unique_filter; [exact Hnd|].
  eapply fetched_by_code, found_data, Hfound.
Qed.

Lemma failed_redeem_leaves_store_witness :
  store_after (post_redeem (Some alice) "NEWYEAR2026" (order 150000) 10)
    insert_fails 0 (mkDB [newyear 2 0] [])
  = mkDB [newyear 2 0] [].
Proof.
  apply (failed_redeem_leaves_store (Some alice) "NEWYEAR2026"
           (order 150000) 10 insert_fails 0 (mkDB [newyear 2 0] [])).
  - simpl. repeat constructor. intros [].
  - reflexivity.
  - vm_compute. discriminate.
Defined.

(** ** The ledger *)

Lemma wp_conj {A : Type} (p : Prog A) (Q1 Q2 : A -> DB -> Prop) :
  forall db, wp p Q1 db -> wp p Q2 db ->
             wp p (fun a d => Q1 a d /\ Q2 a d) db.
Proof.
  induction p as [a|R op k IH]; intros db H1 H2; cbn [wp] in *.
  - split; assumption.
  - intros t. apply IH; [apply H1|apply H2].
Qed.

Lemma route_keeps_rows (op : Operation) (db : DB) :
  Forall fields_valid (vouchers db) ->
  Forall row_ok (voucher_redemptions db) ->
  wp (route op) (fun _ db' => Forall row_ok (voucher_redemptions db')) db.
Proof.
  intros Hfv Hok.
  destruct op as [user b|user id upd|user id|user code b now]; cbn [route].
  - unfold post_vouchers, requireAdmin, create_handler.
    destruct user as [u|]; [|exact Hok].
    destruct (role_is "ADMIN" u); [|exact Hok].
    destruct (createVoucherSchema b); [|exact Hok].
    destruct (percent_over_100 _ _); [exact Hok|].
    destruct (end_before_start _ _); [exact Hok|].
    cbn [negb wp]. intros t1. rewrite exec_read by reflexivity.
    destruct (data _); [exact Hok|].
    cbn [wp]. intros t2. unfold exec.
    destruct (fails t2 || _); exact Hok.
  - unfold put_voucher, requireAdmin, update_handler.
    destruct user as [u|]; [|exact Hok].
    destruct (role_is "ADMIN" u); [|exact Hok].
    destruct (updateSchema upd); [|exact Hok].
    cbn [negb wp]. intros t1. rewrite exec_read by reflexivity.
    destruct (found _) as [existing|]; [|exact Hok].
    destruct (percent_over_100 _ _); [exact Hok|].
    destruct (end_before_start _ _); [exact Hok|].
    cbn [wp]. intros t2. unfold exec.
    destruct (fails t2); cbn [fst snd error failed]; [exact Hok|].
    destruct (filter (has_id id) (vouchers db)) as [|v0 [|v1 rest]];
      exact Hok.
  - unfold delete_voucher, requireAdmin, delete_handler.
    destruct user as [u|]; [|exact Hok].
    destruct (role_is "ADMIN" u); [|exact Hok].
    cbn [negb wp]. intros t1. rewrite exec_read by reflexivity.
    destruct (found _); [|exact Hok].
    destruct (0 <? _); [exact Hok|].
    cbn [wp]. intros t2. unfold exec.
    destruct (fails t2); exact Hok.
  - unfold post_redeem, requireUser, redeem_handler.
    destruct user as [u|]; [|exact Hok].
    destruct (role_is "USER" u); [|exact Hok].
    destruct (redeemVoucherSchema b) eqn:Hschema; [|exact Hok].
    cbn [negb wp]. intros t1. rewrite exec_read by reflexivity.
    destruct (found _) as [v|] eqn:Hfound; [|exact Hok].
    destruct (Voucher.is_active v); cbn [negb]; [|exact Hok].
    destruct (not_started now v); [exact Hok|].
    destruct (expired now v); [exact Hok|].
    destruct (Voucher.max_total_redemptions v <=? Voucher.total_redeemed v);
      [exact Hok|].
    destruct (RedeemBody.order_amount b <? Voucher.min_order_amount v);
      [exact Hok|].
    cbn [wp]. intros t2. rewrite exec_read by reflexivity.
    destruct (data _); [exact Hok|].
    unfold commit. cbn [wp]. intros t3. unfold exec.
    destruct (fails t3); cbn [fst snd error failed ok_empty]; [exact Hok|].
    intros t4. unfold exec. cbn [voucher_redemptions].
    destruct (fails t4 || _);
      cbn [fst snd error data failed ok voucher_redemptions].
    + intros t5. unfold exec. destruct (fails t5); exact Hok.
    + apply Forall_app. split; [exact Hok|].
      constructor; [|constructor].
      assert (Hv : fields_valid v).
      { rewrite Forall_forall in Hfv. apply Hfv.
        eapply fetched_by_code, found_data, Hfound. }
      unfold redeemVoucherSchema in Hschema. apply Z.ltb_lt in Hschema.
      unfold row_ok. cbn [Redemption.status Redemption.order_amount
        Redemption.discount_amount Redemption.final_amount].
      split; [reflexivity|]. split; [exact Hschema|]. intros Hb.
      apply discount_range; [exact Hv|exact Hschema|].
      apply exact_for_hundredfold; assumption.
Qed.

Lemma served_rows_ok (ops : list (Operation * (nat -> Tick))) :
  forall db,
    Forall fields_valid (vouchers db) ->
    Forall row_ok (voucher_redemptions db) ->
    Forall fields_valid (vouchers (serve ops db))
    /\ Forall row_ok (voucher_redemptions (serve ops db)).
Proof.
  induction ops as [|[op ticks] ops IH]; intros db Hfv Hok; [auto|].
  cbn [serve].
  destruct (wp_sound (route op)
              (fun _ db' => Forall fields_valid (vouchers db')
                            /\ Forall row_ok (voucher_redemptions db'))
              db) with (ticks := ticks) (n := 0%nat) as [Hfv' Hok'].
  { apply wp_conj; [apply route_preserves_fields|apply route_keeps_rows];
      assumption. }
  apply IH; assumption.
Qed.

(** X17.  Every ledger row of a store built from the empty one by requests
    served one after another, whatever calls failed, has status SUCCESS
    and a positive order_amount; and when a hundred times its order_amount
    is still a safe integer (at most Number.MAX_SAFE_INTEGER),
    0 <= discount_amount <= order_amount and
    final_amount = order_amount - discount_amount >= 0. *)
Theorem ledger_rows_well_formed (ops : list (Operation * (nat -> Tick)))
    (r : Redemption.t) :
  In r (voucher_redemptions (serve ops empty_db)) ->
  Redemption.status r = SUCCESS
  /\ 0 < Redemption.order_amount r
  /\ (Redemption.order_amount r * 100 <= MAX_SAFE_INTEGER ->
      0 <= Redemption.discount_amount r <= Redemption.order_amount r
      /\ Redemption.final_amount r
         = Redemption.order_amount r - Redemption.discount_amount r
      /\ 0 <= Redemption.final_amount r).
Proof.
  intros Hr.
  destruct (served_rows_ok ops empty_db (Forall_nil _) (Forall_nil _))
    as [_ Hall].
  rewrite Forall_forall in Hall. destruct (Hall r Hr) as (Hs & Ho & Hex).
  split; [exact Hs|]. split; [exact Ho|]. intros Hb.
  destruct (Hex Hb) as [Hd Hf]. repeat split; try apply Hd; lia.
Qed.

Lemma ledger_rows_well_formed_witness :
  Redemption.status alice_calm_record = SUCCESS
  /\ 0 < Redemption.order_amount alice_calm_record
  /\ 0 <= Redemption.discount_amount alice_calm_record
     <= Redemption.order_amount alice_calm_record
  /\ Redemption.final_amount alice_calm_record
     = Redemption.order_amount alice_calm_record
       - Redemption.discount_amount alice_calm_record
  /\ 0 <= Redemption.final_amount alice_calm_record.
Proof.
  destruct (ledger_rows_well_formed created_and_redeemed alice_calm_record)
    as (Hs & Ho & Hex).
  - vm_compute. left. reflexivity.
  - split; [exact Hs|]. split; [exact Ho|]. apply Hex.
    unfold MAX_SAFE_INTEGER. simpl. lia.
Defined.

Lemma wp_calm_sound {A : Type} (p : Prog A) (Q : A -> DB -> Prop)
    (ticks : nat -> Tick) :
  never_fails ticks ->
  forall (db : DB) (n : nat), wp_calm p Q db ->
    Q (response_after p ticks n db) (store_after p ticks n db).
Proof.
  intros Hcalm. induction p as [a|R op k IH]; intros db n Hwp.
  - exact Hwp.
  - rewrite response_after_call, store_after_call. apply IH.
    apply Hwp, Hcalm.
Qed.

Lemma rows_of_vouchers (vs vs' : list Voucher.t) (rs : list Redemption.t)
    (i : string) :
  rows_of i (mkDB vs rs) = rows_of i (mkDB vs' rs).
Proof. reflexivity. Qed.

Lemma rows_of_app (vs : list Voucher.t) (rs : list Redemption.t)
    (r : Redemption.t) (i : string) :
  rows_of i (mkDB vs (rs ++ [r]))
  = (rows_of i (mkDB vs rs)
     ++ if (Redemption.voucher_id r =? i)%string then [r] else [])%list.
Proof.
  unfold rows_of. cbn [voucher_redemptions]. rewrite filter_app. reflexivity.
Qed.

Lemma pair_filter_empty (rs : list Redemption.t) (vid uid : string) :
  NoDup (map pair_of rs) ->
  data (single (filter (of_voucher_user vid uid) rs)) = None ->
  ~ In (vid, uid) (map pair_of rs).
Proof.
  intros Hnd Hnone Hin.
  induction rs as [|r rs IH]; [contradiction|].
  cbn [map] in Hnd, Hin. inversion Hnd as [|? ? Hnotin Hnd']; subst.
  assert (Hrest : In (vid, uid) (map pair_of rs) ->
            filter (of_voucher_user vid uid) rs <> []).
  { clear. intros Hin Hnil. apply in_map_iff in Hin as (q & Hq & Hin).
    assert (Hq' : In q (filter (of_voucher_user vid uid) rs)).
    { apply filter_In. split; [assumption|]. unfold of_voucher_user.
      unfold pair_of in Hq. injection Hq as -> ->.
      now rewrite !String.eqb_refl. }
    rewrite Hnil in Hq'. contradiction. }
  cbn [filter] in Hnone.
  destruct (of_voucher_user vid uid r) eqn:Hr.
  - destruct (filter (of_voucher_user vid uid) rs) as [|q rest] eqn:Hf;
      [discriminate|].
    apply Hnotin.
    assert (Hpair : forall x, of_voucher_user vid uid x = true ->
              pair_of x = (vid, uid)).
    { intros x Hx. unfold of_voucher_user in Hx.
      apply andb_prop in Hx as [H1 H2]. apply String.eqb_eq in H1, H2.
      unfold pair_of. congruence. }
    rewrite (Hpair r Hr).
    assert (Hq : In q (filter (of_voucher_user vid uid) rs))
      by (rewrite Hf; left; reflexivity).
    apply filter_In in Hq as [Hq Hp].
    rewrite <- (Hpair q Hp). apply in_map, Hq.
  - destruct Hin as [Heq|Hin].
    + unfold pair_of in Heq. injection Heq as H1 H2.
      unfold of_voucher_user in Hr.
      rewrite H1, H2, !String.eqb_refl in Hr. discriminate.
    + apply IH; assumption.
Qed.

Lemma rows_of_fresh (db : DB) (i : string) :
  ledger_agrees db ->
  existsb (has_id i) (vouchers db) = false ->
  rows_of i db = [].
Proof.
  intros (_ & _ & _ & Href) Hfresh.
  unfold rows_of.
  destruct (filter _ (voucher_redemptions db)) as [|r rest] eqn:Hf;
    [reflexivity|].
  exfalso.
  assert (Hr : In r (filter
                       (fun r => (Redemption.voucher_id r =? i)%string)
                       (voucher_redemptions db)))
    by (rewrite Hf; left; reflexivity).
  apply filter_In in Hr as [Hr Hi]. apply String.eqb_eq in Hi.
  destruct (Href r Hr) as (v & Hv & Hid).
  eapply no_row_of_id; [exact Hfresh|].
  rewrite <- Hi, <- Hid. apply in_map, Hv.
Qed.

Lemma create_keeps_ledger (user : option User) (b : CreateBody.t)
    (db : DB) :
  ledger_agrees db ->
  wp_calm (post_vouchers user b) (fun _ db' => ledger_agrees db') db.
Proof.
  intros Hok. unfold post_vouchers, requireAdmin, create_handler.
  destruct user as [u|]; [|exact Hok].
  destruct (role_is "ADMIN" u); [|exact Hok].
  destruct (createVoucherSchema b); [|exact Hok].
  destruct (percent_over_100 _ _); [exact Hok|].
  destruct (end_before_start _ _); [exact Hok|].
  cbn [negb wp_calm]. intros t1 _. rewrite exec_read by reflexivity.
  destruct (data _); [exact Hok|].
  cbn [wp_calm]. intros t2 Hf2. unfold exec. rewrite Hf2. cbn [orb].
  destruct (existsb _ (vouchers db)) eqn:Hfresh;
    cbn [fst snd error failed ok]; [exact Hok|].
  pose proof (rows_of_fresh db _ Hok Hfresh) as Hnone.
  destruct Hok as (Hnd & Hcount & Hpairs & Href).
  repeat split; cbn [vouchers voucher_redemptions].
  - rewrite map_app. cbn [map].
    apply NoDup_app; [assumption|repeat constructor; intros []|].
    intros i Hi [<-|[]]. eapply no_row_of_id; eassumption.
  - intros v Hv. apply in_app_or in Hv as [Hv|[<-|[]]].
    + apply Hcount, Hv.
    + cbn [Voucher.id Voucher.total_redeemed].
      unfold rows_of in *. cbn [voucher_redemptions]. rewrite Hnone.
      reflexivity.
  - exact Hpairs.
  - intros r Hr. destruct (Href r Hr) as (v & Hv & Hid).
    exists v. split; [apply in_or_app; auto|exact Hid].
Qed.

Lemma update_keeps_ledger (user : option User) (id : string)
    (body : UpdateBody.t) (db : DB) :
  ledger_agrees db ->
  wp_calm (put_voucher user id body) (fun _ db' => ledger_agrees db') db.
Proof.
  intros Hok. unfold put_voucher, requireAdmin, update_handler.
  destruct user as [u|]; [|exact Hok].
  destruct (role_is "ADMIN" u); [|exact Hok].
  destruct (updateSchema body); [|exact Hok].
  cbn [negb wp_calm]. intros t1 _. rewrite exec_read by reflexivity.
  destruct (found _) as [existing|]; [|exact Hok].
  destruct (percent_over_100 _ _); [exact Hok|].
  destruct (end_before_start _ _); [exact Hok|].
  cbn [wp_calm]. intros t2 _. unfold exec.
  destruct (fails t2); cbn [fst snd error failed]; [exact Hok|].
  destruct (filter (has_id id) (vouchers db)) as [|v0 [|v1 rest]];
    cbn [fst snd error failed ok]; try exact Hok.
  destruct Hok as (Hnd & Hcount & Hpairs & Href).
  assert (Hback : forall v', In v' (update_where (has_id id)
                                      (apply_update body) (vouchers db)) ->
            exists v, In v (vouchers db) /\ frozen v' = frozen v).
  { intros v' Hv'. unfold update_where in Hv'.
    apply in_map_iff in Hv' as (v & <- & Hv). exists v.
    destruct (has_id id v); auto. }
  repeat split; cbn [vouchers voucher_redemptions].
  - rewrite update_where_ids; [assumption|reflexivity].
  - intros v' Hv'. destruct (Hback v' Hv') as (v & Hv & Hfr).
    unfold frozen in Hfr. injection Hfr as Hi _ Ht _.
    rewrite Hi, Ht. apply Hcount, Hv.
  - exact Hpairs.
  - intros r Hr. destruct (Href r Hr) as (v & Hv & Hid).
    exists (if has_id id v then apply_update body v else v). split.
    + unfold update_where. apply in_map_iff. exists v. auto.
    + destruct (has_id id v); exact Hid.
Qed.

Lemma delete_keeps_ledger (user : option User) (id : string) (db : DB) :
  ledger_agrees db ->
  wp_calm (delete_voucher user id) (fun _ db' => ledger_agrees db') db.
Proof.
  intros Hok. unfold delete_voucher, requireAdmin, delete_handler.
  destruct user as [u|]; [|exact Hok].
  destruct (role_is "ADMIN" u); [|exact Hok].
  cbn [negb wp_calm]. intros t1 _. rewrite exec_read by reflexivity.
  destruct (found _) as [existing|] eqn:Hfound; [|exact Hok].
  destruct (Z.ltb_spec 0 (Voucher.total_redeemed existing)) as [|Hzero];
    [exact Hok|].
  cbn [wp_calm]. intros t2 _. unfold exec.
  destruct (fails t2); cbn [fst snd error failed ok_empty]; [exact Hok|].
  apply found_data, fetched_by_id in Hfound.
  destruct Hok as (Hnd & Hcount & Hpairs & Href).
  repeat split; cbn [vouchers voucher_redemptions].
  - apply NoDup_filter_ids, Hnd.
  - intros v Hv. apply filter_In in Hv as [Hv _]. apply Hcount, Hv.
  - exact Hpairs.
  - intros r Hr. destruct (Href r Hr) as (v & Hv & Hid).
    exists v. split; [|exact Hid]. apply filter_In. split; [exact Hv|].
    destruct (has_id id v) eqn:Hidv; [|reflexivity]. exfalso.
    assert (Hin : In v (filter (has_id id) (vouchers db)))
      by (apply filter_In; auto).
    rewrite Hfound in Hin. destruct Hin as [<-|[]].
    assert (Hrow : In r (rows_of (Voucher.id existing) db)).
    { unfold rows_of. apply filter_In. split; [exact Hr|].
      rewrite Hid. apply String.eqb_refl. }
    specialize (Hcount existing Hv).
    destruct (rows_of (Voucher.id existing) db); [contradiction|].
    cbn [List.length] in Hcount. lia.
Qed.

Lemma redeem_keeps_ledger (user : option User) (code : string)
    (body : RedeemBody.t) (now : Timestamp) (db : DB) :
  ledger_agrees db ->
  wp_calm (post_redeem user code body now) (fun _ db' => ledger_agrees db')
    db.
Proof.
  intros Hok. unfold post_redeem, requireUser, redeem_handler.
  destruct user as [u|]; [|exact Hok].
  destruct (role_is "USER" u); [|exact Hok].
  destruct (redeemVoucherSchema body); [|exact Hok].
  cbn [negb wp_calm]. intros t1 _. rewrite exec_read by reflexivity.
  destruct (found _) as [v|] eqn:Hfound; [|exact Hok].
  destruct (Voucher.is_active v); cbn [negb]; [|exact Hok].
  destruct (not_started now v); [exact Hok|].
  destruct (expired now v); [exact Hok|].
  destruct (Voucher.max_total_redemptions v <=? Voucher.total_redeemed v);
    [exact Hok|].
  destruct (RedeemBody.order_amount body <? Voucher.min_order_amount v);
    [exact Hok|].
  cbn [wp_calm]. intros t2 Hf2. rewrite exec_read by reflexivity.
  destruct (data _) eqn:Hprior; [exact Hok|].
  unfold exec in Hprior. rewrite Hf2 in Hprior. cbn [fst] in Hprior.
  apply found_data, fetched_by_code in Hfound.
  pose proof Hok as (Hnd & Hcount & Hpairs & Href).
  pose proof (unique_filter _ _ Hnd Hfound) as Hid.
  pose proof (pair_filter_empty _ _ _ Hpairs Hprior) as Hnew.
  unfold commit. cbn [wp_calm]. intros t3 Hf3. unfold exec. rewrite Hf3.
  cbn [fst snd error ok_empty].
  intros t4 Hf4. unfold exec. rewrite Hf4.
  cbn [orb voucher_redemptions].
  destruct (existsb _ (voucher_redemptions db));
    cbn [fst snd error data failed ok].
  - intros t5 Hf5. unfold exec. rewrite Hf5. cbn [fst snd].
    cbn [vouchers voucher_redemptions].
    rewrite (increment_then_rollback _ _ Hid). destruct db; exact Hok.
  - rewrite (counter_filter_unique _ _ _ Hid).
    repeat split; cbn [vouchers voucher_redemptions].
    + rewrite update_where_ids; [assumption|reflexivity].
    + intros v' Hv'. unfold update_where in Hv'.
      apply in_map_iff in Hv' as (r & <- & Hr).
      rewrite rows_of_app. cbn [Redemption.voucher_id].
      rewrite length_app, Nat2Z.inj_add.
      rewrite (rows_of_vouchers _ (vouchers db)).
      destruct (has_id (Voucher.id v) r) eqn:Hr'.
      * assert (Hin : In r (filter (has_id (Voucher.id v)) (vouchers db)))
          by (apply filter_In; auto).
        rewrite Hid in Hin. destruct Hin as [<-|[]].
        cbn [Voucher.set_total_redeemed Voucher.id Voucher.total_redeemed].
        rewrite String.eqb_refl. cbn [List.length].
        rewrite (Hcount v Hfound). destruct db; reflexivity.
      * unfold has_id in Hr'. rewrite String.eqb_sym, Hr'.
        cbn [List.length]. rewrite (Hcount r Hr). destruct db; cbn; lia.
    + rewrite map_app. cbn [map].
      apply NoDup_app; [assumption|repeat constructor; intros []|].
      intros pr Hpr [<-|[]]. apply Hnew. exact Hpr.
    + intros r Hr. apply in_app_or in Hr as [Hr|[<-|[]]].
      * destruct (Href r Hr) as (x & Hx & Hxid).
        exists (if has_id (Voucher.id v) x
                then Voucher.set_total_redeemed
                       (Voucher.total_redeemed v + 1) x
                else x). split.
        -- unfold update_where. apply in_map_iff. exists x. auto.
        -- destruct (has_id (Voucher.id v) x); exact Hxid.
      * exists (Voucher.set_total_redeemed (Voucher.total_redeemed v + 1) v).
        split; [|reflexivity].
        unfold update_where. apply in_map_iff. exists v.
        unfold has_id. rewrite String.eqb_refl. auto.
Qed.

Lemma route_keeps_ledger (op : Operation) (db : DB) :
  ledger_agrees db ->
  wp_calm (route op) (fun _ db' => ledger_agrees db') db.
Proof.
  intros Hok. destruct op; cbn [route].
  - apply create_keeps_ledger, Hok.
  - apply update_keeps_ledger, Hok.
  - apply delete_keeps_ledger, Hok.
  - apply redeem_keeps_ledger, Hok.
Qed.

(** X18.  When requests are served one after another and no storage call
    fails, the total_redeemed of every voucher is the number of its ledger
    rows, no user has two ledger rows of one voucher, and every ledger row
    is of a voucher still in the store. *)
Theorem counter_is_ledger_count (ops : list (Operation * (nat -> Tick))) :
  Forall (fun x => never_fails (snd x)) ops ->
  let db := serve ops empty_db in
  (forall v, In v (vouchers db) ->
     Voucher.total_redeemed v
     = Z.of_nat (List.length (rows_of (Voucher.id v) db)))
  /\ NoDup (map pair_of (voucher_redemptions db))
  /\ (forall r, In r (voucher_redemptions db) ->
        exists v, In v (vouchers db)
                  /\ Voucher.id v = Redemption.voucher_id r).
Proof.
  intros Hcalm. cbv zeta.
  assert (H : forall db, ledger_agrees db -> ledger_agrees (serve ops db)).
  { induction ops as [|[op ticks] ops IH]; intros db Hok; [exact Hok|].
    inversion Hcalm as [|? ? Hticks Hrest]; subst. cbn [serve].
    apply IH; [exact Hrest|].
    apply (wp_calm_sound (route op) (fun _ db' => ledger_agrees db') ticks
             Hticks db 0).
    apply route_keeps_ledger, Hok. }
  apply (H empty_db). repeat split; try constructor; intros ? [].
Qed.

Lemma counter_is_ledger_count_witness :
  let db := serve created_and_redeemed empty_db in
  (forall v, In v (vouchers db) ->
     Voucher.total_redeemed v
     = Z.of_nat (List.length (rows_of (Voucher.id v) db)))
  /\ NoDup (map pair_of (voucher_redemptions db))
  /\ (forall r, In r (voucher_redemptions db) ->
        exists v, In v (vouchers db)
                  /\ Voucher.id v = Redemption.voucher_id r).
Proof.
  apply (counter_is_ledger_count created_and_redeemed).
  repeat constructor.
Defined.

Lemma leaves_max_alone_not_lowering (op : Operation) (db : DB) :
  leaves_max_alone op = true -> lowers_below_redeemed op db = false.
Proof.
  destruct op as [| user id body | |]; cbn; try reflexivity.
  destruct (UpdateBody.max_total_redemptions body);
    [discriminate|reflexivity].
Qed.

(** X19.  When requests are served one after another, no storage call
    fails and no update names max_total_redemptions, no voucher has more
    ledger rows than its max_total_redemptions. *)
Theorem ledger_within_capacity (ops : list (Operation * (nat -> Tick))) :
  Forall (fun x => never_fails (snd x) /\ leaves_max_alone (fst x) = true)
    ops ->
  forall v, In v (vouchers (serve ops empty_db)) ->
    Z.of_nat (List.length (rows_of (Voucher.id v) (serve ops empty_db)))
    <= Voucher.max_total_redemptions v.
Proof.
  intros Hops.
  assert (H : forall db, ledger_agrees db /\ db_ok db ->
            ledger_agrees (serve ops db) /\ db_ok (serve ops db)).
  { induction ops as [|[op ticks] ops IH]; intros db Hdb; [exact Hdb|].
    inversion Hops as [|? ? [Hticks Hmax] Hrest]; subst.
    cbn [fst snd] in *. cbn [serve]. apply IH; [exact Hrest|].
    destruct Hdb as [Hl Hok]. split.
    - apply (wp_calm_sound (route op) (fun _ db' => ledger_agrees db') ticks
               Hticks db 0).
      apply route_keeps_ledger, Hl.
    - apply (wp_sound (route op) (fun _ db' => db_ok db') db).
      apply route_preserves_db_ok; [exact Hok|].
      apply leaves_max_alone_not_lowering, Hmax. }
  destruct (H empty_db) as [(_ & Hcount & _) [_ Hrange]].
  { repeat split; try constructor; intros ? []. }
  intros v Hv. rewrite <- (Hcount v Hv).
  rewrite Forall_forall in Hrange. apply Hrange, Hv.
Qed.

Lemma ledger_within_capacity_witness :
  Z.of_nat (List.length (rows_of (Voucher.id (newyear 2 1))
                           (serve created_and_redeemed empty_db)))
  <= Voucher.max_total_redemptions (newyear 2 1).
Proof.
  apply (ledger_within_capacity created_and_redeemed).
  - repeat constructor.
  - vm_compute. left. reflexivity.
Defined.
